(** * HPS_IRQ: the Cyclone V / Arria 10 HPS interrupt-controller driver

    A shallow embedding of [Drivers/HPS_IRQ/HPS_IRQ.c].  The driver's global
    variables become the fields of one record that every routine threads
    through; writes to the memory-mapped GIC windows are appended to a log
    kept in that record; the system allocator and the user callbacks, which
    live outside the file, are inputs of the routines that reach them. *)

From Stdlib Require Import ZArith Lia Bool List.
From stdpp Require Import base tactics option list numbers.

Local Open Scope Z_scope.

(** ** Machine integers *)

(** [unsigned int] on the HPS (ARMv7-A, ILP32): arithmetic wraps modulo 2^32. *)
Definition UINT_MODULUS : Z := 2 ^ 32.
Definition u32 (x : Z) : Z := x mod UINT_MODULUS.

(** Conversion of a 32-bit pattern to [int], the representation of the
    [HPSIRQSource] enumeration. *)
Definition s32 (x : Z) : Z :=
  let r := u32 x in if r <? 2 ^ 31 then r else r - UINT_MODULUS.

(** ** Result codes ([HpsErr_t], from Util/error.h) *)

(** Modelled from the spec: the header declaring [HpsErr_t] and [IS_ERROR] is
    not part of the sources at hand.  The spec's error taxonomy lists
    not-initialized, null-pointer argument, allocation-failure and not-found
    as failures, and success and "skipped" (already in the requested state)
    as non-failures. *)
Inductive HpsErr_t : Type :=
| ERR_SUCCESS
| ERR_SKIPPED
| ERR_NOINIT
| ERR_NULLPTR
| ERR_ALLOCFAIL
| ERR_NOTFOUND.

Definition IS_ERROR (code : HpsErr_t) : bool :=
  match code with
  | ERR_SUCCESS | ERR_SKIPPED => false
  | _ => true
  end.

#[global] Instance HpsErr_t_eq_dec : EqDecision HpsErr_t.
Proof. solve_decision. Defined.

(** ** Handler records and driver globals *)

(** Interrupt source identifiers (an [int]-sized enumeration). *)
Definition HPSIRQSource : Type := Z.

(** Data pointers ([void*]); [NULL] is address zero. *)
Definition ptr : Type := Z.
Definition NULL : ptr := 0.

(** [IsrHandlerFunc_t]: a pointer to a callback.  The null pointer and the
    address of the driver's own [HPS_IRQ_unhandledIRQ] are told apart from
    user code, whose behaviour is supplied from outside. *)
Inductive IsrHandlerFunc_t : Type :=
| FNull
| FDefaultUnhandled
| FUser (addr : Z).

#[global] Instance IsrHandlerFunc_t_eq_dec : EqDecision IsrHandlerFunc_t.
Proof. solve_decision. Defined.

Record IsrHandler_t : Type := mkIsrHandler {
  interruptID : HPSIRQSource;
  handler : IsrHandlerFunc_t;
  param : ptr;
  enabled : bool
}.

#[global] Instance IsrHandler_t_eq_dec : EqDecision IsrHandler_t.
Proof. solve_decision. Defined.

(** Four 4-byte-aligned members: { int; code pointer; data pointer; bool }. *)
Definition sizeof_IsrHandler_t : Z := 16.

(** Offsets (in words) into the two GIC windows. *)
Definition ICCICR : Z := 0x00 / 4.
Definition ICCPMR : Z := 0x04 / 4.
Definition ICCIAR : Z := 0x0C / 4.
Definition ICCEOIR : Z := 0x10 / 4.
Definition ICDDCR : Z := 0x000 / 4.
Definition ICDISER : Z := 0x100 / 4.
Definition ICDICER : Z := 0x180 / 4.
Definition ICDIPTR : Z := 0x800 / 4.

(** The effects a routine has on the world outside the driver's variables,
    in the order they happen: loads and stores on the CPU-interface window
    (word index), stores on the distributor window (word index, or byte
    offset for the byte store), and calls through a callback pointer.  The
    last argument of [Call] tells whether the callee is handed the address of
    a "handled" flag ([true]) or the null pointer ([false]). *)
Inductive Effect : Type :=
| CpuIfLoad (index value : Z)
| CpuIfStore (index value : Z)
| DistStore (index value : Z)
| DistStoreByte (offset value : Z)
| Call (f : IsrHandlerFunc_t) (id : HPSIRQSource) (arg : ptr) (flag : bool).

#[global] Instance Effect_eq_dec : EqDecision Effect.
Proof. solve_decision. Defined.

(** The driver's globals, the IRQ mask bit of the CPSR and the log of
    effects so far (oldest first).  [__isr_handlers] is the heap block as a list of
    whole records; [NULL] is the empty block. *)
Record Driver : Type := mkDriver {
  __isInitialised : bool;
  __isr_handler_count : Z;
  __isr_handlers : list IsrHandler_t;
  __isr_unhandledIRQCallback : IsrHandlerFunc_t;
  irq_masked : bool;
  effects : list Effect
}.

Definition set_initialised (b : bool) (d : Driver) : Driver :=
  mkDriver b (__isr_handler_count d) (__isr_handlers d)
           (__isr_unhandledIRQCallback d) (irq_masked d) (effects d).
Definition set_count (n : Z) (d : Driver) : Driver :=
  mkDriver (__isInitialised d) n (__isr_handlers d)
           (__isr_unhandledIRQCallback d) (irq_masked d) (effects d).
Definition set_handlers (l : list IsrHandler_t) (d : Driver) : Driver :=
  mkDriver (__isInitialised d) (__isr_handler_count d) l
           (__isr_unhandledIRQCallback d) (irq_masked d) (effects d).
Definition set_unhandled (f : IsrHandlerFunc_t) (d : Driver) : Driver :=
  mkDriver (__isInitialised d) (__isr_handler_count d) (__isr_handlers d)
           f (irq_masked d) (effects d).
Definition set_masked (b : bool) (d : Driver) : Driver :=
  mkDriver (__isInitialised d) (__isr_handler_count d) (__isr_handlers d)
           (__isr_unhandledIRQCallback d) b (effects d).
Definition emit (w : Effect) (d : Driver) : Driver :=
  mkDriver (__isInitialised d) (__isr_handler_count d) (__isr_handlers d)
           (__isr_unhandledIRQCallback d) (irq_masked d) (effects d ++ [w]).

(** The statically initialised globals at program entry; only the CPSR mask
    bit is left to the caller. *)
Definition power_on (masked : bool) : Driver :=
  mkDriver false 0 [] FNull masked [].

(** ** Collaborators from Util/lowlevel.h and the C library *)

(** Modelled from the spec: [__disable_irq] and [__enable_irq] come from
    Util/lowlevel.h, which is not part of the sources at hand.  The spec
    describes them as "a processor-mode-aware interrupt-mask toggle returning
    the prior mask state": [__disable_irq] masks IRQs and returns whether they
    were masked before the call; [__enable_irq] unmasks them. *)
Definition __disable_irq (d : Driver) : bool * Driver :=
  (irq_masked d, set_masked true d).
Definition __enable_irq (d : Driver) : Driver := set_masked false d.

(** The answer of the system allocator to one [realloc] request: failure, or
    success together with the indeterminate contents of any records beyond
    the old block. *)
Inductive ReallocOutcome : Type :=
| ReallocFail
| ReallocOk (fresh : nat -> IsrHandler_t).

(** [realloc(block, nbytes)]: on success the new block holds the whole
    records that fit in [nbytes] bytes, the old contents up to the smaller of
    the two sizes; on failure the old block is left as it is and the null
    pointer is returned.  A request for zero bytes, which the driver makes
    only after its size computation has wrapped, yields the empty block. *)
Definition realloc (block : list IsrHandler_t) (nbytes : Z)
    (heap : ReallocOutcome) : option (list IsrHandler_t) :=
  match heap with
  | ReallocFail => None
  | ReallocOk fresh =>
      let n := Z.to_nat (nbytes / sizeof_IsrHandler_t) in
      Some (take n block ++ map fresh (seq (length block) (n - length block)))
  end.

(** ** Internal helpers *)

(** [_HPS_IRQ_doRegister]: fill slot [handler] and program the distributor.
    A store outside the block is undefined in C; the list update leaves the
    block as it is there, and [registerHandler_table] and
    [registerHandlers_run] show that the interface routines store inside the
    block when the table is consistent. *)
Definition _HPS_IRQ_doRegister (handler : Z) (interruptID : HPSIRQSource)
    (handlerFunction : IsrHandlerFunc_t) (handlerParam : ptr) (d : Driver) : Driver :=
  let d := set_handlers
             (<[Z.to_nat handler :=
                  mkIsrHandler interruptID handlerFunction handlerParam true]>
                (__isr_handlers d)) d in
  let d := emit (DistStore (ICDISER + Z.quot interruptID 32)
                               (u32 (Z.shiftl 1 (Z.rem interruptID 32)))) d in
  emit (DistStoreByte (4 * (ICDIPTR + Z.quot interruptID 4) + Z.rem interruptID 4) 0x1) d.

(** [_HPS_IRQ_growTable] *)
Definition _HPS_IRQ_growTable (growByN : Z) (heap : ReallocOutcome)
    (d : Driver) : HpsErr_t * Driver :=
  if growByN =? 0 then (ERR_SUCCESS, d)
  else
    match realloc (__isr_handlers d)
                  (u32 (u32 (__isr_handler_count d + growByN) * sizeof_IsrHandler_t))
                  heap with
    | None => (ERR_ALLOCFAIL, d)
    | Some new_handlers =>
        (ERR_SUCCESS,
         set_count (u32 (__isr_handler_count d + growByN))
                   (set_handlers new_handlers d))
    end.

(** The scanning loop shared by [_HPS_IRQ_findHandler] and [__irq_isr]:
    starting at index [handler] with [remaining] iterations left, stop at the
    first record whose [interruptID] equals [id].  A read past the end of the
    block (undefined in C) is treated as a record that does not match. *)
Fixpoint scan (table : list IsrHandler_t) (id : HPSIRQSource)
    (handler remaining : nat) : nat :=
  match remaining with
  | O => handler
  | S remaining' =>
      match table !! handler with
      | Some r =>
          if interruptID r =? id then handler
          else scan table id (S handler) remaining'
      | None => scan table id (S handler) remaining'
      end
  end.

(** [_HPS_IRQ_findHandler] *)
Definition _HPS_IRQ_findHandler (interruptID : HPSIRQSource) (d : Driver) : Z :=
  Z.of_nat (scan (__isr_handlers d) interruptID 0 (Z.to_nat (__isr_handler_count d))).

(** The two member stores of [_HPS_IRQ_doUnregister] on one record:
    [.handler = 0x0] and [.enabled = false]. *)
Definition clear_record (r : IsrHandler_t) : IsrHandler_t :=
  mkIsrHandler (interruptID r) FNull (param r) false.

(** [_HPS_IRQ_doUnregister] *)
Definition _HPS_IRQ_doUnregister (handler : Z) (interruptID : HPSIRQSource)
    (d : Driver) : Driver :=
  let '(was_masked, d) := __disable_irq d in
  let d := set_handlers
             (alter clear_record (Z.to_nat handler) (__isr_handlers d)) d in
  let d := emit (DistStore (ICDICER + Z.quot interruptID 32)
                               (u32 (Z.shiftl 1 (Z.land interruptID 31)))) d in
  if negb was_masked then __enable_irq d else d.

(** ** User-facing interface *)

(** [HPS_IRQ_initialise] *)
Definition HPS_IRQ_initialise (userUnhandledIRQCallback : IsrHandlerFunc_t)
    (d : Driver) : HpsErr_t * Driver :=
  let d := snd (__disable_irq d) in
  let d := emit (CpuIfStore ICCPMR 0xFFFF) d in
  let d := emit (CpuIfStore ICCICR 0x1) d in
  let d := emit (DistStore ICDDCR 0x1) d in
  let d := set_count 0 d in
  let d := set_handlers [] d in
  let d := if decide (userUnhandledIRQCallback = FNull)
           then set_unhandled FDefaultUnhandled d
           else set_unhandled userUnhandledIRQCallback d in
  let d := __enable_irq d in
  let d := set_initialised true d in
  (ERR_SUCCESS, d).

(** [HPS_IRQ_isInitialised] *)
Definition HPS_IRQ_isInitialised (d : Driver) : bool := __isInitialised d.

(** [HPS_IRQ_globalEnable] *)
Definition HPS_IRQ_globalEnable (enable : bool) (d : Driver) : HpsErr_t * Driver :=
  if enable then
    if negb (HPS_IRQ_isInitialised d) then (ERR_NOINIT, d)
    else (ERR_SUCCESS, __enable_irq d)
  else
    let '(wasMasked, d) := __disable_irq d in
    (if wasMasked then ERR_SUCCESS else ERR_SKIPPED, d).

(** [HPS_IRQ_registerHandler] *)
Definition HPS_IRQ_registerHandler (interruptID : HPSIRQSource)
    (handlerFunction : IsrHandlerFunc_t) (handlerParam : ptr)
    (heap : ReallocOutcome) (d : Driver) : HpsErr_t * Driver :=
  if negb (HPS_IRQ_isInitialised d) then (ERR_NOINIT, d)
  else
    let handler := _HPS_IRQ_findHandler interruptID d in
    let '(was_masked, d) := __disable_irq d in
    let '(status, d) :=
      if handler =? __isr_handler_count d
      then _HPS_IRQ_growTable 1 heap d
      else (ERR_SUCCESS, d) in
    if IS_ERROR status then (status, d)
    else
      let d := _HPS_IRQ_doRegister handler interruptID handlerFunction handlerParam d in
      let d := if negb was_masked then __enable_irq d else d in
      (ERR_SUCCESS, d).

(** Element [idx] of a caller's array.  Reading past its end is undefined in
    C; here it yields the given zero element, and the theorems about the
    batch routines take arrays of [count] elements. *)
Definition array_get {A : Type} (zero : A) (a : list A) (idx : nat) : A :=
  nth idx a zero.

(** One iteration of the first loop of [HPS_IRQ_registerHandlers]: the local
    array [handlers], filled in index order, and [growBy]. *)
Definition slot_step (d : Driver) (interruptIDs : list HPSIRQSource)
    (acc : list Z * Z) (idx : nat) : list Z * Z :=
  let '(handlers, growBy) := acc in
  let handler := _HPS_IRQ_findHandler (array_get 0 interruptIDs idx) d in
  if handler =? __isr_handler_count d
  then (handlers ++ [u32 (handler + growBy)], u32 (growBy + 1))
  else (handlers ++ [handler], growBy).

(** One iteration of its second loop. *)
Definition write_step (handlers : list Z) (interruptIDs : list HPSIRQSource)
    (handlerFunctions : list IsrHandlerFunc_t) (handlerParams : option (list ptr))
    (d : Driver) (idx : nat) : Driver :=
  let param := match handlerParams with
               | None => NULL
               | Some ps => array_get NULL ps idx
               end in
  _HPS_IRQ_doRegister (array_get 0 handlers idx) (array_get 0 interruptIDs idx)
                      (array_get FNull handlerFunctions idx) param d.

(** [HPS_IRQ_registerHandlers]; a null array argument is [None]. *)
Definition HPS_IRQ_registerHandlers (interruptIDs : option (list HPSIRQSource))
    (handlerFunctions : option (list IsrHandlerFunc_t))
    (handlerParams : option (list ptr)) (count : nat)
    (heap : ReallocOutcome) (d : Driver) : HpsErr_t * Driver :=
  if negb (HPS_IRQ_isInitialised d) then (ERR_NOINIT, d)
  else
    match interruptIDs, handlerFunctions with
    | Some ids, Some fns =>
        let '(handlers, growBy) := foldl (slot_step d ids) ([], 0) (seq 0 count) in
        let '(was_masked, d) := __disable_irq d in
        let '(status, d) := _HPS_IRQ_growTable growBy heap d in
        if IS_ERROR status then (status, d)
        else
          let d := foldl (write_step handlers ids fns handlerParams) d (seq 0 count) in
          let d := if negb was_masked then __enable_irq d else d in
          (ERR_SUCCESS, d)
    | _, _ => (ERR_NULLPTR, d)
    end.

(** [HPS_IRQ_unregisterHandler] *)
Definition HPS_IRQ_unregisterHandler (interruptID : HPSIRQSource)
    (d : Driver) : HpsErr_t * Driver :=
  if negb (HPS_IRQ_isInitialised d) then (ERR_NOINIT, d)
  else
    let handler := _HPS_IRQ_findHandler interruptID d in
    if negb (handler =? __isr_handler_count d)
    then (ERR_SUCCESS, _HPS_IRQ_doUnregister handler interruptID d)
    else (ERR_NOTFOUND, d).

(** One iteration of the loop of [HPS_IRQ_unregisterHandlers]. *)
Definition unregister_step (interruptIDs : list HPSIRQSource)
    (acc : HpsErr_t * Driver) (idx : nat) : HpsErr_t * Driver :=
  let '(status, d) := acc in
  let interruptID := array_get 0 interruptIDs idx in
  let handler := _HPS_IRQ_findHandler interruptID d in
  if negb (handler =? __isr_handler_count d)
  then (status, _HPS_IRQ_doUnregister handler interruptID d)
  else (ERR_NOTFOUND, d).

(** [HPS_IRQ_unregisterHandlers] *)
Definition HPS_IRQ_unregisterHandlers (interruptIDs : option (list HPSIRQSource))
    (count : nat) (d : Driver) : HpsErr_t * Driver :=
  if negb (HPS_IRQ_isInitialised d) then (ERR_NOINIT, d)
  else
    match interruptIDs with
    | Some ids => foldl (unregister_step ids) (ERR_SUCCESS, d) (seq 0 count)
    | None => (ERR_NULLPTR, d)
    end.

(** ** The IRQ service routine *)

(** What a call through a callback pointer does, as far as the caller can
    tell: it returns, having left the "handled" flag at the given value, or it
    never returns. *)
Inductive CallbackOutcome : Type :=
| CbReturns (handled : bool)
| CbNoReturn.

(** The behaviour of user code, by code address and arguments (the last one
    as in [Call]). *)
Definition Callbacks : Type := Z -> HPSIRQSource -> ptr -> bool -> CallbackOutcome.

(** How an entry into [__irq_isr] ends: the routine returns; a callee keeps
    control for ever; control is lost through a null code pointer; or the
    routine branches to [__default_isr]. *)
Inductive IsrExit : Type :=
| IsrReturned
| IsrCalleeKeepsControl
| IsrNullCall
| IsrDefault.

#[global] Instance IsrExit_eq_dec : EqDecision IsrExit.
Proof. solve_decision. Defined.

(** A call through [f].  [HPS_IRQ_unhandledIRQ] is [while(1);]. *)
Definition invoke (user : Callbacks) (f : IsrHandlerFunc_t)
    (id : HPSIRQSource) (arg : ptr) (flag : bool) : option CallbackOutcome :=
  match f with
  | FNull => None
  | FDefaultUnhandled => Some CbNoReturn
  | FUser addr => Some (user addr id arg flag)
  end.

(** The tail of [__irq_isr] from the test of [isr_handled] on. *)
Definition isr_finish (user : Callbacks) (int_ID : HPSIRQSource)
    (isr_handled : bool) (d : Driver) : IsrExit * Driver :=
  if negb isr_handled then
    let f := __isr_unhandledIRQCallback d in
    let d := emit (Call f int_ID NULL false) d in
    match invoke user f int_ID NULL false with
    | None => (IsrNullCall, d)
    | Some CbNoReturn => (IsrCalleeKeepsControl, d)
    | Some (CbReturns _) =>
        (IsrReturned, emit (CpuIfStore ICCEOIR (u32 int_ID)) d)
    end
  else (IsrReturned, emit (CpuIfStore ICCEOIR (u32 int_ID)) d).

(** The loop of [__irq_isr]: the record, if any, at which the scan for
    [int_ID] stops before reaching [__isr_handler_count]. *)
Definition isr_lookup (int_ID : HPSIRQSource) (d : Driver) : option IsrHandler_t :=
  let handler := scan (__isr_handlers d) int_ID 0 (Z.to_nat (__isr_handler_count d)) in
  if Z.of_nat handler <? __isr_handler_count d
  then __isr_handlers d !! handler
  else None.

(** [__irq_isr]; [iccIAR] is the value the acknowledge register holds. *)
Definition __irq_isr (user : Callbacks) (iccIAR : Z) (d : Driver) : IsrExit * Driver :=
  if negb (__isInitialised d) then (IsrDefault, d)
  else
    let d := emit (CpuIfLoad ICCIAR (u32 iccIAR)) d in
    let int_ID := s32 iccIAR in
    match isr_lookup int_ID d with
    | Some {| handler := callee; param := arg |} =>
        let d := emit (Call callee int_ID arg true) d in
        match invoke user callee int_ID arg true with
        | None => (IsrNullCall, d)
        | Some CbNoReturn => (IsrCalleeKeepsControl, d)
        | Some (CbReturns isr_handled) => isr_finish user int_ID isr_handled d
        end
    | None => isr_finish user int_ID false d
    end.

(** ** The software-interrupt service routine *)

Module SVC.

(** The part of the processor the inline assembly of [__svc_isr] touches: the
    registers it names (those banked for supervisor mode as seen from that
    mode), the Z condition flag, and byte-addressed little-endian memory. *)
Record Cpu : Type := mkCpu {
  r0 : Z; r1 : Z; r2 : Z; r3 : Z; r12 : Z;
  sp : Z; lr : Z; pc : Z;
  spsr : Z; cpsr : Z;
  flag_Z : bool;
  mem : Z -> Z
}.

Definition load8 (m : Z -> Z) (a : Z) : Z := m (u32 a) mod 2 ^ 8.
Definition load16 (m : Z -> Z) (a : Z) : Z :=
  load8 m a + 2 ^ 8 * load8 m (a + 1).
Definition load32 (m : Z -> Z) (a : Z) : Z :=
  load8 m a + 2 ^ 8 * load8 m (a + 1)
  + 2 ^ 16 * load8 m (a + 2) + 2 ^ 24 * load8 m (a + 3).

Definition store8 (m : Z -> Z) (a v : Z) : Z -> Z :=
  fun x => if x =? u32 a then v mod 2 ^ 8 else m x.
Definition store32 (m : Z -> Z) (a v : Z) : Z -> Z :=
  store8 (store8 (store8 (store8 m a v) (a + 1) (v / 2 ^ 8))
                 (a + 2) (v / 2 ^ 16)) (a + 3) (v / 2 ^ 24).

Definition set_r0 (v : Z) (c : Cpu) : Cpu :=
  mkCpu v (r1 c) (r2 c) (r3 c) (r12 c) (sp c) (lr c) (pc c) (spsr c) (cpsr c)
        (flag_Z c) (mem c).
Definition set_r1 (v : Z) (c : Cpu) : Cpu :=
  mkCpu (r0 c) v (r2 c) (r3 c) (r12 c) (sp c) (lr c) (pc c) (spsr c) (cpsr c)
        (flag_Z c) (mem c).
Definition set_r12 (v : Z) (c : Cpu) : Cpu :=
  mkCpu (r0 c) (r1 c) (r2 c) (r3 c) v (sp c) (lr c) (pc c) (spsr c) (cpsr c)
        (flag_Z c) (mem c).
Definition set_spsr (v : Z) (c : Cpu) : Cpu :=
  mkCpu (r0 c) (r1 c) (r2 c) (r3 c) (r12 c) (sp c) (lr c) (pc c) v (cpsr c)
        (flag_Z c) (mem c).
Definition set_flag_Z (b : bool) (c : Cpu) : Cpu :=
  mkCpu (r0 c) (r1 c) (r2 c) (r3 c) (r12 c) (sp c) (lr c) (pc c) (spsr c) (cpsr c)
        b (mem c).

(** [STMFD sp!, {r0-r3, r12, lr}] *)
Definition STMFD_sp_r0_r3_r12_lr (c : Cpu) : Cpu :=
  let sp' := u32 (sp c - 24) in
  let m := store32 (mem c) sp' (r0 c) in
  let m := store32 m (sp' + 4) (r1 c) in
  let m := store32 m (sp' + 8) (r2 c) in
  let m := store32 m (sp' + 12) (r3 c) in
  let m := store32 m (sp' + 16) (r12 c) in
  let m := store32 m (sp' + 20) (lr c) in
  mkCpu (r0 c) (r1 c) (r2 c) (r3 c) (r12 c) sp' (lr c) (pc c) (spsr c) (cpsr c)
        (flag_Z c) m.

(** [MRS r12, spsr] *)
Definition MRS_r12_spsr (c : Cpu) : Cpu := set_r12 (spsr c) c.

(** [TST r12, #imm] (only the Z flag is read afterwards) *)
Definition TST_r12 (imm : Z) (c : Cpu) : Cpu :=
  set_flag_Z (Z.land (r12 c) imm =? 0) c.

(** Condition codes: NE is "Z clear", EQ is "Z set". *)
Definition cond_NE (c : Cpu) : bool := negb (flag_Z c).
Definition cond_EQ (c : Cpu) : bool := flag_Z c.
Definition when (cond : Cpu -> bool) (instr : Cpu -> Cpu) (c : Cpu) : Cpu :=
  if cond c then instr c else c.

(** [LDRH r0, [lr, #-2]], [LDR r0, [lr, #-4]] and [BIC r0, r0, #imm] *)
Definition LDRH_r0_lr_m2 (c : Cpu) : Cpu := set_r0 (load16 (mem c) (lr c - 2)) c.
Definition LDR_r0_lr_m4 (c : Cpu) : Cpu := set_r0 (load32 (mem c) (lr c - 4)) c.
Definition BIC_r0_r0 (imm : Z) (c : Cpu) : Cpu := set_r0 (Z.ldiff (r0 c) imm) c.

(** [MOV r1, sp] *)
Definition MOV_r1_sp (c : Cpu) : Cpu := set_r1 (sp c) c.

(** [MSR SPSR_cxsf, r12] *)
Definition MSR_spsr_r12 (c : Cpu) : Cpu := set_spsr (r12 c) c.

(** [LDMFD sp!, {r0-r3, r12, pc}^] *)
Definition LDMFD_sp_r0_r3_r12_pc (c : Cpu) : Cpu :=
  let m := mem c in
  mkCpu (load32 m (sp c)) (load32 m (sp c + 4)) (load32 m (sp c + 8))
        (load32 m (sp c + 12)) (load32 m (sp c + 16))
        (u32 (sp c + 24)) (lr c) (load32 m (sp c + 20))
        (spsr c) (spsr c) (flag_Z c) m.

(** The default [__svc_handler], which user code may replace: an empty body. *)
Definition __svc_handler (id val : Z) (c : Cpu) : Cpu := c.

(** One entry into [__svc_isr]: the arguments handed to the handler and the
    processor state on return to the caller. *)
Record Run : Type := mkRun { svc_id : Z; svc_val : Z; svc_final : Cpu }.

(** The instructions of [__svc_isr] up to the call. *)
Definition decode (TMask : Z) (c : Cpu) : Cpu :=
  let c := STMFD_sp_r0_r3_r12_lr c in
  let c := MRS_r12_spsr c in
  let c := TST_r12 TMask c in
  let c := when cond_NE LDRH_r0_lr_m2 c in
  let c := when cond_NE (BIC_r0_r0 0xFF00) c in
  let c := when cond_EQ LDR_r0_lr_m4 c in
  let c := when cond_EQ (BIC_r0_r0 0xFF000000) c in
  MOV_r1_sp c.

(** [__svc_isr].  [__PROC_CPSR_BIT_T], the position of the Thumb bit in a
    status register, is defined in Util/lowlevel.h and taken as an argument;
    so is the handler that the call reaches. *)
Definition __svc_isr (__PROC_CPSR_BIT_T : Z) (handler : Z -> Z -> Cpu -> Cpu)
    (c : Cpu) : Run :=
  let c := decode (Z.shiftl 1 __PROC_CPSR_BIT_T) c in
  let id := r0 c in
  let val := r1 c in
  let c := handler id val c in
  let c := MSR_spsr_r12 c in
  let c := LDMFD_sp_r0_r3_r12_pc c in
  mkRun id val c.

(** Two sample traps.  [SVC #0x42] in ARM encoding (0xEF000042) sits at
    0x1000 and [SVC #0x07] in Thumb encoding (0xDF07) at 0x2000; the stack
    is far from both. *)
Definition sample_memory : Z -> Z :=
  fun a =>
    if a =? 0x1000 then 0x42 else if a =? 0x1003 then 0xEF
    else if a =? 0x2000 then 0x07 else if a =? 0x2001 then 0xDF
    else 0.
Definition arm_trap : Cpu :=
  mkCpu 11 12 13 14 15 0x8000 0x1004 0 0x13 0x13 false sample_memory.
Definition thumb_trap : Cpu :=
  mkCpu 11 12 13 14 15 0x8000 0x2002 0 0x33 0x13 false sample_memory.

End SVC.

(** ** Sequences of interface calls *)

Inductive ApiCall : Type :=
| RegisterHandler (interruptID : HPSIRQSource) (handlerFunction : IsrHandlerFunc_t)
    (handlerParam : ptr) (heap : ReallocOutcome)
| RegisterHandlers (interruptIDs : option (list HPSIRQSource))
    (handlerFunctions : option (list IsrHandlerFunc_t))
    (handlerParams : option (list ptr)) (count : nat) (heap : ReallocOutcome)
| UnregisterHandler (interruptID : HPSIRQSource)
| UnregisterHandlers (interruptIDs : option (list HPSIRQSource)) (count : nat).

Definition run_call (d : Driver) (c : ApiCall) : Driver :=
  match c with
  | RegisterHandler id f p heap => snd (HPS_IRQ_registerHandler id f p heap d)
  | RegisterHandlers ids fns ps count heap =>
      snd (HPS_IRQ_registerHandlers ids fns ps count heap d)
  | UnregisterHandler id => snd (HPS_IRQ_unregisterHandler id d)
  | UnregisterHandlers ids count => snd (HPS_IRQ_unregisterHandlers ids count d)
  end.

Definition run_calls (cs : list ApiCall) (d : Driver) : Driver := foldl run_call d cs.

(** The number of table slots a sequence of calls can ask for at most. *)
Definition call_demand (c : ApiCall) : nat :=
  match c with
  | RegisterHandler _ _ _ _ => 1
  | RegisterHandlers _ _ _ count _ => count
  | _ => 0
  end.
Definition calls_demand (cs : list ApiCall) : nat := sum_list (call_demand <$> cs).

(** A batch registration whose arrays hold [count] elements and whose
    interrupt IDs are pairwise distinct; the other calls qualify as they are. *)
Definition distinct_batch (c : ApiCall) : Prop :=
  match c with
  | RegisterHandlers (Some ids) _ _ count _ => length ids = count ∧ NoDup ids
  | _ => True
  end.

(** ** Observations on a driver state *)

(** The count and the block agree, and the block's size in bytes is
    representable: the states the interface routines produce as long as no
    size computation wraps. *)
Definition table_ok (d : Driver) : Prop :=
  __isr_handler_count d = Z.of_nat (length (__isr_handlers d))
  ∧ __isr_handler_count d * sizeof_IsrHandler_t < UINT_MODULUS.

(** Some record, enabled or not, carries [id]. *)
Definition has_record (id : HPSIRQSource) (d : Driver) : Prop :=
  id ∈ interruptID <$> __isr_handlers d.

#[global] Instance has_record_dec id d : Decision (has_record id d).
Proof. unfold has_record. apply _. Defined.

(** The lookup for [id] runs to the count: the "not found" answer of
    [_HPS_IRQ_findHandler]. *)
Definition absent (d : Driver) (id : HPSIRQSource) : Prop :=
  _HPS_IRQ_findHandler id d = __isr_handler_count d.

#[global] Instance absent_dec d id : Decision (absent d id).
Proof. unfold absent. apply _. Defined.

(** The record [_HPS_IRQ_doRegister] stores for entry [idx] of a batch. *)
Definition batch_record (interruptIDs : list HPSIRQSource)
    (handlerFunctions : list IsrHandlerFunc_t) (handlerParams : option (list ptr))
    (idx : nat) : IsrHandler_t :=
  mkIsrHandler (array_get 0 interruptIDs idx) (array_get FNull handlerFunctions idx)
               (match handlerParams with
                | None => NULL
                | Some ps => array_get NULL ps idx
                end) true.

(** The invariant kept by call sequences whose batches do not repeat an ID:
    consistent table, driver initialised, no interrupt ID in two records. *)
Definition registry_inv (d : Driver) : Prop :=
  table_ok d ∧ __isInitialised d = true
  ∧ NoDup (interruptID <$> __isr_handlers d).

(** The enabled records for [id]. *)
Definition enabled_records (id : HPSIRQSource) (d : Driver) : list IsrHandler_t :=
  filter (λ r, interruptID r = id ∧ enabled r = true) (__isr_handlers d).

Definition at_most_one_enabled (d : Driver) : Prop :=
  ∀ id, (length (enabled_records id d) ≤ 1)%nat.

(** The effects one entry into [__irq_isr] adds to the log, and the number of
    stores to the end-of-interrupt register among them. *)
Definition isr_effects (user : Callbacks) (iccIAR : Z) (d : Driver) : list Effect :=
  drop (length (effects d)) (effects (snd (__irq_isr user iccIAR d))).

Definition is_eoi_store (e : Effect) : Prop :=
  match e with
  | CpuIfStore index _ => index = ICCEOIR
  | _ => False
  end.

#[global] Instance is_eoi_store_dec e : Decision (is_eoi_store e).
Proof. destruct e; simpl; apply _. Defined.

Definition eoi_stores (l : list Effect) : nat := length (filter is_eoi_store l).

(** A call through [f] with these arguments comes back to the caller. *)
Definition returns (user : Callbacks) (f : IsrHandlerFunc_t)
    (id : HPSIRQSource) (arg : ptr) (flag : bool) : Prop :=
  ∃ handled, invoke user f id arg flag = Some (CbReturns handled).

(** A batch registration whose ID array holds [count] elements; the other
    calls qualify as they are. *)
Definition sized_batch (c : ApiCall) : Prop :=
  match c with
  | RegisterHandlers (Some ids) _ _ count _ => length ids = count
  | _ => True
  end.

(** A record as [_HPS_IRQ_doUnregister] leaves it. *)
Definition cleared (r : IsrHandler_t) : Prop :=
  handler r = FNull ∧ enabled r = false.

(** The body of the loop of [HPS_IRQ_unregisterHandlers] for one interrupt
    ID read from the array. *)
Definition unregister_one (acc : HpsErr_t * Driver) (interruptID : HPSIRQSource)
    : HpsErr_t * Driver :=
  let '(status, d) := acc in
  let handler := _HPS_IRQ_findHandler interruptID d in
  if negb (handler =? __isr_handler_count d)
  then (status, _HPS_IRQ_doUnregister handler interruptID d)
  else (ERR_NOTFOUND, d).

(** Slot [i] is the one the lookup finds for some ID of [ids] that has a
    record. *)
Definition slot_of_listed (d : Driver) (ids : list HPSIRQSource) (i : nat) : Prop :=
  Exists (λ id, has_record id d ∧ i = Z.to_nat (_HPS_IRQ_findHandler id d)) ids.

#[global] Instance slot_of_listed_dec d ids i : Decision (slot_of_listed d ids i).
Proof. unfold slot_of_listed. apply _. Defined.

(** A value that fits a 32-bit register. *)
Definition word (v : Z) : Prop := 0 ≤ v < UINT_MODULUS.

(** A software-interrupt handler that, called from the state [c1] reached
    at the [BL], gives back the stack pointer and r12 it was given and leaves
    the six words at the stack pointer as they were. *)
Definition keeps_frame (h : Z → Z → SVC.Cpu → SVC.Cpu) (c1 : SVC.Cpu) : Prop :=
  let c2 := h (SVC.r0 c1) (SVC.r1 c1) c1 in
  SVC.sp c2 = SVC.sp c1 ∧ SVC.r12 c2 = SVC.r12 c1
  ∧ ∀ k, 0 ≤ k < 24 →
         SVC.load8 (SVC.mem c2) (SVC.sp c1 + k) = SVC.load8 (SVC.mem c1) (SVC.sp c1 + k).

(** * Properties *)

(** ** Machine integers *)

Lemma u32_range x : 0 ≤ u32 x < UINT_MODULUS.
Proof. unfold u32, UINT_MODULUS. apply Z.mod_pos_bound. lia. Qed.

Lemma u32_small x : 0 ≤ x < UINT_MODULUS → u32 x = x.
Proof. unfold u32. intros. by apply Z.mod_small. Qed.

Lemma u32_s32 x : u32 (s32 x) = u32 x.
Proof.
  unfold s32. pose proof (u32_range x) as Hr.
  destruct (u32 x <? 2 ^ 31).
  - by apply u32_small.
  - unfold u32 in *. unfold UINT_MODULUS in *.
    rewrite <- (Z.mod_add _ 1) by lia.
    replace (x mod 2 ^ 32 - 2 ^ 32 + 1 * 2 ^ 32) with (x mod 2 ^ 32) by lia.
    apply Z.mod_mod. lia.
Qed.

(** ** The scanning loop *)

Lemma scan_bounds table id i n :
  (i ≤ scan table id i n ≤ i + n)%nat.
Proof.
  revert i. induction n as [|n IH]; intros i; simpl; [lia|].
  destruct (table !! i) as [r|]; [destruct (interruptID r =? id)|];
    try lia; specialize (IH (S i)); lia.
Qed.

Lemma scan_found table id i n :
  (scan table id i n < i + n)%nat →
  ∃ r, table !! scan table id i n = Some r ∧ interruptID r = id.
Proof.
  revert i. induction n as [|n IH]; intros i; simpl; [lia|].
  destruct (table !! i) as [r|] eqn:Hi.
  - destruct (interruptID r =? id) eqn:He.
    + intros _. exists r. split; [done|]. by apply Z.eqb_eq.
    + intros H. apply IH. lia.
  - intros H. apply IH. lia.
Qed.

Lemma scan_skipped table id i n j r :
  (i ≤ j < scan table id i n)%nat → table !! j = Some r → interruptID r ≠ id.
Proof.
  revert i. induction n as [|n IH]; intros i; simpl; [lia|].
  destruct (table !! i) as [r'|] eqn:Hi.
  - destruct (interruptID r' =? id) eqn:He; [lia|].
    intros Hj Hr. destruct (decide (j = i)) as [->|].
    + rewrite Hi in Hr. injection Hr as <-. by apply Z.eqb_neq.
    + apply (IH (S i)); [lia|done].
  - intros Hj Hr. destruct (decide (j = i)) as [->|]; [congruence|].
    apply (IH (S i)); [lia|done].
Qed.

(** The loop looks at interrupt IDs only. *)
Lemma scan_ids table table' id i n :
  interruptID <$> table = interruptID <$> table' →
  scan table id i n = scan table' id i n.
Proof.
  intros Hids. revert i. induction n as [|n IH]; intros i; simpl; [done|].
  assert (interruptID <$> table !! i = interruptID <$> table' !! i) as Hi.
  { by rewrite <- !list_lookup_fmap, Hids. }
  destruct (table !! i) as [r|], (table' !! i) as [r'|]; simpl in Hi;
    try discriminate; [|apply IH].
  injection Hi as ->. destruct (interruptID r' =? id); [done|apply IH].
Qed.

(** ** [_HPS_IRQ_findHandler] on a consistent table *)

Lemma findHandler_range id d :
  table_ok d → 0 ≤ _HPS_IRQ_findHandler id d ≤ __isr_handler_count d.
Proof.
  intros [Hc _]. unfold _HPS_IRQ_findHandler.
  pose proof (scan_bounds (__isr_handlers d) id 0 (Z.to_nat (__isr_handler_count d))).
  lia.
Qed.

Lemma findHandler_found id d :
  table_ok d → _HPS_IRQ_findHandler id d ≠ __isr_handler_count d →
  ∃ r, __isr_handlers d !! Z.to_nat (_HPS_IRQ_findHandler id d) = Some r
       ∧ interruptID r = id.
Proof.
  intros Hok Hne. pose proof (findHandler_range id d Hok) as Hr.
  unfold _HPS_IRQ_findHandler in *. rewrite Nat2Z.id.
  apply scan_found. lia.
Qed.

Lemma findHandler_absent id d :
  table_ok d →
  _HPS_IRQ_findHandler id d = __isr_handler_count d ↔ ¬ has_record id d.
Proof.
  intros Hok. split.
  - intros Hf [r [-> Hin]]%list_elem_of_fmap.
    apply list_elem_of_lookup in Hin as [j Hj].
    pose proof (lookup_lt_Some _ _ _ Hj) as Hlt.
    destruct Hok as [Hc _]. unfold _HPS_IRQ_findHandler in Hf.
    eapply (scan_skipped (__isr_handlers d) (interruptID r) 0
              (Z.to_nat (__isr_handler_count d)) j r); [lia|exact Hj|done].
  - intros Habs. destruct (decide (_HPS_IRQ_findHandler id d = __isr_handler_count d))
      as [|Hne]; [done|].
    destruct (findHandler_found id d Hok Hne) as (r & Hr & <-).
    exfalso. apply Habs. apply list_elem_of_fmap. exists r. split; [done|].
    by eapply list_elem_of_lookup_2.
Qed.

(** ** Global enable and disable *)

(** C5, first part as the code behaves: starting with IRQs unmasked,
    [HPS_IRQ_globalEnable(false)] answers "skipped" although it has just
    masked them, and a second call answers "success" although nothing
    changed; the two results are swapped with respect to the comment above
    the function. *)
Theorem globalEnable_false_twice init count table fallback log :
  let d := mkDriver init count table fallback false log in
  let first := HPS_IRQ_globalEnable false d in
  let second := HPS_IRQ_globalEnable false (snd first) in
  fst first = ERR_SKIPPED ∧ irq_masked (snd first) = true
  ∧ fst second = ERR_SUCCESS ∧ irq_masked (snd second) = true.
Proof. by cbv. Qed.

(** Enabling before [HPS_IRQ_initialise] is refused and changes nothing. *)
Lemma globalEnable_true_before_initialise masked :
  HPS_IRQ_globalEnable true (power_on masked) = (ERR_NOINIT, power_on masked).
Proof. reflexivity. Qed.

Lemma globalEnable_true_initialised d :
  __isInitialised d = true →
  HPS_IRQ_globalEnable true d = (ERR_SUCCESS, set_masked false d).
Proof. intros H. unfold HPS_IRQ_globalEnable, HPS_IRQ_isInitialised. by rewrite H. Qed.

(** ** Growing the table *)

Lemma realloc_grow block n fresh :
  (0 ≤ n)%Z →
  realloc block (Z.of_nat (length block + Z.to_nat n) * sizeof_IsrHandler_t)
          (ReallocOk fresh)
  = Some (block ++ map fresh (seq (length block) (Z.to_nat n))).
Proof.
  intros Hn. unfold realloc, sizeof_IsrHandler_t.
  rewrite Z.div_mul by lia. rewrite Nat2Z.id.
  rewrite take_ge by lia.
  by replace (length block + Z.to_nat n - length block)%nat with (Z.to_nat n) by lia.
Qed.

Lemma growTable_ok d growByN fresh :
  table_ok d → 0 < growByN →
  (__isr_handler_count d + growByN) * sizeof_IsrHandler_t < UINT_MODULUS →
  _HPS_IRQ_growTable growByN (ReallocOk fresh) d
  = (ERR_SUCCESS,
     set_count (__isr_handler_count d + growByN)
       (set_handlers (__isr_handlers d
                      ++ map fresh (seq (length (__isr_handlers d)) (Z.to_nat growByN))) d)).
Proof.
  intros [Hc Hb] Hpos Hfit. unfold _HPS_IRQ_growTable.
  destruct (growByN =? 0) eqn:E; [lia|].
  unfold sizeof_IsrHandler_t, UINT_MODULUS in *.
  rewrite (u32_small (__isr_handler_count d + growByN))
    by (unfold UINT_MODULUS; lia).
  rewrite u32_small by (unfold UINT_MODULUS; lia).
  replace (__isr_handler_count d + growByN)
    with (Z.of_nat (length (__isr_handlers d) + Z.to_nat growByN)) at 1 by lia.
  pose proof (realloc_grow (__isr_handlers d) growByN fresh) as Hre.
  unfold sizeof_IsrHandler_t in Hre. rewrite Hre by lia. done.
Qed.

(** C8: growing a consistent table by a positive amount, the new size still
    being representable, yields on success a block of count + growByN records
    that starts with the old records, and raises the count by growByN; when
    the allocator refuses, the answer is the allocation-failure code and the
    driver state is the one before the call; growing by zero succeeds without
    asking the allocator and changes nothing. *)
Theorem growTable_spec d growByN heap :
  table_ok d → 0 ≤ growByN →
  (__isr_handler_count d + growByN) * sizeof_IsrHandler_t < UINT_MODULUS →
  let '(status, d') := _HPS_IRQ_growTable growByN heap d in
  (growByN = 0 → status = ERR_SUCCESS ∧ d' = d)
  ∧ (0 < growByN → heap = ReallocFail → status = ERR_ALLOCFAIL ∧ d' = d)
  ∧ (0 < growByN → ∀ fresh, heap = ReallocOk fresh →
       status = ERR_SUCCESS
       ∧ __isr_handler_count d' = __isr_handler_count d + growByN
       ∧ Z.of_nat (length (__isr_handlers d')) = __isr_handler_count d + growByN
       ∧ take (length (__isr_handlers d)) (__isr_handlers d') = __isr_handlers d
       ∧ (∀ i r, __isr_handlers d !! i = Some r → __isr_handlers d' !! i = Some r)
       ∧ table_ok d'
       ∧ __isInitialised d' = __isInitialised d
       ∧ __isr_unhandledIRQCallback d' = __isr_unhandledIRQCallback d
       ∧ irq_masked d' = irq_masked d
       ∧ effects d' = effects d).
Proof.
  intros Hok Hn Hfit.
  destruct (decide (growByN = 0)) as [->|Hnz].
  { simpl. repeat split; intros; lia. }
  destruct heap as [|fresh].
  - unfold _HPS_IRQ_growTable. destruct (growByN =? 0) eqn:E; [lia|]. simpl.
    repeat split; intros; (lia || done).
  - rewrite growTable_ok by (done || lia).
    split; [lia|]. split; [done|]. intros _ fresh' _.
    destruct Hok as [Hc Hb]. simpl.
    repeat split; try done.
    + rewrite length_app, length_map, length_seq. lia.
    + by rewrite take_app_length.
    + intros i r Hi. by apply lookup_app_l_Some.
    + simpl. rewrite length_app, length_map, length_seq. lia.
Qed.

Lemma growTable_spec_witness :
  let d := mkDriver true 1 [mkIsrHandler 5 (FUser 1) 0 true] FDefaultUnhandled true [] in
  let '(status, d') :=
    _HPS_IRQ_growTable 2 (ReallocOk (λ _, mkIsrHandler 0 FNull 0 false)) d in
  status = ERR_SUCCESS ∧ __isr_handler_count d' = 3.
Proof.
  intros d.
  pose proof (growTable_spec d 2 (ReallocOk (λ _, mkIsrHandler 0 FNull 0 false))) as H.
  destruct (_HPS_IRQ_growTable 2 (ReallocOk (λ _, mkIsrHandler 0 FNull 0 false)) d)
    as [status d'] eqn:E.
  destruct H as (_ & _ & H).
  - split; reflexivity.
  - lia.
  - vm_compute. reflexivity.
  - destruct (H ltac:(lia) _ eq_refl) as (Hs & Hcount & _).
    split; [exact Hs|]. rewrite Hcount. reflexivity.
Defined.

(** ** The interrupt mask across registry mutations *)

Lemma doRegister_irq_masked h id f p d :
  irq_masked (_HPS_IRQ_doRegister h id f p d) = irq_masked d.
Proof. reflexivity. Qed.

Lemma write_steps_irq_masked handlers ids fns ps idxs d :
  irq_masked (foldl (write_step handlers ids fns ps) d idxs) = irq_masked d.
Proof.
  revert d. induction idxs as [|i idxs IH]; intros d; simpl; [done|].
  by rewrite IH.
Qed.

Lemma growTable_irq_masked n heap d :
  irq_masked (snd (_HPS_IRQ_growTable n heap d)) = irq_masked d.
Proof.
  unfold _HPS_IRQ_growTable. destruct (n =? 0); [done|].
  by destruct (realloc _ _ _).
Qed.

Lemma doUnregister_irq_masked h id d :
  irq_masked (_HPS_IRQ_doUnregister h id d) = irq_masked d.
Proof. unfold _HPS_IRQ_doUnregister. simpl. by destruct (irq_masked d). Qed.

(** Away from the allocation-failure return, the three routines put the mask
    back as they found it. *)
Lemma registerHandler_restores_mask id f p heap d :
  fst (HPS_IRQ_registerHandler id f p heap d) ≠ ERR_ALLOCFAIL →
  irq_masked (snd (HPS_IRQ_registerHandler id f p heap d)) = irq_masked d.
Proof.
  unfold HPS_IRQ_registerHandler.
  destruct (negb (HPS_IRQ_isInitialised d)); [done|]. simpl.
  destruct (_HPS_IRQ_findHandler id d =? __isr_handler_count d).
  - unfold _HPS_IRQ_growTable. simpl.
    destruct (realloc _ _ _); simpl; [|done].
    intros _. by destruct (irq_masked d).
  - simpl. intros _. by destruct (irq_masked d).
Qed.

Lemma registerHandlers_restores_mask ids fns ps count heap d :
  fst (HPS_IRQ_registerHandlers ids fns ps count heap d) ≠ ERR_ALLOCFAIL →
  irq_masked (snd (HPS_IRQ_registerHandlers ids fns ps count heap d)) = irq_masked d.
Proof.
  unfold HPS_IRQ_registerHandlers.
  destruct (negb (HPS_IRQ_isInitialised d)); [done|].
  destruct ids as [ids|], fns as [fns|]; try done.
  destruct (foldl _ _ _) as [handlers growBy]. simpl.
  unfold _HPS_IRQ_growTable. destruct (growBy =? 0).
  - simpl. intros _.
    destruct (irq_masked d); simpl; [|done]. by rewrite write_steps_irq_masked.
  - destruct (realloc _ _ _); simpl; [|done]. intros _.
    destruct (irq_masked d); simpl; [|done]. by rewrite write_steps_irq_masked.
Qed.

Lemma unregisterHandler_restores_mask id d :
  irq_masked (snd (HPS_IRQ_unregisterHandler id d)) = irq_masked d.
Proof.
  unfold HPS_IRQ_unregisterHandler.
  destruct (negb (HPS_IRQ_isInitialised d)); [done|].
  destruct (negb _); [|done]. apply doUnregister_irq_masked.
Qed.

(** C7 as the code behaves on the allocation-failure return: registering an
    interrupt ID that has no slot yet, when the allocator refuses to grow the
    table, returns straight after the table-grow call; the driver state is
    the one before the call except that IRQs are now masked, whatever the
    mask was. *)
Theorem registerHandler_allocfail_leaves_irqs_masked id f p d :
  __isInitialised d = true →
  _HPS_IRQ_findHandler id d = __isr_handler_count d →
  HPS_IRQ_registerHandler id f p ReallocFail d = (ERR_ALLOCFAIL, set_masked true d).
Proof.
  intros Hinit Hfind. unfold HPS_IRQ_registerHandler, HPS_IRQ_isInitialised.
  rewrite Hinit. simpl. rewrite Hfind, Z.eqb_refl. reflexivity.
Qed.

Lemma registerHandler_allocfail_leaves_irqs_masked_witness :
  let d := snd (HPS_IRQ_initialise FNull (power_on false)) in
  irq_masked d = false
  ∧ HPS_IRQ_registerHandler 5 (FUser 1) NULL ReallocFail d
    = (ERR_ALLOCFAIL, set_masked true d).
Proof.
  intros d. split; [reflexivity|].
  apply (registerHandler_allocfail_leaves_irqs_masked 5 (FUser 1) NULL d);
    reflexivity.
Defined.

(** The batch form has the same early return. *)
Lemma registerHandlers_allocfail_leaves_irqs_masked :
  let d := snd (HPS_IRQ_initialise FNull (power_on false)) in
  irq_masked d = false
  ∧ HPS_IRQ_registerHandlers (Some [5; 6]) (Some [FUser 1; FUser 2]) None 2
                             ReallocFail d
    = (ERR_ALLOCFAIL, set_masked true d).
Proof. split; reflexivity. Qed.

(** ** Unregistering *)

Lemma unregisterHandler_not_found id d :
  __isInitialised d = true →
  _HPS_IRQ_findHandler id d = __isr_handler_count d →
  HPS_IRQ_unregisterHandler id d = (ERR_NOTFOUND, d).
Proof.
  intros Hinit Hfind. unfold HPS_IRQ_unregisterHandler, HPS_IRQ_isInitialised.
  rewrite Hinit, Hfind, Z.eqb_refl. reflexivity.
Qed.

Lemma unregisterHandler_success_inv id d :
  fst (HPS_IRQ_unregisterHandler id d) = ERR_SUCCESS →
  __isInitialised d = true
  ∧ _HPS_IRQ_findHandler id d ≠ __isr_handler_count d
  ∧ snd (HPS_IRQ_unregisterHandler id d)
    = _HPS_IRQ_doUnregister (_HPS_IRQ_findHandler id d) id d.
Proof.
  unfold HPS_IRQ_unregisterHandler, HPS_IRQ_isInitialised.
  destruct (__isInitialised d); [|done]. simpl.
  destruct (_HPS_IRQ_findHandler id d =? __isr_handler_count d) eqn:E; [done|].
  simpl. intros _. apply Z.eqb_neq in E. done.
Qed.

Lemma doUnregister_count h id d :
  __isr_handler_count (_HPS_IRQ_doUnregister h id d) = __isr_handler_count d.
Proof. unfold _HPS_IRQ_doUnregister. simpl. by destruct (irq_masked d). Qed.

Lemma doUnregister_handlers h id d :
  __isr_handlers (_HPS_IRQ_doUnregister h id d)
  = alter clear_record (Z.to_nat h) (__isr_handlers d).
Proof. unfold _HPS_IRQ_doUnregister. simpl. by destruct (irq_masked d). Qed.

Lemma doUnregister_initialised h id d :
  __isInitialised (_HPS_IRQ_doUnregister h id d) = __isInitialised d.
Proof. unfold _HPS_IRQ_doUnregister. simpl. by destruct (irq_masked d). Qed.

Lemma clear_record_ids (h : nat) (table : list IsrHandler_t) :
  interruptID <$> alter clear_record h table = interruptID <$> table.
Proof.
  revert h. induction table as [|r table IH]; intros [|h]; simpl; try done.
  f_equal. apply IH.
Qed.

(** C10: a successful unregister on a consistent table keeps the count,
    replaces the record in the slot found for the ID by one with the same
    interrupt ID and parameter, a null callback and the enabled flag false,
    leaves every other slot as it was, and a later lookup of the same ID
    stops at the same slot, not at the count. *)
Theorem unregisterHandler_frame id d :
  table_ok d →
  fst (HPS_IRQ_unregisterHandler id d) = ERR_SUCCESS →
  let d' := snd (HPS_IRQ_unregisterHandler id d) in
  let slot := Z.to_nat (_HPS_IRQ_findHandler id d) in
  __isr_handler_count d' = __isr_handler_count d
  ∧ (∃ r, __isr_handlers d !! slot = Some r
          ∧ interruptID r = id
          ∧ __isr_handlers d'
            = <[slot := mkIsrHandler (interruptID r) FNull (param r) false]>
                (__isr_handlers d))
  ∧ (∀ i, i ≠ slot → __isr_handlers d' !! i = __isr_handlers d !! i)
  ∧ _HPS_IRQ_findHandler id d' = _HPS_IRQ_findHandler id d
  ∧ _HPS_IRQ_findHandler id d' ≠ __isr_handler_count d'.
Proof.
  intros Hok Hs. destruct (unregisterHandler_success_inv id d Hs) as (Hinit & Hne & ->).
  destruct (findHandler_found id d Hok Hne) as (r & Hr & Hid).
  cbv zeta. rewrite doUnregister_count, doUnregister_handlers.
  assert (_HPS_IRQ_findHandler id
            (_HPS_IRQ_doUnregister (_HPS_IRQ_findHandler id d) id d)
          = _HPS_IRQ_findHandler id d) as Hsame.
  { unfold _HPS_IRQ_findHandler at 1 3.
    rewrite doUnregister_count, doUnregister_handlers.
    f_equal. apply scan_ids, clear_record_ids. }
  repeat split.
  - exists r. repeat split; [done..|].
    apply list_eq. intros i.
    destruct (decide (i = Z.to_nat (_HPS_IRQ_findHandler id d))) as [->|Hi].
    + rewrite list_lookup_alter_eq, Hr. simpl.
      rewrite list_lookup_insert_eq; [done|]. by eapply lookup_lt_Some.
    + rewrite list_lookup_alter_ne, list_lookup_insert_ne by done. done.
  - intros i Hi. by rewrite list_lookup_alter_ne.
  - exact Hsame.
  - by rewrite Hsame.
Qed.

Lemma unregisterHandler_frame_witness :
  let d := snd (HPS_IRQ_registerHandler 5 (FUser 1) 7
                  (ReallocOk (λ _, mkIsrHandler 0 FNull 0 false))
                  (snd (HPS_IRQ_initialise FNull (power_on false)))) in
  let d' := snd (HPS_IRQ_unregisterHandler 5 d) in
  __isr_handler_count d' = __isr_handler_count d
  ∧ _HPS_IRQ_findHandler 5 d' = _HPS_IRQ_findHandler 5 d.
Proof.
  intros d d'.
  assert (table_ok d) as Hok by (split; vm_compute; reflexivity).
  assert (fst (HPS_IRQ_unregisterHandler 5 d) = ERR_SUCCESS) as Hs by reflexivity.
  destruct (unregisterHandler_frame 5 d Hok Hs) as (Hc & _ & _ & Hf & _).
  split; [exact Hc|exact Hf].
Defined.

(** C6, as stated, fails: after initialise, a successful registration of
    source 5 and a successful unregister of it, the second unregister of 5
    does not answer "not found". *)
Lemma second_unregister_not_notfound :
  let d0 := snd (HPS_IRQ_initialise FNull (power_on false)) in
  let reg := HPS_IRQ_registerHandler 5 (FUser 1) 7
               (ReallocOk (λ _, mkIsrHandler 0 FNull 0 false)) d0 in
  let first := HPS_IRQ_unregisterHandler 5 (snd reg) in
  let second := HPS_IRQ_unregisterHandler 5 (snd first) in
  ¬ (fst reg = ERR_SUCCESS ∧ fst first = ERR_SUCCESS ∧ fst second = ERR_NOTFOUND).
Proof. intros d0 reg first second (_ & _ & H). vm_compute in H. discriminate H. Qed.

(** C6 as amended: after initialise and a registration of source 5, the
    first unregister of 5 succeeds and so does the second, which finds the
    disabled record by its interrupt ID and leaves the table as the first
    one left it; and on a consistent table, unregistering an ID that no
    record carries, enabled or disabled, answers "not found" and leaves the
    whole driver state unchanged. *)
Theorem unregisterHandler_twice_and_absent :
  (∀ fallback masked f p fresh,
     let d0 := snd (HPS_IRQ_initialise fallback (power_on masked)) in
     let reg := HPS_IRQ_registerHandler 5 f p (ReallocOk fresh) d0 in
     let first := HPS_IRQ_unregisterHandler 5 (snd reg) in
     let second := HPS_IRQ_unregisterHandler 5 (snd first) in
     fst reg = ERR_SUCCESS ∧ fst first = ERR_SUCCESS ∧ fst second = ERR_SUCCESS
     ∧ __isr_handlers (snd second) = __isr_handlers (snd first)
     ∧ __isr_handler_count (snd second) = __isr_handler_count (snd first))
  ∧ (∀ id d,
       table_ok d → __isInitialised d = true → ¬ has_record id d →
       HPS_IRQ_unregisterHandler id d = (ERR_NOTFOUND, d)).
Proof.
  split.
  - intros fallback masked f p fresh. by destruct fallback.
  - intros id d Hok Hinit Habs. apply unregisterHandler_not_found; [done|].
    by apply findHandler_absent.
Qed.

Lemma unregisterHandler_twice_and_absent_witness :
  let d := snd (HPS_IRQ_registerHandler 5 (FUser 1) 7
                  (ReallocOk (λ _, mkIsrHandler 0 FNull 0 false))
                  (snd (HPS_IRQ_initialise FNull (power_on false)))) in
  HPS_IRQ_unregisterHandler 6 d = (ERR_NOTFOUND, d).
Proof.
  intros d. apply (proj2 unregisterHandler_twice_and_absent 6 d).
  - split; vm_compute; reflexivity.
  - reflexivity.
  - unfold has_record. vm_compute. intros H.
    apply list_elem_of_In in H. simpl in H. destruct H as [H|[]]. discriminate H.
Defined.

(** ** IRQ dispatch *)

(** C1 as the code behaves at a disabled record: after initialise, a
    registration of source 5 and its unregistration, an IRQ that acknowledges
    ID 5 stops the scan at the disabled record and calls through its cleared
    (null) callback pointer; the unhandled-interrupt callback is not called
    and no end-of-interrupt store is made. *)
Theorem irq_isr_calls_through_disabled_record user fallback masked f p fresh :
  let d0 := snd (HPS_IRQ_initialise fallback (power_on masked)) in
  let d1 := snd (HPS_IRQ_registerHandler 5 f p (ReallocOk fresh) d0) in
  let d := snd (HPS_IRQ_unregisterHandler 5 d1) in
  __isr_handlers d = [mkIsrHandler 5 FNull p false]
  ∧ enabled_records 5 d = []
  ∧ fst (__irq_isr user 5 d) = IsrNullCall
  ∧ isr_effects user 5 d = [CpuIfLoad ICCIAR 5; Call FNull 5 p true].
Proof.
  destruct fallback; cbv zeta; repeat split; try reflexivity.
Qed.

Lemma isr_finish_effects user id handled d :
  ∃ new, effects (snd (isr_finish user id handled d)) = effects d ++ new
    ∧ (eoi_stores new ≤ 1)%nat
    ∧ ((∀ f i arg flag, Call f i arg flag ∈ new → returns user f i arg flag) →
       fst (isr_finish user id handled d) = IsrReturned
       ∧ eoi_stores new = 1%nat
       ∧ list.last new = Some (CpuIfStore ICCEOIR (u32 id))).
Proof.
  unfold isr_finish. destruct handled; simpl.
  - exists [CpuIfStore ICCEOIR (u32 id)]. repeat split. by vm_compute.
  - destruct (invoke user (__isr_unhandledIRQCallback d) id NULL false)
      as [[h|]|] eqn:E; simpl.
    + exists [Call (__isr_unhandledIRQCallback d) id NULL false;
              CpuIfStore ICCEOIR (u32 id)].
      split; [by rewrite <- app_assoc|]. repeat split. by vm_compute.
    + exists [Call (__isr_unhandledIRQCallback d) id NULL false].
      split; [done|]. split; [vm_compute; lia|].
      intros Hret. destruct (Hret _ _ _ _ (list_elem_of_here _ _)) as [h Hh].
      congruence.
    + exists [Call (__isr_unhandledIRQCallback d) id NULL false].
      split; [done|]. split; [vm_compute; lia|].
      intros Hret. destruct (Hret _ _ _ _ (list_elem_of_here _ _)) as [h Hh].
      congruence.
Qed.

Lemma isr_effects_app user iccIAR d new :
  effects (snd (__irq_isr user iccIAR d)) = effects d ++ new →
  isr_effects user iccIAR d = new.
Proof. intros H. unfold isr_effects. rewrite H. apply drop_app_length. Qed.

Lemma eoi_stores_cons_other e l :
  ¬ is_eoi_store e → eoi_stores (e :: l) = eoi_stores l.
Proof. intros H. unfold eoi_stores. by rewrite filter_cons_False. Qed.

Lemma last_cons_cons {A} (x y : A) l : list.last (x :: y :: l) = list.last (y :: l).
Proof. reflexivity. Qed.

(** The scan of [__irq_isr] stops at the first record that carries the
    acknowledged ID; the [enabled] member is not read. *)
Lemma isr_lookup_first id d r :
  isr_lookup id d = Some r →
  interruptID r = id
  ∧ ∃ slot, __isr_handlers d !! slot = Some r
            ∧ ∀ j r', (j < slot)%nat → __isr_handlers d !! j = Some r' →
                      interruptID r' ≠ id.
Proof.
  unfold isr_lookup.
  set (n := Z.to_nat (__isr_handler_count d)).
  destruct (Z.of_nat (scan (__isr_handlers d) id 0 n) <? __isr_handler_count d)
    eqn:E; [|done].
  apply Z.ltb_lt in E. intros Hr.
  destruct (scan_found (__isr_handlers d) id 0 n) as (r' & Hr' & Hid); [lia|].
  rewrite Hr in Hr'. injection Hr' as <-. split; [done|].
  eexists. split; [exact Hr|]. intros j r' Hj.
  apply (scan_skipped (__isr_handlers d) id 0 n). lia.
Qed.

(** C2, as stated, fails: with the built-in unhandled-interrupt callback
    installed (initialise without a user callback) and no record for the
    acknowledged ID, an entry into the routine makes no end-of-interrupt
    store. *)
Lemma irq_isr_default_fallback_no_eoi :
  let d := snd (HPS_IRQ_initialise FNull (power_on false)) in
  __isInitialised d = true
  ∧ ¬ (eoi_stores (isr_effects (λ _ _ _ _, CbReturns true) 5 d) = 1%nat).
Proof. split; [reflexivity|]. vm_compute. discriminate. Qed.

(** C2 as amended: on an initialised driver, an entry into the IRQ routine
    never makes more than one end-of-interrupt store; and when every call it
    makes through a callback pointer returns, the routine returns having made
    exactly one such store, as its last effect, with the acknowledged ID,
    whether or not a record was found and whatever the record's callback did
    with the handled flag. *)
Theorem irq_isr_eoi_once user iccIAR d :
  __isInitialised d = true →
  (eoi_stores (isr_effects user iccIAR d) ≤ 1)%nat
  ∧ ((∀ f id arg flag, Call f id arg flag ∈ isr_effects user iccIAR d →
                        returns user f id arg flag) →
     fst (__irq_isr user iccIAR d) = IsrReturned
     ∧ eoi_stores (isr_effects user iccIAR d) = 1%nat
     ∧ list.last (isr_effects user iccIAR d)
       = Some (CpuIfStore ICCEOIR (u32 iccIAR))).
Proof.
  intros Hinit.
  assert (¬ is_eoi_store (CpuIfLoad ICCIAR (u32 iccIAR))) as Hload by (simpl; tauto).
  assert (∀ f a, ¬ is_eoi_store (Call f (s32 iccIAR) a true)) as Hcall
    by (simpl; tauto).
  unfold __irq_isr. rewrite Hinit. simpl negb. cbv iota.
  set (d1 := emit (CpuIfLoad ICCIAR (u32 iccIAR)) d).
  destruct (isr_lookup (s32 iccIAR) d1) as [[rid callee arg en]|] eqn:Hlook.
  - set (d2 := emit (Call callee (s32 iccIAR) arg true) d1).
    destruct (invoke user callee (s32 iccIAR) arg true) as [[handled|]|] eqn:Hinv.
    + destruct (isr_finish_effects user (s32 iccIAR) handled d2)
        as (new & Heff & Hle & Hret).
      assert (isr_effects user iccIAR d
              = CpuIfLoad ICCIAR (u32 iccIAR)
                :: Call callee (s32 iccIAR) arg true :: new) as Hnew.
      { unfold isr_effects, __irq_isr. rewrite Hinit. simpl negb. cbv iota.
        fold d1. rewrite Hlook. fold d2. rewrite Hinv, Heff. simpl.
        rewrite <- !app_assoc. apply drop_app_length. }
      rewrite Hnew, !eoi_stores_cons_other by done.
      split; [done|]. intros Hall.
      destruct Hret as (Hexit & Hone & Hlast).
      { intros f i a fl Hin. apply Hall. by do 2 apply list_elem_of_further. }
      split; [done|]. split; [done|].
      rewrite u32_s32 in Hlast. destruct new as [|e new]; [done|].
      by rewrite !last_cons_cons.
    + assert (isr_effects user iccIAR d
              = [CpuIfLoad ICCIAR (u32 iccIAR); Call callee (s32 iccIAR) arg true])
        as Hnew.
      { unfold isr_effects, __irq_isr. rewrite Hinit. simpl negb. cbv iota.
        fold d1. rewrite Hlook. fold d2. rewrite Hinv. simpl.
        rewrite <- !app_assoc. apply drop_app_length. }
      rewrite Hnew. split; [vm_compute; lia|]. intros Hall.
      destruct (Hall callee (s32 iccIAR) arg true) as [h Hh]; [|congruence].
      apply list_elem_of_further, list_elem_of_here.
    + assert (isr_effects user iccIAR d
              = [CpuIfLoad ICCIAR (u32 iccIAR); Call callee (s32 iccIAR) arg true])
        as Hnew.
      { unfold isr_effects, __irq_isr. rewrite Hinit. simpl negb. cbv iota.
        fold d1. rewrite Hlook. fold d2. rewrite Hinv. simpl.
        rewrite <- !app_assoc. apply drop_app_length. }
      rewrite Hnew. split; [vm_compute; lia|]. intros Hall.
      destruct (Hall callee (s32 iccIAR) arg true) as [h Hh]; [|congruence].
      apply list_elem_of_further, list_elem_of_here.
  - destruct (isr_finish_effects user (s32 iccIAR) false d1)
      as (new & Heff & Hle & Hret).
    assert (isr_effects user iccIAR d = CpuIfLoad ICCIAR (u32 iccIAR) :: new) as Hnew.
    { unfold isr_effects, __irq_isr. rewrite Hinit. simpl negb. cbv iota.
      fold d1. rewrite Hlook, Heff. simpl.
      rewrite <- !app_assoc. apply drop_app_length. }
    rewrite Hnew, !eoi_stores_cons_other by done.
    split; [done|]. intros Hall.
    destruct Hret as (Hexit & Hone & Hlast).
    { intros f i a fl Hin. apply Hall. by apply list_elem_of_further. }
    split; [done|]. split; [done|].
    rewrite u32_s32 in Hlast. destruct new as [|e new]; [done|].
    by rewrite last_cons_cons.
Qed.

Lemma irq_isr_eoi_once_witness :
  let user : Callbacks := λ _ _ _ _, CbReturns false in
  let d := snd (HPS_IRQ_registerHandler 5 (FUser 1) 7
                  (ReallocOk (λ _, mkIsrHandler 0 FNull 0 false))
                  (snd (HPS_IRQ_initialise (FUser 2) (power_on false)))) in
  fst (__irq_isr user 5 d) = IsrReturned
  ∧ eoi_stores (isr_effects user 5 d) = 1%nat
  ∧ list.last (isr_effects user 5 d) = Some (CpuIfStore ICCEOIR (u32 5)).
Proof.
  intros user d.
  apply (proj2 (irq_isr_eoi_once user 5 d eq_refl)).
  intros f id arg flag Hin. vm_compute in Hin.
  apply list_elem_of_In in Hin. simpl in Hin.
  destruct Hin as [H|[H|[H|[H|[]]]]]; try discriminate H;
    injection H as <- <- <- <-; exists false; reflexivity.
Defined.

(** ** SVC decode *)

Section svc_decode.
Import SVC.

Lemma testbit_small v n m : 0 ≤ v < 2 ^ n → 0 ≤ n ≤ m → Z.testbit v m = false.
Proof.
  intros Hv Hn. rewrite <- (Z.mod_small v (2 ^ n)) by lia.
  apply Z.mod_pow2_bits_high. lia.
Qed.

(** Clearing the [b] bits above the low [a] bits of a value that has no
    higher bits leaves its low [a] bits. *)
Lemma ldiff_high_field v a b :
  0 ≤ a → 0 ≤ b → 0 ≤ v < 2 ^ (a + b) →
  Z.ldiff v (Z.shiftl (Z.ones b) a) = Z.land v (Z.ones a).
Proof.
  intros Ha Hb Hv. apply Z.bits_inj'. intros m Hm.
  rewrite Z.ldiff_spec, Z.land_spec, Z.shiftl_spec by lia.
  destruct (decide (m < a)).
  - rewrite (Z.testbit_neg_r (Z.ones b)) by lia.
    rewrite (Z.ones_spec_low a) by lia.
    by destruct (Z.testbit v m).
  - rewrite (Z.ones_spec_high a) by lia.
    destruct (decide (m < a + b)).
    + rewrite (Z.ones_spec_low b) by lia. by destruct (Z.testbit v m).
    + rewrite (testbit_small v (a + b) m) by lia. done.
Qed.

Lemma tst_mask_zero x n :
  0 ≤ n → (Z.land x (Z.shiftl 1 n) =? 0) = negb (Z.testbit x n).
Proof.
  intros Hn. rewrite Z.shiftl_1_l.
  destruct (Z.testbit x n) eqn:Hb; simpl.
  - apply Z.eqb_neq. intros H0.
    assert (Z.testbit (Z.land x (2 ^ n)) n = true) as Ht.
    { rewrite Z.land_spec, Hb, Z.pow2_bits_true by lia. done. }
    rewrite H0, Z.bits_0 in Ht. discriminate.
  - apply Z.eqb_eq. apply Z.bits_inj'. intros m Hm.
    rewrite Z.land_spec, Z.bits_0, Z.pow2_bits_eqb by lia.
    destruct (n =? m) eqn:E; [|apply andb_false_r].
    apply Z.eqb_eq in E. subst m. by rewrite Hb.
Qed.

Lemma load8_range m a : 0 ≤ load8 m a < 2 ^ 8.
Proof. unfold load8. apply Z.mod_pos_bound. lia. Qed.

Lemma load16_range m a : 0 ≤ load16 m a < 2 ^ 16.
Proof.
  unfold load16. pose proof (load8_range m a). pose proof (load8_range m (a + 1)).
  lia.
Qed.

Lemma load32_range m a : 0 ≤ load32 m a < 2 ^ 32.
Proof.
  unfold load32. pose proof (load8_range m a). pose proof (load8_range m (a + 1)).
  pose proof (load8_range m (a + 2)). pose proof (load8_range m (a + 3)).
  lia.
Qed.

Lemma load8_store8_other m a v x :
  u32 x ≠ u32 a → load8 (store8 m a v) x = load8 m x.
Proof.
  intros Hne. unfold load8, store8.
  destruct (u32 x =? u32 a) eqn:E; [|done]. apply Z.eqb_eq in E. done.
Qed.

Lemma load8_store32_other m a v x :
  (∀ j, 0 ≤ j < 4 → u32 x ≠ u32 (a + j)) →
  load8 (store32 m a v) x = load8 m x.
Proof.
  intros Hne. unfold store32.
  rewrite !load8_store8_other; [done|..].
  - specialize (Hne 0). rewrite Z.add_0_r in Hne. apply Hne. lia.
  - apply Hne. lia.
  - apply Hne. lia.
  - apply Hne. lia.
Qed.

(** A byte outside the six words pushed by the entry sequence reads the same
    before and after the push. *)
Lemma load8_after_push c x :
  (∀ k, 0 ≤ k < 24 → u32 x ≠ u32 (u32 (sp c - 24) + k)) →
  load8 (mem (STMFD_sp_r0_r3_r12_lr c)) x = load8 (mem c) x.
Proof.
  intros Hne. unfold STMFD_sp_r0_r3_r12_lr. cbn [mem].
  set (sp' := u32 (sp c - 24)) in *.
  rewrite !load8_store32_other; [done|..]; intros j Hj.
  - specialize (Hne j). apply Hne. lia.
  - specialize (Hne (4 + j)). rewrite Z.add_assoc in Hne. apply Hne. lia.
  - specialize (Hne (8 + j)). rewrite Z.add_assoc in Hne. apply Hne. lia.
  - specialize (Hne (12 + j)). rewrite Z.add_assoc in Hne. apply Hne. lia.
  - specialize (Hne (16 + j)). rewrite Z.add_assoc in Hne. apply Hne. lia.
  - specialize (Hne (20 + j)). rewrite Z.add_assoc in Hne. apply Hne. lia.
Qed.

(** C9: whatever handler is installed, the ID that [__svc_isr] hands to it is
    the low 8 bits of the halfword at lr - 2 when the T bit of the saved
    status register is set (caller in Thumb state), and the low 24 bits of
    the word at lr - 4 when it is clear (caller in ARM state), lr being the
    return address, provided the six words the routine pushes below the
    stack pointer do not overlap the trapping instruction. *)
Theorem svc_isr_decodes_id __PROC_CPSR_BIT_T handler c :
  0 ≤ __PROC_CPSR_BIT_T →
  (∀ k j, 0 ≤ k < 24 → 0 ≤ j < 4 →
          u32 (lr c - 4 + j) ≠ u32 (u32 (sp c - 24) + k)) →
  svc_id (__svc_isr __PROC_CPSR_BIT_T handler c)
  = if Z.testbit (spsr c) __PROC_CPSR_BIT_T
    then Z.land (load16 (mem c) (lr c - 2)) (Z.ones 8)
    else Z.land (load32 (mem c) (lr c - 4)) (Z.ones 24).
Proof.
  intros Hbit Hframe.
  assert (∀ j, 0 ≤ j < 4 →
            load8 (mem (STMFD_sp_r0_r3_r12_lr c)) (lr c - 4 + j)
            = load8 (mem c) (lr c - 4 + j)) as Hmem.
  { intros j Hj. apply load8_after_push. intros k Hk. by apply Hframe. }
  unfold __svc_isr, decode. cbn [svc_id].
  unfold MOV_r1_sp, TST_r12, MRS_r12_spsr, when, cond_NE, cond_EQ.
  cbn [r0 r12 spsr flag_Z set_r1 set_flag_Z set_r12].
  assert (spsr (STMFD_sp_r0_r3_r12_lr c) = spsr c) as -> by reflexivity.
  rewrite tst_mask_zero by done.
  destruct (Z.testbit (spsr c) __PROC_CPSR_BIT_T); cbn.
  - change 65280 with (Z.shiftl (Z.ones 8) 8).
    rewrite ldiff_high_field; [|lia|lia|apply load16_range].
    f_equal. unfold load16.
    pose proof (Hmem 2 ltac:(lia)) as H2. pose proof (Hmem 3 ltac:(lia)) as H3.
    replace (lr c - 4 + 2) with (lr c - 2) in H2 by lia.
    replace (lr c - 4 + 3) with (lr c - 2 + 1) in H3 by lia.
    unfold STMFD_sp_r0_r3_r12_lr in *. cbn [lr mem] in *. by rewrite H2, H3.
  - change 4278190080 with (Z.shiftl (Z.ones 8) 24).
    rewrite ldiff_high_field; [|lia|lia|apply load32_range].
    f_equal. unfold load32.
    pose proof (Hmem 0 ltac:(lia)) as H0. pose proof (Hmem 1 ltac:(lia)) as H1.
    pose proof (Hmem 2 ltac:(lia)) as H2. pose proof (Hmem 3 ltac:(lia)) as H3.
    rewrite Z.add_0_r in H0.
    unfold STMFD_sp_r0_r3_r12_lr in *. cbn [lr mem] in *. by rewrite H0, H1, H2, H3.
Qed.

Lemma svc_isr_decodes_id_witness :
  svc_id (__svc_isr 5 __svc_handler arm_trap) = 0x42
  ∧ svc_id (__svc_isr 5 __svc_handler thumb_trap) = 0x07.
Proof.
  split.
  - rewrite (svc_isr_decodes_id 5 __svc_handler arm_trap).
    + reflexivity.
    + lia.
    + intros k j Hk Hj. cbn [lr sp arm_trap]. unfold u32, UINT_MODULUS.
      Z.div_mod_to_equations. lia.
  - rewrite (svc_isr_decodes_id 5 __svc_handler thumb_trap).
    + reflexivity.
    + lia.
    + intros k j Hk Hj. cbn [lr sp thumb_trap]. unfold u32, UINT_MODULUS.
      Z.div_mod_to_equations. lia.
Defined.

End svc_decode.

(** ** Batch registration: the slot-assignment loop *)

Lemma array_get_lookup {A} (zero : A) (a : list A) idx x :
  a !! idx = Some x → array_get zero a idx = x.
Proof. intros H. unfold array_get. by apply nth_lookup_Some. Qed.

Lemma absent_count_le d (l : list HPSIRQSource) :
  (length (filter (absent d) l) ≤ length l)%nat.
Proof. apply length_filter. Qed.

(** After [k] iterations the local array holds, for each entry seen, the
    slot found for its ID or else the next slot past the current table, and
    [growBy] counts the entries that found none. *)
Lemma slot_steps d (ids : list HPSIRQSource) k :
  table_ok d → (k ≤ length ids)%nat →
  __isr_handler_count d + Z.of_nat k < UINT_MODULUS →
  ∃ hs,
    foldl (slot_step d ids) ([], 0) (seq 0 k)
    = (hs, Z.of_nat (length (filter (absent d) (take k ids))))
    ∧ length hs = k
    ∧ ∀ idx id, (idx < k)%nat → ids !! idx = Some id →
        hs !! idx
        = Some (if decide (absent d id)
                then __isr_handler_count d
                     + Z.of_nat (length (filter (absent d) (take idx ids)))
                else _HPS_IRQ_findHandler id d).
Proof.
  intros Hok. induction k as [|k IH]; intros Hk Hfit.
  { exists []. simpl. repeat split. intros; lia. }
  destruct IH as (hs & Hfold & Hlen & Hslots); [lia..|].
  destruct (lookup_lt_is_Some_2 ids k) as [id Hid]; [lia|].
  pose proof (absent_count_le d (take k ids)) as Hle.
  rewrite length_take in Hle.
  pose proof (findHandler_range id d Hok) as Hrange.
  rewrite seq_S, foldl_app, Hfold. simpl.
  rewrite (array_get_lookup 0 ids k id Hid).
  rewrite (take_S_r ids k id Hid), list.filter_app.
  destruct (decide (absent d id)) as [Habs|Hpres].
  - unfold absent in Habs. rewrite Habs, Z.eqb_refl.
    rewrite filter_cons_True, filter_nil by done.
    rewrite !u32_small by lia.
    exists (hs ++ [__isr_handler_count d
                   + Z.of_nat (length (filter (absent d) (take k ids)))]).
    split; [f_equal; rewrite length_app; simpl; lia|].
    split; [rewrite length_app; simpl; lia|].
    intros idx id' Hidx Hid'. destruct (decide (idx = k)) as [->|Hne].
    + rewrite Hid in Hid'. injection Hid' as <-.
      rewrite lookup_app_r, Hlen, Nat.sub_diag by lia. simpl.
      by rewrite decide_True.
    + rewrite lookup_app_l by lia. apply Hslots; [lia|done].
  - unfold absent in Hpres. apply Z.eqb_neq in Hpres as Hb. rewrite Hb.
    rewrite filter_cons_False, filter_nil, app_nil_r by done.
    exists (hs ++ [_HPS_IRQ_findHandler id d]).
    split; [done|]. split; [rewrite length_app; simpl; lia|].
    intros idx id' Hidx Hid'. destruct (decide (idx = k)) as [->|Hne].
    + rewrite Hid in Hid'. injection Hid' as <-.
      rewrite lookup_app_r, Hlen, Nat.sub_diag by lia. simpl.
      by rewrite decide_False.
    + rewrite lookup_app_l by lia. apply Hslots; [lia|done].
Qed.

(** ** Batch registration: the writing loop *)

Lemma write_steps_fields hs ids fns ps idxs d :
  let d' := foldl (write_step hs ids fns ps) d idxs in
  __isr_handler_count d' = __isr_handler_count d
  ∧ __isInitialised d' = __isInitialised d
  ∧ __isr_unhandledIRQCallback d' = __isr_unhandledIRQCallback d
  ∧ __isr_handlers d'
    = foldl (λ T idx, <[Z.to_nat (array_get 0 hs idx) := batch_record ids fns ps idx]> T)
            (__isr_handlers d) idxs.
Proof.
  revert d. induction idxs as [|i idxs IH]; intros d; simpl; [done|].
  destruct (IH (write_step hs ids fns ps d i)) as (Hc & Hi & Hf & Ht).
  rewrite Hc, Hi, Hf, Ht. done.
Qed.

Lemma absent_split d (ids : list HPSIRQSource) k id :
  ids !! k = Some id → absent d id →
  (length (filter (absent d) (take k ids)) < length (filter (absent d) ids))%nat.
Proof.
  intros Hid Habs.
  rewrite <- (take_drop k ids) at 2.
  rewrite list.filter_app, length_app, (drop_S ids id k Hid).
  rewrite filter_cons_True by done. simpl. lia.
Qed.

(** The interrupt IDs in the table while the batch is written: the old
    table keeps its IDs, the entries that had no slot fill the new slots in
    call order, and the rest of the new block is still as allocated. *)
Lemma write_steps_ids d hs (ids : list HPSIRQSource) fns ps (J : list IsrHandler_t) k :
  table_ok d →
  length J = length (filter (absent d) ids) →
  (k ≤ length ids)%nat →
  (∀ idx id, (idx < k)%nat → ids !! idx = Some id →
     hs !! idx
     = Some (if decide (absent d id)
             then __isr_handler_count d
                  + Z.of_nat (length (filter (absent d) (take idx ids)))
             else _HPS_IRQ_findHandler id d)) →
  interruptID <$>
    foldl (λ T idx, <[Z.to_nat (array_get 0 hs idx) := batch_record ids fns ps idx]> T)
          (__isr_handlers d ++ J) (seq 0 k)
  = (interruptID <$> __isr_handlers d)
    ++ filter (absent d) (take k ids)
    ++ (interruptID <$> drop (length (filter (absent d) (take k ids))) J).
Proof.
  intros Hok HJ. induction k as [|k IH]; intros Hk Hslots.
  { simpl. by rewrite fmap_app. }
  destruct (lookup_lt_is_Some_2 ids k) as [id Hid]; [lia|].
  rewrite seq_S, foldl_app. simpl.
  rewrite list_fmap_insert, IH by (lia || (intros; apply Hslots; (lia || done))).
  rewrite (array_get_lookup 0 hs k _ (Hslots k id ltac:(lia) Hid)).
  unfold batch_record. cbn [interruptID].
  rewrite (array_get_lookup 0 ids k id Hid).
  rewrite (take_S_r ids k id Hid), list.filter_app.
  set (A := filter (absent d) (take k ids)).
  destruct Hok as [Hc Hb].
  destruct (decide (absent d id)) as [Habs|Hpres].
  - pose proof (absent_split d ids k id Hid Habs) as Hlt. fold A in Hlt.
    rewrite filter_cons_True, filter_nil by done.
    replace (Z.to_nat (__isr_handler_count d + Z.of_nat (length A)))
      with (length (interruptID <$> __isr_handlers d) + length A)%nat
      by (rewrite length_fmap; lia).
    rewrite insert_app_r_alt by lia.
    replace (length (interruptID <$> __isr_handlers d) + length A
             - length (interruptID <$> __isr_handlers d))%nat
      with (length A + 0)%nat by lia.
    rewrite insert_app_r_alt by lia.
    replace (length A + 0 - length A)%nat with 0%nat by lia.
    destruct (lookup_lt_is_Some_2 J (length A)) as [j Hj]; [lia|].
    rewrite (drop_S J j (length A) Hj). simpl.
    rewrite length_app. simpl.
    replace (length A + 1)%nat with (S (length A)) by lia.
    by rewrite <- !app_assoc.
  - rewrite filter_cons_False, filter_nil, app_nil_r by done.
    destruct (findHandler_found id d (conj Hc Hb) Hpres) as (r & Hr & Hrid).
    apply list_insert_id.
    rewrite lookup_app_l.
    + by rewrite list_lookup_fmap, Hr, <- Hrid.
    + rewrite length_fmap. by eapply lookup_lt_Some.
Qed.

Lemma growTable_fields d growByN fresh :
  table_ok d → 0 ≤ growByN →
  (__isr_handler_count d + growByN) * sizeof_IsrHandler_t < UINT_MODULUS →
  let res := _HPS_IRQ_growTable growByN (ReallocOk fresh) d in
  fst res = ERR_SUCCESS
  ∧ __isr_handler_count (snd res) = __isr_handler_count d + growByN
  ∧ __isr_handlers (snd res)
    = __isr_handlers d
      ++ map fresh (seq (length (__isr_handlers d)) (Z.to_nat growByN))
  ∧ __isInitialised (snd res) = __isInitialised d
  ∧ __isr_unhandledIRQCallback (snd res) = __isr_unhandledIRQCallback d.
Proof.
  intros Hok Hn Hfit. destruct (decide (growByN = 0)) as [->|Hnz].
  - simpl. rewrite app_nil_r. repeat split. lia.
  - by rewrite growTable_ok by (done || lia).
Qed.

(** A successful batch registration on a consistent table, loop by loop:
    the slots chosen by the first loop, the block after the table has grown,
    and the stores of the second loop. *)
Lemma registerHandlers_run d (ids : list HPSIRQSource) fns ps fresh :
  table_ok d → __isInitialised d = true →
  (__isr_handler_count d + Z.of_nat (length ids)) * sizeof_IsrHandler_t < UINT_MODULUS →
  let res := HPS_IRQ_registerHandlers (Some ids) (Some fns) ps (length ids)
                                      (ReallocOk fresh) d in
  let g := length (filter (absent d) ids) in
  ∃ hs,
    (∀ idx id, (idx < length ids)%nat → ids !! idx = Some id →
       hs !! idx
       = Some (if decide (absent d id)
               then __isr_handler_count d
                    + Z.of_nat (length (filter (absent d) (take idx ids)))
               else _HPS_IRQ_findHandler id d))
    ∧ fst res = ERR_SUCCESS
    ∧ __isr_handler_count (snd res) = __isr_handler_count d + Z.of_nat g
    ∧ __isr_handlers (snd res)
      = foldl (λ T idx, <[Z.to_nat (array_get 0 hs idx) := batch_record ids fns ps idx]> T)
              (__isr_handlers d ++ map fresh (seq (length (__isr_handlers d)) g))
              (seq 0 (length ids))
    ∧ __isInitialised (snd res) = true
    ∧ __isr_unhandledIRQCallback (snd res) = __isr_unhandledIRQCallback d.
Proof.
  intros Hok Hinit Hfit.
  pose proof (absent_count_le d ids) as Hle.
  assert (__isr_handler_count d + Z.of_nat (length ids) < UINT_MODULUS) as Hfit'.
  { destruct Hok as [Hc _]. unfold sizeof_IsrHandler_t in Hfit. lia. }
  destruct (slot_steps d ids (length ids) Hok ltac:(lia) Hfit')
    as (hs & Hfold & Hlen & Hslots).
  rewrite firstn_all in Hfold. exists hs. split; [exact Hslots|].
  unfold HPS_IRQ_registerHandlers, HPS_IRQ_isInitialised.
  rewrite Hinit. simpl negb. cbv iota. rewrite Hfold.
  unfold __disable_irq. cbv iota beta.
  set (g := Z.of_nat (length (filter (absent d) ids))).
  assert (table_ok (set_masked true d)) as Hok1 by exact Hok.
  destruct (growTable_fields (set_masked true d) g fresh Hok1) as
    (Hs & Hcount & Htable & Hini & Hfb).
  { lia. }
  { destruct Hok as [Hc _]. unfold sizeof_IsrHandler_t in *. simpl. lia. }
  destruct (_HPS_IRQ_growTable g (ReallocOk fresh) (set_masked true d))
    as [status d1] eqn:Hgrow.
  simpl in Hs, Hcount, Htable, Hini, Hfb. subst status. simpl IS_ERROR. cbv iota.
  destruct (write_steps_fields hs ids fns ps (seq 0 (length ids)) d1)
    as (Hc2 & Hi2 & Hf2 & Ht2).
  set (d2 := foldl (write_step hs ids fns ps) d1 (seq 0 (length ids))) in *.
  rewrite Htable in Ht2. unfold g in Ht2. rewrite Nat2Z.id in Ht2.
  destruct (negb (irq_masked d)); simpl; rewrite ?Hc2, ?Hi2, ?Hf2, ?Hcount, ?Hini, ?Hfb;
    repeat split; done.
Qed.

(** Its effect on the table: the count grows by the number of entries that
    had no slot, and those entries' IDs are appended to the IDs of the table
    in call order. *)
Lemma registerHandlers_table d (ids : list HPSIRQSource) fns ps fresh :
  table_ok d → __isInitialised d = true →
  (__isr_handler_count d + Z.of_nat (length ids)) * sizeof_IsrHandler_t < UINT_MODULUS →
  let res := HPS_IRQ_registerHandlers (Some ids) (Some fns) ps (length ids)
                                      (ReallocOk fresh) d in
  fst res = ERR_SUCCESS
  ∧ __isr_handler_count (snd res)
    = __isr_handler_count d + Z.of_nat (length (filter (absent d) ids))
  ∧ interruptID <$> __isr_handlers (snd res)
    = (interruptID <$> __isr_handlers d) ++ filter (absent d) ids
  ∧ __isInitialised (snd res) = true
  ∧ __isr_unhandledIRQCallback (snd res) = __isr_unhandledIRQCallback d.
Proof.
  intros Hok Hinit Hfit.
  destruct (registerHandlers_run d ids fns ps fresh Hok Hinit Hfit)
    as (hs & Hslots & Hs & Hc & Ht & Hi & Hf).
  cbv zeta. rewrite Ht.
  rewrite (write_steps_ids d hs ids fns ps _ (length ids) Hok);
    [|by rewrite length_map, length_seq|lia|exact Hslots].
  rewrite firstn_all, drop_ge, fmap_nil, app_nil_r
    by (rewrite length_map, length_seq; lia).
  done.
Qed.

Lemma filter_absent_has_record d (ids : list HPSIRQSource) :
  table_ok d →
  filter (absent d) ids = filter (λ id, ¬ has_record id d) ids.
Proof. intros Hok. apply list_filter_iff. intros id. by apply findHandler_absent. Qed.

(** The lookup answers the first slot whose record carries the ID. *)
Lemma findHandler_first id d slot r :
  table_ok d →
  __isr_handlers d !! slot = Some r → interruptID r = id →
  (∀ j r', (j < slot)%nat → __isr_handlers d !! j = Some r' → interruptID r' ≠ id) →
  _HPS_IRQ_findHandler id d = Z.of_nat slot.
Proof.
  intros Hok Hr Hid Hfirst.
  pose proof (lookup_lt_Some _ _ _ Hr) as Hlt.
  pose proof (findHandler_range id d Hok) as Hrange.
  destruct Hok as [Hc Hb].
  unfold _HPS_IRQ_findHandler in *.
  set (n := Z.to_nat (__isr_handler_count d)) in *.
  set (h := scan (__isr_handlers d) id 0 n) in *.
  f_equal. destruct (Nat.lt_trichotomy h slot) as [Hlow|[Heq|Hhigh]]; [|done|].
  - destruct (scan_found (__isr_handlers d) id 0 n) as (r' & Hr' & Hid'); [fold h; lia|].
    fold h in Hr'. by destruct (Hfirst h r' Hlow Hr').
  - exfalso. apply (scan_skipped (__isr_handlers d) id 0 n slot r); [fold h; lia|done..].
Qed.

(** C4, as stated, fails: on a freshly initialised (empty) registry the call
    registerHandlers(ids=[3,3,9], cbs=[a,b,c], count=3) does not raise the
    count by 2. *)
Lemma registerHandlers_3_3_9_not_two_slots :
  let d := snd (HPS_IRQ_initialise FNull (power_on false)) in
  let res := HPS_IRQ_registerHandlers (Some [3; 3; 9])
               (Some [FUser 1; FUser 2; FUser 3]) None 3
               (ReallocOk (λ _, mkIsrHandler 0 FNull 0 false)) d in
  ¬ (__isr_handler_count (snd res) = __isr_handler_count d + 2).
Proof. vm_compute. discriminate. Qed.

(** C4 as amended: a successful batch registration on a consistent table
    raises the count by the number of entries of the call whose ID had no
    record before the call, every occurrence of a repeated ID counted; with
    ids=[3,3,9] and callbacks [a,b,c] on a registry that holds neither 3 nor
    9, three slots are appended (3 with a, 3 with b, 9 with c), the count
    grows by 3, and a lookup of 3 answers the first of them, the one with
    callback a. *)
Theorem registerHandlers_count_change :
  (∀ d (ids : list HPSIRQSource) fns ps fresh,
     table_ok d → __isInitialised d = true →
     (__isr_handler_count d + Z.of_nat (length ids)) * sizeof_IsrHandler_t
       < UINT_MODULUS →
     let res := HPS_IRQ_registerHandlers (Some ids) (Some fns) ps (length ids)
                                         (ReallocOk fresh) d in
     fst res = ERR_SUCCESS
     ∧ __isr_handler_count (snd res)
       = __isr_handler_count d
         + Z.of_nat (length (filter (λ id, ¬ has_record id d) ids)))
  ∧ (∀ d a b c fresh,
       table_ok d → __isInitialised d = true →
       (__isr_handler_count d + 3) * sizeof_IsrHandler_t < UINT_MODULUS →
       ¬ has_record 3 d → ¬ has_record 9 d →
       let res := HPS_IRQ_registerHandlers (Some [3; 3; 9]) (Some [a; b; c]) None 3
                                           (ReallocOk fresh) d in
       fst res = ERR_SUCCESS
       ∧ __isr_handler_count (snd res) = __isr_handler_count d + 3
       ∧ __isr_handlers (snd res)
         = __isr_handlers d
           ++ [mkIsrHandler 3 a NULL true; mkIsrHandler 3 b NULL true;
               mkIsrHandler 9 c NULL true]
       ∧ _HPS_IRQ_findHandler 3 (snd res) = __isr_handler_count d).
Proof.
  split.
  - intros d ids fns ps fresh Hok Hinit Hfit.
    destruct (registerHandlers_table d ids fns ps fresh Hok Hinit Hfit)
      as (Hs & Hc & _).
    split; [exact Hs|]. rewrite Hc. by rewrite filter_absent_has_record.
  - intros d a b c fresh Hok Hinit Hfit H3 H9.
    apply (findHandler_absent 3 d Hok) in H3 as Ha3.
    apply (findHandler_absent 9 d Hok) in H9 as Ha9.
    destruct (registerHandlers_run d [3; 3; 9] [a; b; c] None fresh Hok Hinit Hfit)
      as (hs & Hslots & Hs & Hc & Ht & Hi & Hf).
    change (length ([3; 3; 9] : list HPSIRQSource)) with 3%nat in *.
    assert (∀ l : list HPSIRQSource,
              Forall (absent d) l → filter (absent d) l = l) as Hfil.
    { induction 1 as [|x l Hx Hl IH]; [done|].
      rewrite filter_cons_True by done. by f_equal. }
    rewrite Hfil in Hc, Ht by (repeat constructor; done).
    pose proof (Hslots 0%nat 3 ltac:(simpl; lia) eq_refl) as Hs0.
    pose proof (Hslots 1%nat 3 ltac:(simpl; lia) eq_refl) as Hs1.
    pose proof (Hslots 2%nat 9 ltac:(simpl; lia) eq_refl) as Hs2.
    rewrite decide_True in Hs0 by done. rewrite decide_True in Hs1 by done.
    rewrite decide_True in Hs2 by done.
    simpl take in Hs0, Hs1, Hs2.
    rewrite Hfil in Hs0, Hs1, Hs2 by (repeat constructor; done).
    simpl length in Hs0, Hs1, Hs2.
    destruct Hok as [Hcount Hb].
    assert (__isr_handlers (snd (HPS_IRQ_registerHandlers (Some [3; 3; 9])
                                   (Some [a; b; c]) None 3 (ReallocOk fresh) d))
            = __isr_handlers d
              ++ [mkIsrHandler 3 a NULL true; mkIsrHandler 3 b NULL true;
                  mkIsrHandler 9 c NULL true]) as Htable.
    { etrans; [exact Ht|]. simpl foldl.
      rewrite (array_get_lookup 0 hs 0 _ Hs0), (array_get_lookup 0 hs 1 _ Hs1),
        (array_get_lookup 0 hs 2 _ Hs2).
      unfold batch_record, array_get. simpl nth.
      rewrite Hcount, <- !Nat2Z.inj_add, !Nat2Z.id.
      rewrite !insert_app_r. reflexivity. }
    assert (__isr_handler_count
              (snd (HPS_IRQ_registerHandlers (Some [3; 3; 9]) (Some [a; b; c]) None 3
                                             (ReallocOk fresh) d))
            = __isr_handler_count d + 3) as Hc'.
    { etrans; [exact Hc|]. simpl. lia. }
    cbv zeta. split; [exact Hs|]. split; [exact Hc'|].
    split; [exact Htable|].
    rewrite Hcount.
    apply (findHandler_first 3 _ _ (mkIsrHandler 3 a NULL true)).
    + split.
      * rewrite Hc', Htable, length_app. simpl. lia.
      * rewrite Hc'. unfold sizeof_IsrHandler_t in *. lia.
    + rewrite Htable. by rewrite lookup_app_r, Nat.sub_diag.
    + reflexivity.
    + intros j r' Hj Hr'. rewrite Htable, lookup_app_l in Hr' by done.
      intros Hid. apply H3. apply list_elem_of_fmap. exists r'.
      split; [done|]. by eapply list_elem_of_lookup_2.
Qed.

Lemma registerHandlers_count_change_witness :
  let d := snd (HPS_IRQ_initialise FNull (power_on false)) in
  let res := HPS_IRQ_registerHandlers (Some [3; 3; 9])
               (Some [FUser 1; FUser 2; FUser 3]) None 3
               (ReallocOk (λ _, mkIsrHandler 0 FNull 0 false)) d in
  __isr_handler_count (snd res) = __isr_handler_count d + 3
  ∧ _HPS_IRQ_findHandler 3 (snd res) = __isr_handler_count d.
Proof.
  intros d res.
  destruct (proj2 registerHandlers_count_change d (FUser 1) (FUser 2) (FUser 3)
              (λ _, mkIsrHandler 0 FNull 0 false)) as (_ & Hc & _ & Hf).
  - split; vm_compute; reflexivity.
  - reflexivity.
  - vm_compute. reflexivity.
  - unfold has_record. simpl. apply not_elem_of_nil.
  - unfold has_record. simpl. apply not_elem_of_nil.
  - split; [exact Hc|exact Hf].
Defined.

(** ** The registry across sequences of calls *)

Lemma registerHandler_table id f p heap d :
  table_ok d → __isInitialised d = true →
  (__isr_handler_count d + 1) * sizeof_IsrHandler_t < UINT_MODULUS →
  let d' := snd (HPS_IRQ_registerHandler id f p heap d) in
  __isInitialised d' = true
  ∧ ((__isr_handler_count d' = __isr_handler_count d
      ∧ interruptID <$> __isr_handlers d' = interruptID <$> __isr_handlers d)
     ∨ (¬ has_record id d
        ∧ __isr_handler_count d' = __isr_handler_count d + 1
        ∧ interruptID <$> __isr_handlers d'
          = (interruptID <$> __isr_handlers d) ++ [id])).
Proof.
  intros Hok Hinit Hfit. unfold HPS_IRQ_registerHandler, HPS_IRQ_isInitialised.
  rewrite Hinit. simpl negb. cbv iota. unfold __disable_irq. cbv iota beta.
  change (__isr_handler_count (set_masked true d)) with (__isr_handler_count d).
  destruct (_HPS_IRQ_findHandler id d =? __isr_handler_count d) eqn:E.
  - apply Z.eqb_eq in E. destruct heap as [|fresh].
    + simpl. split; [done|]. by left.
    + assert (table_ok (set_masked true d)) as Hok1 by exact Hok.
      rewrite (growTable_ok (set_masked true d) 1 fresh Hok1) by (lia || done).
      simpl IS_ERROR. cbv iota. destruct Hok as [Hc Hb].
      assert (∀ d1 : Driver,
                __isInitialised d1 = true →
                __isr_handler_count d1 = __isr_handler_count d + 1 →
                __isr_handlers d1
                = __isr_handlers d ++ [fresh (length (__isr_handlers d))] →
                let d2 := _HPS_IRQ_doRegister (_HPS_IRQ_findHandler id d) id f p d1 in
                __isInitialised d2 = true
                ∧ __isr_handler_count d2 = __isr_handler_count d + 1
                ∧ interruptID <$> __isr_handlers d2
                  = (interruptID <$> __isr_handlers d) ++ [id]) as Hreg.
      { intros d1 Hi1 Hc1 Ht1. simpl. rewrite Hi1, Hc1, Ht1. repeat split.
        rewrite E, Hc, Nat2Z.id.
        replace (length (__isr_handlers d)) with (length (__isr_handlers d) + 0)%nat
          at 1 by lia.
        rewrite insert_app_r. simpl. by rewrite fmap_app. }
      destruct (Hreg (set_count (__isr_handler_count d + 1)
                        (set_handlers (__isr_handlers d
                           ++ map fresh (seq (length (__isr_handlers d)) (Z.to_nat 1)))
                           (set_masked true d)))) as (Hi2 & Hc2 & Ht2); [done..|].
      assert (¬ has_record id d) as Habs by (by apply findHandler_absent).
      destruct (negb (irq_masked d)); simpl; (split; [done|]); right;
        repeat split; done.
  - apply Z.eqb_neq in E.
    destruct (findHandler_found id d Hok E) as (r & Hr & Hrid).
    simpl IS_ERROR. cbv iota.
    assert (interruptID <$>
              <[Z.to_nat (_HPS_IRQ_findHandler id d) := mkIsrHandler id f p true]>
                (__isr_handlers d)
            = interruptID <$> __isr_handlers d) as Hids.
    { rewrite list_fmap_insert. apply list_insert_id.
      by rewrite list_lookup_fmap, Hr, <- Hrid. }
    destruct (negb (irq_masked d)); simpl; (split; [done|]); left; done.
Qed.

Lemma registerHandlers_no_growth d (ids : list HPSIRQSource) fns ps heap heap' :
  table_ok d →
  __isr_handler_count d + Z.of_nat (length ids) < UINT_MODULUS →
  length (filter (absent d) ids) = 0%nat →
  HPS_IRQ_registerHandlers (Some ids) (Some fns) ps (length ids) heap d
  = HPS_IRQ_registerHandlers (Some ids) (Some fns) ps (length ids) heap' d.
Proof.
  intros Hok Hfit Hnone.
  destruct (slot_steps d ids (length ids) Hok ltac:(lia) Hfit)
    as (hs & Hfold & _).
  rewrite firstn_all, Hnone in Hfold.
  unfold HPS_IRQ_registerHandlers. destruct (negb (HPS_IRQ_isInitialised d)); [done|].
  rewrite Hfold. reflexivity.
Qed.

Lemma registerHandlers_allocfail d (ids : list HPSIRQSource) fns ps :
  table_ok d → __isInitialised d = true →
  __isr_handler_count d + Z.of_nat (length ids) < UINT_MODULUS →
  length (filter (absent d) ids) ≠ 0%nat →
  HPS_IRQ_registerHandlers (Some ids) (Some fns) ps (length ids) ReallocFail d
  = (ERR_ALLOCFAIL, set_masked true d).
Proof.
  intros Hok Hinit Hfit Hsome.
  destruct (slot_steps d ids (length ids) Hok ltac:(lia) Hfit)
    as (hs & Hfold & _).
  rewrite firstn_all in Hfold.
  unfold HPS_IRQ_registerHandlers, HPS_IRQ_isInitialised. rewrite Hinit. simpl negb.
  cbv iota. rewrite Hfold. unfold __disable_irq, _HPS_IRQ_growTable. cbv iota beta.
  destruct (Z.of_nat (length (filter (absent d) ids)) =? 0) eqn:E; [lia|].
  reflexivity.
Qed.

Lemma doUnregister_ids h id d :
  interruptID <$> __isr_handlers (_HPS_IRQ_doUnregister h id d)
  = interruptID <$> __isr_handlers d.
Proof. rewrite doUnregister_handlers. apply clear_record_ids. Qed.

Lemma table_ok_same d d' :
  __isr_handler_count d' = __isr_handler_count d →
  interruptID <$> __isr_handlers d' = interruptID <$> __isr_handlers d →
  table_ok d → table_ok d'.
Proof.
  intros Hc Hids [Hlen Hb]. split; [|by rewrite Hc].
  rewrite Hc, Hlen. f_equal.
  by rewrite <- (length_fmap interruptID (__isr_handlers d')), Hids, length_fmap.
Qed.

Lemma registry_inv_same d d' :
  __isr_handler_count d' = __isr_handler_count d →
  interruptID <$> __isr_handlers d' = interruptID <$> __isr_handlers d →
  __isInitialised d' = __isInitialised d →
  registry_inv d → registry_inv d'.
Proof.
  intros Hc Hids Hi (Hok & Hinit & Hnd). split; [by eapply table_ok_same|].
  split; [by rewrite Hi|]. by rewrite Hids.
Qed.

Lemma registry_inv_append d d' (new : list HPSIRQSource) :
  __isr_handler_count d' = __isr_handler_count d + Z.of_nat (length new) →
  interruptID <$> __isr_handlers d' = (interruptID <$> __isr_handlers d) ++ new →
  __isInitialised d' = true →
  (__isr_handler_count d + Z.of_nat (length new)) * sizeof_IsrHandler_t
    < UINT_MODULUS →
  NoDup new → (∀ id, id ∈ new → ¬ has_record id d) →
  registry_inv d → registry_inv d'.
Proof.
  intros Hc Hids Hi Hfit Hnew Hfresh ((Hlen & Hb) & Hinit & Hnd).
  split; [split|split].
  - rewrite Hc, Hlen, <- Nat2Z.inj_add. f_equal.
    rewrite <- (length_fmap interruptID (__isr_handlers d')), Hids.
    by rewrite length_app, length_fmap.
  - by rewrite Hc.
  - done.
  - rewrite Hids. apply list.NoDup_app. split; [done|]. split; [|done].
    intros id Hin Hin'. by apply (Hfresh id Hin').
Qed.

Lemma unregister_steps_same (ids : list HPSIRQSource) idxs status d :
  let d' := snd (foldl (unregister_step ids) (status, d) idxs) in
  __isr_handler_count d' = __isr_handler_count d
  ∧ interruptID <$> __isr_handlers d' = interruptID <$> __isr_handlers d
  ∧ __isInitialised d' = __isInitialised d.
Proof.
  revert status d. induction idxs as [|i idxs IH]; intros status d; simpl; [done|].
  destruct (negb _).
  - destruct (IH status (_HPS_IRQ_doUnregister
                  (_HPS_IRQ_findHandler (array_get 0 ids i) d) (array_get 0 ids i) d))
      as (Hc & Hids & Hi).
    rewrite Hc, Hids, Hi, doUnregister_count, doUnregister_ids,
      doUnregister_initialised. done.
  - apply IH.
Qed.

(** One call keeps the invariant and grows the count by no more than it
    asked for. *)
Lemma run_call_inv d c :
  registry_inv d → distinct_batch c →
  (__isr_handler_count d + Z.of_nat (call_demand c)) * sizeof_IsrHandler_t
    < UINT_MODULUS →
  registry_inv (run_call d c)
  ∧ __isr_handler_count (run_call d c)
    ≤ __isr_handler_count d + Z.of_nat (call_demand c).
Proof.
  intros Hinv Hdist Hfit. pose proof Hinv as (Hok & Hinit & Hnd).
  destruct Hok as [Hlen Hb].
  destruct c as [id f p heap|ids fns ps count heap|id|ids count]; simpl in *.
  - destruct (registerHandler_table id f p heap d (conj Hlen Hb) Hinit Hfit)
      as (Hi' & [(Hc' & Hids')|(Habs & Hc' & Hids')]).
    + split; [|lia]. by eapply registry_inv_same; [..|exact Hinv]; try congruence.
    + split; [|lia].
      eapply (registry_inv_append d _ [id]); [done..| | |exact Hinv].
      * apply NoDup_singleton.
      * by intros id' ->%list_elem_of_singleton.
  - destruct ids as [ids|];
      [|unfold HPS_IRQ_registerHandlers, HPS_IRQ_isInitialised;
        rewrite Hinit; simpl; split; [done|lia]].
    destruct fns as [fns|];
      [|unfold HPS_IRQ_registerHandlers, HPS_IRQ_isInitialised;
        rewrite Hinit; simpl; split; [done|lia]].
    destruct Hdist as [<- Hnodup].
    pose proof (absent_count_le d ids) as Hle.
    assert (__isr_handler_count d + Z.of_nat (length ids) < UINT_MODULUS) as Hfit'
      by (unfold sizeof_IsrHandler_t in Hfit; lia).
    assert (∀ fresh,
              registry_inv (snd (HPS_IRQ_registerHandlers (Some ids) (Some fns) ps
                                   (length ids) (ReallocOk fresh) d))
              ∧ __isr_handler_count
                  (snd (HPS_IRQ_registerHandlers (Some ids) (Some fns) ps
                          (length ids) (ReallocOk fresh) d))
                ≤ __isr_handler_count d + Z.of_nat (length ids)) as Hgood.
    { intros fresh.
      destruct (registerHandlers_table d ids fns ps fresh (conj Hlen Hb) Hinit Hfit)
        as (_ & Hc' & Hids' & Hi' & _).
      split; [|lia].
      eapply (registry_inv_append d _ (filter (absent d) ids));
        [done..| | | |exact Hinv].
      - unfold sizeof_IsrHandler_t in *. lia.
      - by apply list.NoDup_filter.
      - intros id [Habs _]%list_elem_of_filter.
        by apply (findHandler_absent id d (conj Hlen Hb)). }
    destruct heap as [|fresh]; [|apply Hgood].
    destruct (decide (length (filter (absent d) ids) = 0%nat)) as [Hnone|Hsome].
    + rewrite (registerHandlers_no_growth d ids fns ps ReallocFail
                 (ReallocOk (λ _, mkIsrHandler 0 FNull 0 false)))
        by done.
      apply Hgood.
    + rewrite registerHandlers_allocfail by done. simpl. split; [done|lia].
  - unfold HPS_IRQ_unregisterHandler, HPS_IRQ_isInitialised. rewrite Hinit. simpl.
    destruct (negb _); simpl; [|split; [done|lia]].
    rewrite doUnregister_count. split; [|lia].
    eapply registry_inv_same; [..|exact Hinv].
    + apply doUnregister_count.
    + apply doUnregister_ids.
    + apply doUnregister_initialised.
  - unfold HPS_IRQ_unregisterHandlers, HPS_IRQ_isInitialised. rewrite Hinit. simpl.
    destruct ids as [ids|]; simpl; [|split; [done|lia]].
    destruct (unregister_steps_same ids (seq 0 count) ERR_SUCCESS d) as (Hc & Hids & Hi).
    split; [|lia]. by eapply registry_inv_same; [..|exact Hinv].
Qed.

Lemma calls_demand_cons c cs :
  calls_demand (c :: cs) = (call_demand c + calls_demand cs)%nat.
Proof. reflexivity. Qed.

Lemma run_calls_inv cs d :
  registry_inv d → Forall distinct_batch cs →
  (__isr_handler_count d + Z.of_nat (calls_demand cs)) * sizeof_IsrHandler_t
    < UINT_MODULUS →
  registry_inv (run_calls cs d).
Proof.
  revert d. induction cs as [|c cs IH]; intros d Hinv Hall Hfit; [done|].
  inversion Hall as [|c' cs' Hc Hcs]; subst c' cs'.
  rewrite calls_demand_cons in Hfit.
  unfold sizeof_IsrHandler_t in *.
  destruct (run_call_inv d c Hinv Hc) as [Hinv' Hgrow].
  { unfold sizeof_IsrHandler_t. lia. }
  simpl. apply IH; [done..|]. lia.
Qed.

Lemma calls_demand_take n cs : (calls_demand (take n cs) ≤ calls_demand cs)%nat.
Proof.
  revert n. induction cs as [|c cs IH]; intros [|n]; simpl take;
    rewrite ?calls_demand_cons; try (unfold calls_demand; simpl; lia).
  specialize (IH n). lia.
Qed.

Lemma nodup_ids_at_most_one_enabled d :
  NoDup (interruptID <$> __isr_handlers d) → at_most_one_enabled d.
Proof.
  intros Hnd id. unfold enabled_records.
  induction (__isr_handlers d) as [|r table IH]; simpl; [lia|].
  rewrite fmap_cons in Hnd. apply list.NoDup_cons in Hnd as [Hnotin Hnd].
  destruct (decide (interruptID r = id ∧ enabled r = true)) as [[Hid Hen]|Hno].
  - rewrite filter_cons_True by done.
    assert (filter (λ r, interruptID r = id ∧ enabled r = true) table = []) as ->.
    { destruct (filter _ table) as [|r' rest] eqn:E; [done|].
      assert (r' ∈ filter (λ r, interruptID r = id ∧ enabled r = true) table)
        as [[Hid' _] Hin]%list_elem_of_filter by (rewrite E; left).
      destruct Hnotin. apply list_elem_of_fmap. exists r'.
      split; [congruence|done]. }
    simpl. lia.
  - rewrite filter_cons_False by done. by apply IH.
Qed.

(** C3, as stated, fails: one batch registration that names interrupt 3
    twice leaves two enabled records for 3. *)
Lemma batch_with_repeated_id_two_enabled_records :
  ¬ at_most_one_enabled
      (run_calls [RegisterHandlers (Some [3; 3]) (Some [FUser 1; FUser 2]) None 2
                    (ReallocOk (λ _, mkIsrHandler 0 FNull 0 false))]
                 (snd (HPS_IRQ_initialise FNull (power_on false)))).
Proof. intros H. specialize (H 3). vm_compute in H. lia. Qed.

(** C3 as amended: starting from an initialised empty registry, after any
    prefix of any sequence of register and unregister calls (single and batch
    forms) in which every batch registration names pairwise distinct
    interrupt IDs, and whose total demand for slots stays representable, no
    interrupt ID is carried by two records; in particular at most one enabled
    record exists per interrupt ID. *)
Theorem at_most_one_enabled_distinct_batches fallback masked cs n :
  Forall distinct_batch cs →
  Z.of_nat (calls_demand cs) * sizeof_IsrHandler_t < UINT_MODULUS →
  let d := run_calls (take n cs) (snd (HPS_IRQ_initialise fallback (power_on masked))) in
  NoDup (interruptID <$> __isr_handlers d) ∧ at_most_one_enabled d.
Proof.
  intros Hall Hfit d.
  assert (registry_inv d) as (_ & _ & Hnd).
  { apply run_calls_inv.
    - destruct fallback; (split; [split|split]); try done; apply NoDup_nil_2.
    - by apply Forall_take.
    - pose proof (calls_demand_take n cs).
      assert (__isr_handler_count (snd (HPS_IRQ_initialise fallback (power_on masked)))
              = 0) as -> by (by destruct fallback).
      unfold sizeof_IsrHandler_t in *. lia. }
  split; [done|]. by apply nodup_ids_at_most_one_enabled.
Qed.

Lemma at_most_one_enabled_distinct_batches_witness :
  let fresh : nat → IsrHandler_t := λ _, mkIsrHandler 0 FNull 0 false in
  let cs := [RegisterHandler 5 (FUser 1) 7 (ReallocOk fresh);
             RegisterHandlers (Some [3; 9]) (Some [FUser 2; FUser 3]) None 2
                              (ReallocOk fresh);
             UnregisterHandler 5;
             RegisterHandlers (Some [9; 5]) (Some [FUser 4; FUser 5]) None 2
                              ReallocFail] in
  let d := run_calls (take 4 cs) (snd (HPS_IRQ_initialise FNull (power_on false))) in
  NoDup (interruptID <$> __isr_handlers d) ∧ at_most_one_enabled d.
Proof.
  intros fresh cs.
  apply (at_most_one_enabled_distinct_batches FNull false cs 4).
  - repeat apply List.Forall_cons; try apply List.Forall_nil; simpl; try done;
      (split; [reflexivity|apply (bool_decide_unpack _); vm_compute; reflexivity]).
  - vm_compute. reflexivity.
Defined.

(** * Further properties of the driver *)

(** ** Lookup *)

(** X1: on a consistent table, [_HPS_IRQ_findHandler] answers an index
    between 0 and the count; it answers the count exactly when no record
    carries the ID; otherwise the record at the answered index carries the
    ID and no record before it does. *)
Theorem findHandler_first_match id d :
  table_ok d →
  let h := _HPS_IRQ_findHandler id d in
  0 ≤ h ≤ __isr_handler_count d
  ∧ (h = __isr_handler_count d ↔ ¬ has_record id d)
  ∧ (h ≠ __isr_handler_count d →
     ∃ r, __isr_handlers d !! Z.to_nat h = Some r ∧ interruptID r = id
          ∧ ∀ j r', (j < Z.to_nat h)%nat → __isr_handlers d !! j = Some r' →
                    interruptID r' ≠ id).
Proof.
  intros Hok h. split; [by apply findHandler_range|].
  split; [by apply findHandler_absent|].
  intros Hne. destruct (findHandler_found id d Hok Hne) as (r & Hr & Hid).
  exists r. repeat split; [done..|].
  intros j r' Hj Hr'. unfold h, _HPS_IRQ_findHandler in Hj. rewrite Nat2Z.id in Hj.
  apply (scan_skipped (__isr_handlers d) id 0
           (Z.to_nat (__isr_handler_count d)) j r'); [lia|exact Hr'].
Qed.

Lemma findHandler_first_match_witness :
  let d := mkDriver true 3
             [mkIsrHandler 7 FNull 0 false; mkIsrHandler 4 (FUser 1) 0 true;
              mkIsrHandler 4 (FUser 2) 0 true] FDefaultUnhandled false [] in
  _HPS_IRQ_findHandler 9 d = __isr_handler_count d.
Proof.
  intros d.
  assert (table_ok d) as Hok by (split; vm_compute; reflexivity).
  destruct (findHandler_first_match 9 d Hok) as (_ & Habs & _).
  apply Habs. unfold has_record. simpl.
  intros H. apply list_elem_of_In in H. simpl in H.
  destruct H as [H|[H|[H|[]]]]; discriminate H.
Defined.

(** ** Error returns that change nothing *)

(** X2: before [HPS_IRQ_initialise], registering (single or batch, even
    with null arrays), unregistering (single or batch) and globally enabling
    all answer "not initialised" and leave the driver state, the interrupt
    mask included, as it was. *)
Theorem api_refused_before_initialise d :
  __isInitialised d = false →
  (∀ id f p heap, HPS_IRQ_registerHandler id f p heap d = (ERR_NOINIT, d))
  ∧ (∀ ids fns ps count heap,
       HPS_IRQ_registerHandlers ids fns ps count heap d = (ERR_NOINIT, d))
  ∧ (∀ id, HPS_IRQ_unregisterHandler id d = (ERR_NOINIT, d))
  ∧ (∀ ids count, HPS_IRQ_unregisterHandlers ids count d = (ERR_NOINIT, d))
  ∧ HPS_IRQ_globalEnable true d = (ERR_NOINIT, d).
Proof.
  intros Hinit.
  unfold HPS_IRQ_registerHandler, HPS_IRQ_registerHandlers,
    HPS_IRQ_unregisterHandler, HPS_IRQ_unregisterHandlers, HPS_IRQ_globalEnable,
    HPS_IRQ_isInitialised.
  rewrite Hinit. simpl. repeat split.
Qed.

Lemma api_refused_before_initialise_witness :
  HPS_IRQ_registerHandler 5 (FUser 1) 0 ReallocFail (power_on false)
  = (ERR_NOINIT, power_on false)
  ∧ HPS_IRQ_unregisterHandlers None 3 (power_on false) = (ERR_NOINIT, power_on false).
Proof.
  destruct (api_refused_before_initialise (power_on false) eq_refl)
    as (Hreg & _ & _ & Hunreg & _).
  split; [apply Hreg|apply Hunreg].
Defined.

(** X3: on an initialised driver, a batch registration with a null ID array
    or a null callback array, and a batch unregistration with a null ID
    array, answer "null pointer" and leave the driver state as it was,
    whatever the count and the allocator. *)
Theorem batch_null_arrays_refused d :
  __isInitialised d = true →
  (∀ fns ps count heap,
     HPS_IRQ_registerHandlers None fns ps count heap d = (ERR_NULLPTR, d))
  ∧ (∀ ids ps count heap,
       HPS_IRQ_registerHandlers ids None ps count heap d = (ERR_NULLPTR, d))
  ∧ (∀ count, HPS_IRQ_unregisterHandlers None count d = (ERR_NULLPTR, d)).
Proof.
  intros Hinit.
  unfold HPS_IRQ_registerHandlers, HPS_IRQ_unregisterHandlers, HPS_IRQ_isInitialised.
  rewrite Hinit. simpl. repeat split. intros [ids|]; reflexivity.
Qed.

Lemma batch_null_arrays_refused_witness :
  let d := snd (HPS_IRQ_initialise FNull (power_on false)) in
  HPS_IRQ_registerHandlers (Some [3; 4]) None None 2 ReallocFail d = (ERR_NULLPTR, d).
Proof.
  intros d. apply (proj1 (proj2 (batch_null_arrays_refused d eq_refl))).
Defined.

(** X4: on an initialised driver, a batch registration and a batch
    unregistration with count zero succeed and leave the driver state as it
    was; the allocator is not asked, so this holds even when it would
    fail. *)
Theorem empty_batches_change_nothing d :
  __isInitialised d = true →
  (∀ ids fns ps heap,
     HPS_IRQ_registerHandlers (Some ids) (Some fns) ps 0 heap d = (ERR_SUCCESS, d))
  ∧ (∀ ids, HPS_IRQ_unregisterHandlers (Some ids) 0 d = (ERR_SUCCESS, d)).
Proof.
  intros Hinit. split.
  - intros ids fns ps heap.
    unfold HPS_IRQ_registerHandlers, HPS_IRQ_isInitialised. rewrite Hinit. simpl.
    f_equal. destruct d as [i c t f m e]. by destruct m.
  - intros ids.
    unfold HPS_IRQ_unregisterHandlers, HPS_IRQ_isInitialised. by rewrite Hinit.
Qed.

Lemma empty_batches_change_nothing_witness :
  let d := snd (HPS_IRQ_initialise FNull (power_on false)) in
  HPS_IRQ_registerHandlers (Some []) (Some []) None 0 ReallocFail d = (ERR_SUCCESS, d).
Proof.
  intros d. apply (proj1 (empty_batches_change_nothing d eq_refl)).
Defined.

(** ** Registering one handler *)

Lemma isr_lookup_find id d :
  isr_lookup id d
  = if _HPS_IRQ_findHandler id d <? __isr_handler_count d
    then __isr_handlers d !! Z.to_nat (_HPS_IRQ_findHandler id d)
    else None.
Proof. unfold isr_lookup, _HPS_IRQ_findHandler. by rewrite Nat2Z.id. Qed.

Lemma isr_lookup_first_intro id d slot r :
  table_ok d →
  __isr_handlers d !! slot = Some r → interruptID r = id →
  (∀ j r', (j < slot)%nat → __isr_handlers d !! j = Some r' → interruptID r' ≠ id) →
  isr_lookup id d = Some r.
Proof.
  intros Hok Hr Hid Hfirst. rewrite isr_lookup_find.
  rewrite (findHandler_first id d slot r Hok Hr Hid Hfirst), Nat2Z.id, Hr.
  pose proof (lookup_lt_Some _ _ _ Hr). destruct Hok as [Hc _].
  destruct (Z.of_nat slot <? __isr_handler_count d) eqn:E; [done|].
  apply Z.ltb_ge in E. lia.
Qed.

Lemma isr_lookup_None id d :
  table_ok d → (isr_lookup id d = None ↔ ¬ has_record id d).
Proof.
  intros Hok. rewrite isr_lookup_find, <- (findHandler_absent id d Hok).
  pose proof (findHandler_range id d Hok) as Hrange.
  destruct (_HPS_IRQ_findHandler id d <? __isr_handler_count d) eqn:E.
  - apply Z.ltb_lt in E.
    destruct (findHandler_found id d Hok ltac:(lia)) as (r & -> & _).
    split; [done|lia].
  - apply Z.ltb_ge in E. split; [lia|done].
Qed.

(** What a successful single registration leaves behind, field by field. *)
Lemma registerHandler_fields id f p heap d :
  __isInitialised d = true →
  fst (HPS_IRQ_registerHandler id f p heap d) = ERR_SUCCESS →
  let d' := snd (HPS_IRQ_registerHandler id f p heap d) in
  __isInitialised d' = true
  ∧ __isr_unhandledIRQCallback d' = __isr_unhandledIRQCallback d
  ∧ irq_masked d' = irq_masked d
  ∧ effects d'
    = effects d
      ++ [DistStore (ICDISER + Z.quot id 32) (u32 (Z.shiftl 1 (Z.rem id 32)));
          DistStoreByte (4 * (ICDIPTR + Z.quot id 4) + Z.rem id 4) 0x1]
  ∧ ((_HPS_IRQ_findHandler id d ≠ __isr_handler_count d
      ∧ __isr_handler_count d' = __isr_handler_count d
      ∧ __isr_handlers d'
        = <[Z.to_nat (_HPS_IRQ_findHandler id d) := mkIsrHandler id f p true]>
            (__isr_handlers d))
     ∨ (_HPS_IRQ_findHandler id d = __isr_handler_count d
        ∧ __isr_handler_count d' = u32 (__isr_handler_count d + 1)
        ∧ ∃ fresh, heap = ReallocOk fresh
          ∧ __isr_handlers d'
            = <[Z.to_nat (__isr_handler_count d) := mkIsrHandler id f p true]>
                (take (Z.to_nat (u32 (u32 (__isr_handler_count d + 1)
                                      * sizeof_IsrHandler_t) / sizeof_IsrHandler_t))
                      (__isr_handlers d)
                 ++ map fresh
                      (seq (length (__isr_handlers d))
                           (Z.to_nat (u32 (u32 (__isr_handler_count d + 1)
                                           * sizeof_IsrHandler_t) / sizeof_IsrHandler_t)
                            - length (__isr_handlers d)))))).
Proof.
  intros Hinit. unfold HPS_IRQ_registerHandler, HPS_IRQ_isInitialised.
  rewrite Hinit. simpl negb. cbv iota. unfold __disable_irq. cbv iota beta.
  change (__isr_handler_count (set_masked true d)) with (__isr_handler_count d).
  destruct (_HPS_IRQ_findHandler id d =? __isr_handler_count d) eqn:E.
  - apply Z.eqb_eq in E. unfold _HPS_IRQ_growTable. simpl (1 =? 0). cbv iota.
    destruct heap as [|fresh]; simpl realloc; cbv iota; [discriminate|].
    simpl IS_ERROR. cbv iota. intros _.
    destruct (irq_masked d) eqn:Hm; simpl; rewrite ?Hm, E;
      (split; [exact Hinit|]); (split; [reflexivity|]); (split; [reflexivity|]);
      (split; [by rewrite <- app_assoc|]); right;
      (split; [reflexivity|]); (split; [reflexivity|]); by exists fresh.
  - apply Z.eqb_neq in E. simpl IS_ERROR. cbv iota. intros _.
    destruct (irq_masked d) eqn:Hm; simpl; rewrite ?Hm;
      (split; [exact Hinit|]); (split; [reflexivity|]); (split; [reflexivity|]);
      (split; [by rewrite <- app_assoc|]); left; done.
Qed.

(** The same on a table whose grown size is representable: the record goes
    into the slot found for the ID, or else is appended. *)
Lemma registerHandler_handlers id f p heap d :
  table_ok d → __isInitialised d = true →
  (__isr_handler_count d + 1) * sizeof_IsrHandler_t < UINT_MODULUS →
  fst (HPS_IRQ_registerHandler id f p heap d) = ERR_SUCCESS →
  let d' := snd (HPS_IRQ_registerHandler id f p heap d) in
  (has_record id d
   ∧ __isr_handler_count d' = __isr_handler_count d
   ∧ __isr_handlers d'
     = <[Z.to_nat (_HPS_IRQ_findHandler id d) := mkIsrHandler id f p true]>
         (__isr_handlers d))
  ∨ (¬ has_record id d
     ∧ __isr_handler_count d' = __isr_handler_count d + 1
     ∧ __isr_handlers d' = __isr_handlers d ++ [mkIsrHandler id f p true]).
Proof.
  intros Hok Hinit Hfit Hs.
  destruct (registerHandler_fields id f p heap d Hinit Hs)
    as (_ & _ & _ & _ & [(Hne & Hc & Ht)|(He & Hc & fresh & -> & Ht)]).
  - left. split; [|done].
    destruct (decide (has_record id d)) as [|Habs]; [done|].
    by apply (findHandler_absent id d Hok) in Habs.
  - right. split; [by apply (findHandler_absent id d Hok)|].
    destruct Hok as [Hlen Hb]. unfold sizeof_IsrHandler_t, UINT_MODULUS in *.
    cbv zeta. rewrite Hc, Ht.
    rewrite (u32_small (__isr_handler_count d + 1)) by (unfold UINT_MODULUS; lia).
    rewrite u32_small by (unfold UINT_MODULUS; lia).
    rewrite Z.div_mul by lia. split; [done|].
    rewrite take_ge by lia.
    replace (Z.to_nat (__isr_handler_count d + 1) - length (__isr_handlers d))%nat
      with 1%nat by lia.
    replace (Z.to_nat (__isr_handler_count d))
      with (length (__isr_handlers d) + 0)%nat by lia.
    by rewrite insert_app_r.
Qed.

Lemma registerHandler_table_ok id f p heap d :
  table_ok d → __isInitialised d = true →
  (__isr_handler_count d + 1) * sizeof_IsrHandler_t < UINT_MODULUS →
  fst (HPS_IRQ_registerHandler id f p heap d) = ERR_SUCCESS →
  table_ok (snd (HPS_IRQ_registerHandler id f p heap d)).
Proof.
  intros Hok Hinit Hfit Hs.
  destruct (registerHandler_handlers id f p heap d Hok Hinit Hfit Hs)
    as [(_ & Hc & Ht)|(_ & Hc & Ht)]; destruct Hok as [Hlen Hb]; split;
    rewrite ?Hc, ?Ht, ?length_insert, ?length_app; simpl; lia.
Qed.

Lemma registerHandler_lookup_self id f p heap d :
  table_ok d → __isInitialised d = true →
  (__isr_handler_count d + 1) * sizeof_IsrHandler_t < UINT_MODULUS →
  fst (HPS_IRQ_registerHandler id f p heap d) = ERR_SUCCESS →
  isr_lookup id (snd (HPS_IRQ_registerHandler id f p heap d))
  = Some (mkIsrHandler id f p true).
Proof.
  intros Hok Hinit Hfit Hs.
  pose proof (registerHandler_table_ok id f p heap d Hok Hinit Hfit Hs) as Hok'.
  destruct (registerHandler_handlers id f p heap d Hok Hinit Hfit Hs)
    as [(Hhas & Hc & Ht)|(Habs & Hc & Ht)].
  - assert (_HPS_IRQ_findHandler id d ≠ __isr_handler_count d) as Hne.
    { intros He. by apply (findHandler_absent id d Hok) in He. }
    destruct (findHandler_found id d Hok Hne) as (r & Hr & Hid).
    apply (isr_lookup_first_intro id _ (Z.to_nat (_HPS_IRQ_findHandler id d)));
      [done| |done|].
    + rewrite Ht. apply list_lookup_insert_eq. by eapply lookup_lt_Some.
    + intros j r' Hj. rewrite Ht, list_lookup_insert_ne by lia. intros Hr'.
      unfold _HPS_IRQ_findHandler in Hj. rewrite Nat2Z.id in Hj.
      apply (scan_skipped (__isr_handlers d) id 0
               (Z.to_nat (__isr_handler_count d)) j r'); [lia|done].
  - apply (isr_lookup_first_intro id _ (length (__isr_handlers d))); [done| |done|].
    + rewrite Ht. by rewrite lookup_app_r, Nat.sub_diag.
    + intros j r' Hj. rewrite Ht, lookup_app_l by done. intros Hr' Hid.
      apply Habs. apply list_elem_of_fmap. exists r'. split; [done|].
      by eapply list_elem_of_lookup_2.
Qed.

Lemma registerHandler_lookup_other id id' f p heap d :
  table_ok d → __isInitialised d = true →
  (__isr_handler_count d + 1) * sizeof_IsrHandler_t < UINT_MODULUS →
  fst (HPS_IRQ_registerHandler id f p heap d) = ERR_SUCCESS →
  id' ≠ id →
  isr_lookup id' (snd (HPS_IRQ_registerHandler id f p heap d)) = isr_lookup id' d.
Proof.
  intros Hok Hinit Hfit Hs Hne.
  pose proof (registerHandler_table_ok id f p heap d Hok Hinit Hfit Hs) as Hok'.
  set (d' := snd (HPS_IRQ_registerHandler id f p heap d)) in *.
  assert (∀ j r', __isr_handlers d' !! j = Some r' → interruptID r' = id' →
                  __isr_handlers d !! j = Some r') as Hback.
  { intros j r' Hr' Hid'.
    destruct (registerHandler_handlers id f p heap d Hok Hinit Hfit Hs)
      as [(_ & _ & Ht)|(_ & _ & Ht)]; fold d' in Ht; rewrite Ht in Hr'.
    - destruct (decide (j = Z.to_nat (_HPS_IRQ_findHandler id d))) as [->|Hj].
      + apply list_lookup_insert_Some in Hr' as [(_ & <- & _)|[? _]]; [|done].
        by destruct Hne.
      + by rewrite list_lookup_insert_ne in Hr'.
    - apply lookup_app_Some in Hr' as [Hr'|[_ Hr']]; [done|].
      apply list_lookup_singleton_Some in Hr' as [_ <-]. by destruct Hne. }
  assert (∀ j r', __isr_handlers d !! j = Some r' → interruptID r' = id' →
                  __isr_handlers d' !! j = Some r') as Hforth.
  { intros j r' Hr' Hid'.
    destruct (registerHandler_handlers id f p heap d Hok Hinit Hfit Hs)
      as [(Hhas & _ & Ht)|(_ & _ & Ht)]; fold d' in Ht; rewrite Ht.
    - assert (_HPS_IRQ_findHandler id d ≠ __isr_handler_count d) as Hf.
      { intros He. by apply (findHandler_absent id d Hok) in He. }
      destruct (findHandler_found id d Hok Hf) as (r & Hr & Hid).
      rewrite list_lookup_insert_ne; [done|]. intros <-. congruence.
    - by apply lookup_app_l_Some. }
  destruct (isr_lookup id' d) as [r'|] eqn:Hl.
  - destruct (isr_lookup_first id' d r' Hl) as (Hid' & slot & Hr' & Hfirst).
    apply (isr_lookup_first_intro id' d' slot); [done|by apply Hforth|done|].
    intros j r'' Hj Hr'' Hid''. apply (Hfirst j r'' Hj); [|done]. by apply Hback.
  - apply (isr_lookup_None id' d' Hok'). apply (isr_lookup_None id' d Hok) in Hl.
    intros [r' [-> Hin]]%list_elem_of_fmap.
    apply list_elem_of_lookup in Hin as [j Hj].
    apply Hl, list_elem_of_fmap. exists r'. split; [done|].
    eapply list_elem_of_lookup_2. by apply Hback.
Qed.

(** X5: after a successful single registration on a consistent table (the
    grown size being representable), the dispatch lookup for the registered
    ID stops at a record holding exactly the ID, callback and parameter just
    given, marked enabled; the dispatch lookup for every other ID answers
    what it answered before the call. *)
Theorem registerHandler_lookup id f p heap d :
  table_ok d → __isInitialised d = true →
  (__isr_handler_count d + 1) * sizeof_IsrHandler_t < UINT_MODULUS →
  fst (HPS_IRQ_registerHandler id f p heap d) = ERR_SUCCESS →
  let d' := snd (HPS_IRQ_registerHandler id f p heap d) in
  isr_lookup id d' = Some (mkIsrHandler id f p true)
  ∧ ∀ id', id' ≠ id → isr_lookup id' d' = isr_lookup id' d.
Proof.
  intros Hok Hinit Hfit Hs. split.
  - by apply registerHandler_lookup_self.
  - intros id' Hne. by apply registerHandler_lookup_other.
Qed.

Lemma registerHandler_lookup_witness :
  let d := snd (HPS_IRQ_registerHandler 5 (FUser 1) 7
                  (ReallocOk (λ _, mkIsrHandler 0 FNull 0 false))
                  (snd (HPS_IRQ_initialise FNull (power_on false)))) in
  let d' := snd (HPS_IRQ_registerHandler 9 (FUser 2) 8
                   (ReallocOk (λ _, mkIsrHandler 0 FNull 0 false)) d) in
  isr_lookup 9 d' = Some (mkIsrHandler 9 (FUser 2) 8 true)
  ∧ isr_lookup 5 d' = isr_lookup 5 d.
Proof.
  intros d d'.
  destruct (registerHandler_lookup 9 (FUser 2) 8
              (ReallocOk (λ _, mkIsrHandler 0 FNull 0 false)) d) as [Hself Hother].
  - split; vm_compute; reflexivity.
  - reflexivity.
  - vm_compute. reflexivity.
  - reflexivity.
  - split; [exact Hself|]. apply Hother. lia.
Defined.

(** X6: registering an interrupt ID that some record already carries,
    enabled or disabled, succeeds whatever the allocator would answer, keeps
    the count and the number of records, and rewrites only the slot the
    lookup finds for the ID. *)
Theorem registerHandler_existing_record id f p heap d :
  table_ok d → __isInitialised d = true → has_record id d →
  let res := HPS_IRQ_registerHandler id f p heap d in
  fst res = ERR_SUCCESS
  ∧ __isr_handler_count (snd res) = __isr_handler_count d
  ∧ __isr_handlers (snd res)
    = <[Z.to_nat (_HPS_IRQ_findHandler id d) := mkIsrHandler id f p true]>
        (__isr_handlers d)
  ∧ (∀ i, i ≠ Z.to_nat (_HPS_IRQ_findHandler id d) →
          __isr_handlers (snd res) !! i = __isr_handlers d !! i).
Proof.
  intros Hok Hinit Hhas.
  assert (_HPS_IRQ_findHandler id d ≠ __isr_handler_count d) as Hne.
  { intros He. by apply (findHandler_absent id d Hok) in He. }
  assert (fst (HPS_IRQ_registerHandler id f p heap d) = ERR_SUCCESS) as Hs.
  { unfold HPS_IRQ_registerHandler, HPS_IRQ_isInitialised. rewrite Hinit. simpl.
    apply Z.eqb_neq in Hne. by rewrite Hne. }
  destruct (registerHandler_fields id f p heap d Hinit Hs)
    as (_ & _ & _ & _ & [(_ & Hc & Ht)|(He & _)]); [|done].
  cbv zeta. rewrite Hc, Ht. repeat split; [done|].
  intros i Hi. by rewrite list_lookup_insert_ne.
Qed.

Lemma registerHandler_existing_record_witness :
  let d := snd (HPS_IRQ_unregisterHandler 5
             (snd (HPS_IRQ_registerHandler 5 (FUser 1) 7
                     (ReallocOk (λ _, mkIsrHandler 0 FNull 0 false))
                     (snd (HPS_IRQ_initialise FNull (power_on false)))))) in
  let res := HPS_IRQ_registerHandler 5 (FUser 2) 8 ReallocFail d in
  fst res = ERR_SUCCESS ∧ __isr_handler_count (snd res) = __isr_handler_count d.
Proof.
  intros d res.
  destruct (registerHandler_existing_record 5 (FUser 2) 8 ReallocFail d)
    as (Hs & Hc & _).
  - split; vm_compute; reflexivity.
  - reflexivity.
  - unfold has_record. vm_compute. left.
  - split; [exact Hs|exact Hc].
Defined.

(** ** Programming the distributor *)

Lemma one_bit_u32 id :
  0 ≤ id → u32 (Z.shiftl 1 (id mod 32)) = 2 ^ (id mod 32).
Proof.
  intros Hid. rewrite Z.shiftl_1_l.
  assert (0 ≤ id mod 32 < 32) as Hm by (apply Z.mod_pos_bound; lia).
  apply u32_small. split; [apply Z.pow_nonneg; lia|].
  unfold UINT_MODULUS. apply Z.pow_lt_mono_r; lia.
Qed.

(** X7: a successful single registration of a non-negative interrupt ID
    makes exactly two stores to the distributor, in this order: the word of
    the set-enable bank that holds the ID's bit (word ID div 32) receives the
    single bit ID mod 32, and the ID's own byte of the processor-targets bank
    (byte 0x800 + ID) receives 1, the mask of CPU 0. *)
Theorem registerHandler_distributor_stores id f p heap d :
  __isInitialised d = true → 0 ≤ id →
  fst (HPS_IRQ_registerHandler id f p heap d) = ERR_SUCCESS →
  effects (snd (HPS_IRQ_registerHandler id f p heap d))
  = effects d ++ [DistStore (0x100 / 4 + id / 32) (2 ^ (id mod 32));
                  DistStoreByte (0x800 + id) 1].
Proof.
  intros Hinit Hid Hs.
  destruct (registerHandler_fields id f p heap d Hinit Hs) as (_ & _ & _ & -> & _).
  rewrite !Z.quot_div_nonneg, !Z.rem_mod_nonneg by lia.
  rewrite one_bit_u32 by done. do 3 f_equal.
  f_equal. unfold ICDIPTR. change (2048 / 4) with 512.
  Z.div_mod_to_equations. lia.
Qed.

Lemma registerHandler_distributor_stores_witness :
  let d := snd (HPS_IRQ_initialise FNull (power_on false)) in
  effects (snd (HPS_IRQ_registerHandler 72 (FUser 1) 0
                  (ReallocOk (λ _, mkIsrHandler 0 FNull 0 false)) d))
  = effects d ++ [DistStore (0x100 / 4 + 72 / 32) (2 ^ (72 mod 32));
                  DistStoreByte (0x800 + 72) 1].
Proof.
  intros d.
  apply (registerHandler_distributor_stores 72 (FUser 1) 0 _ d);
    [reflexivity|lia|reflexivity].
Defined.

(** X8: a successful single unregistration of a non-negative interrupt ID
    makes exactly one store to the distributor: the word of the clear-enable
    bank that holds the ID's bit (word ID div 32) receives the single bit
    ID mod 32, the same word index and bit that registration uses in the
    set-enable bank. *)
Theorem unregisterHandler_distributor_store id d :
  0 ≤ id →
  fst (HPS_IRQ_unregisterHandler id d) = ERR_SUCCESS →
  effects (snd (HPS_IRQ_unregisterHandler id d))
  = effects d ++ [DistStore (0x180 / 4 + id / 32) (2 ^ (id mod 32))].
Proof.
  intros Hid Hs. destruct (unregisterHandler_success_inv id d Hs) as (_ & _ & ->).
  unfold _HPS_IRQ_doUnregister, __disable_irq. cbv iota beta.
  assert (Z.land id 31 = id mod 32) as Hland.
  { change 31 with (Z.ones 5). by rewrite Z.land_ones by lia. }
  rewrite Hland, Z.quot_div_nonneg, one_bit_u32 by lia.
  by destruct (negb (irq_masked d)).
Qed.

Lemma unregisterHandler_distributor_store_witness :
  let d := snd (HPS_IRQ_registerHandler 72 (FUser 1) 0
                  (ReallocOk (λ _, mkIsrHandler 0 FNull 0 false))
                  (snd (HPS_IRQ_initialise FNull (power_on false)))) in
  effects (snd (HPS_IRQ_unregisterHandler 72 d))
  = effects d ++ [DistStore (0x180 / 4 + 72 / 32) (2 ^ (72 mod 32))].
Proof.
  intros d. apply (unregisterHandler_distributor_store 72 d); [lia|reflexivity].
Defined.

(** ** IRQ dispatch to a record and to the fallback *)

Lemma irq_isr_unfold user iccIAR d :
  __isInitialised d = true →
  __irq_isr user iccIAR d
  = let d1 := emit (CpuIfLoad ICCIAR (u32 iccIAR)) d in
    match isr_lookup (s32 iccIAR) d with
    | Some r =>
        let d2 := emit (Call (handler r) (s32 iccIAR) (param r) true) d1 in
        match invoke user (handler r) (s32 iccIAR) (param r) true with
        | None => (IsrNullCall, d2)
        | Some CbNoReturn => (IsrCalleeKeepsControl, d2)
        | Some (CbReturns isr_handled) => isr_finish user (s32 iccIAR) isr_handled d2
        end
    | None => isr_finish user (s32 iccIAR) false d1
    end.
Proof.
  intros Hinit. unfold __irq_isr. rewrite Hinit. simpl negb. cbv iota zeta.
  change (isr_lookup (s32 iccIAR) (emit (CpuIfLoad ICCIAR (u32 iccIAR)) d))
    with (isr_lookup (s32 iccIAR) d).
  by destruct (isr_lookup (s32 iccIAR) d) as [[rid callee arg en]|].
Qed.

Lemma irq_isr_to_record_handled user iccIAR d r :
  __isInitialised d = true →
  isr_lookup (s32 iccIAR) d = Some r →
  invoke user (handler r) (s32 iccIAR) (param r) true = Some (CbReturns true) →
  fst (__irq_isr user iccIAR d) = IsrReturned
  ∧ isr_effects user iccIAR d
    = [CpuIfLoad ICCIAR (u32 iccIAR);
       Call (handler r) (s32 iccIAR) (param r) true;
       CpuIfStore ICCEOIR (u32 iccIAR)].
Proof.
  intros Hinit Hl Hinv. unfold isr_effects. rewrite irq_isr_unfold by done.
  cbv zeta. rewrite Hl, Hinv. unfold isr_finish. simpl.
  rewrite u32_s32. split; [done|].
  rewrite <- !app_assoc. apply drop_app_length.
Qed.

(** X9: on an initialised driver, when the lookup for the acknowledged ID
    stops at a record whose callback returns with the handled flag set, the
    routine calls that callback once with (ID, the record's parameter, the
    address of the flag), does not call the unhandled-interrupt callback,
    signals end-of-interrupt and returns; when the callback returns with the
    flag still false and the unhandled-interrupt callback returns, the
    routine calls the record's callback, then the unhandled-interrupt
    callback with (ID, null, null), then signals end-of-interrupt. *)
Theorem irq_isr_record_dispatch user iccIAR d r :
  __isInitialised d = true →
  isr_lookup (s32 iccIAR) d = Some r →
  (invoke user (handler r) (s32 iccIAR) (param r) true = Some (CbReturns true) →
   fst (__irq_isr user iccIAR d) = IsrReturned
   ∧ isr_effects user iccIAR d
     = [CpuIfLoad ICCIAR (u32 iccIAR);
        Call (handler r) (s32 iccIAR) (param r) true;
        CpuIfStore ICCEOIR (u32 iccIAR)])
  ∧ (invoke user (handler r) (s32 iccIAR) (param r) true = Some (CbReturns false) →
     returns user (__isr_unhandledIRQCallback d) (s32 iccIAR) NULL false →
     fst (__irq_isr user iccIAR d) = IsrReturned
     ∧ isr_effects user iccIAR d
       = [CpuIfLoad ICCIAR (u32 iccIAR);
          Call (handler r) (s32 iccIAR) (param r) true;
          Call (__isr_unhandledIRQCallback d) (s32 iccIAR) NULL false;
          CpuIfStore ICCEOIR (u32 iccIAR)]).
Proof.
  intros Hinit Hl. split; [by apply irq_isr_to_record_handled|].
  intros Hinv [h Hfb]. unfold isr_effects. rewrite irq_isr_unfold by done.
  cbv zeta. rewrite Hl, Hinv. unfold isr_finish. simpl.
  rewrite Hfb. simpl. rewrite u32_s32. split; [done|].
  rewrite <- !app_assoc. apply drop_app_length.
Qed.

Lemma irq_isr_record_dispatch_witness :
  let user : Callbacks := λ addr _ _ _, CbReturns (addr =? 1) in
  let d := snd (HPS_IRQ_registerHandler 5 (FUser 1) 7
                  (ReallocOk (λ _, mkIsrHandler 0 FNull 0 false))
                  (snd (HPS_IRQ_initialise (FUser 2) (power_on false)))) in
  isr_effects user 5 d
  = [CpuIfLoad ICCIAR 5; Call (FUser 1) 5 7 true; CpuIfStore ICCEOIR 5].
Proof.
  intros user d.
  destruct (irq_isr_record_dispatch user 5 d (mkIsrHandler 5 (FUser 1) 7 true))
    as [Hhandled _]; [reflexivity..|].
  apply (Hhandled eq_refl).
Defined.

(** X10: on an initialised driver with a consistent table, when no record
    carries the acknowledged ID the routine calls no record's callback: it
    calls the unhandled-interrupt callback once with (ID, null, null) and, if
    that returns, signals end-of-interrupt and returns; if that callback is
    the built-in one, control never comes back and no end-of-interrupt is
    signalled. *)
Theorem irq_isr_no_record user iccIAR d :
  __isInitialised d = true → table_ok d →
  ¬ has_record (s32 iccIAR) d →
  (returns user (__isr_unhandledIRQCallback d) (s32 iccIAR) NULL false →
   fst (__irq_isr user iccIAR d) = IsrReturned
   ∧ isr_effects user iccIAR d
     = [CpuIfLoad ICCIAR (u32 iccIAR);
        Call (__isr_unhandledIRQCallback d) (s32 iccIAR) NULL false;
        CpuIfStore ICCEOIR (u32 iccIAR)])
  ∧ (__isr_unhandledIRQCallback d = FDefaultUnhandled →
     fst (__irq_isr user iccIAR d) = IsrCalleeKeepsControl
     ∧ isr_effects user iccIAR d
       = [CpuIfLoad ICCIAR (u32 iccIAR);
          Call FDefaultUnhandled (s32 iccIAR) NULL false]).
Proof.
  intros Hinit Hok Habs. apply (isr_lookup_None _ d Hok) in Habs.
  split.
  - intros [h Hfb]. unfold isr_effects. rewrite irq_isr_unfold by done.
    cbv zeta. rewrite Habs. unfold isr_finish. simpl. rewrite Hfb. simpl.
    rewrite u32_s32. split; [done|].
    rewrite <- !app_assoc. apply drop_app_length.
  - intros Hdef. unfold isr_effects. rewrite irq_isr_unfold by done.
    cbv zeta. rewrite Habs. unfold isr_finish. simpl. rewrite Hdef. simpl.
    split; [done|]. rewrite <- !app_assoc. apply drop_app_length.
Qed.

Lemma irq_isr_no_record_witness :
  let user : Callbacks := λ _ _ _ _, CbReturns false in
  let d := snd (HPS_IRQ_registerHandler 5 (FUser 1) 7
                  (ReallocOk (λ _, mkIsrHandler 0 FNull 0 false))
                  (snd (HPS_IRQ_initialise (FUser 2) (power_on false)))) in
  isr_effects user 6 d
  = [CpuIfLoad ICCIAR 6; Call (FUser 2) 6 NULL false; CpuIfStore ICCEOIR 6].
Proof.
  intros user d.
  destruct (irq_isr_no_record user 6 d) as [Hret _].
  - reflexivity.
  - split; vm_compute; reflexivity.
  - unfold has_record. vm_compute. intros H. apply list_elem_of_In in H.
    simpl in H. destruct H as [H|[]]. discriminate H.
  - apply Hret. exists false. reflexivity.
Defined.

(** X11: after a successful single registration of (ID, callback, parameter)
    on a consistent table, an IRQ whose acknowledge register reads that ID
    makes the routine call exactly that callback with exactly that parameter;
    if the callback reports the interrupt handled, nothing else is called and
    end-of-interrupt is signalled with the ID. *)
Theorem registerHandler_then_irq user iccIAR id f p heap d :
  table_ok d → __isInitialised d = true →
  (__isr_handler_count d + 1) * sizeof_IsrHandler_t < UINT_MODULUS →
  fst (HPS_IRQ_registerHandler id f p heap d) = ERR_SUCCESS →
  s32 iccIAR = id →
  invoke user f id p true = Some (CbReturns true) →
  let d' := snd (HPS_IRQ_registerHandler id f p heap d) in
  fst (__irq_isr user iccIAR d') = IsrReturned
  ∧ isr_effects user iccIAR d'
    = [CpuIfLoad ICCIAR (u32 iccIAR); Call f id p true;
       CpuIfStore ICCEOIR (u32 iccIAR)].
Proof.
  intros Hok Hinit Hfit Hs Hid Hinv d'.
  pose proof (registerHandler_lookup_self id f p heap d Hok Hinit Hfit Hs) as Hl.
  fold d' in Hl. rewrite <- Hid in Hl.
  destruct (registerHandler_fields id f p heap d Hinit Hs) as (Hinit' & _).
  pose proof (irq_isr_to_record_handled user iccIAR d' _ Hinit' Hl) as Hhandled.
  simpl in Hhandled. rewrite Hid in Hhandled. by apply Hhandled.
Qed.

Lemma registerHandler_then_irq_witness :
  let user : Callbacks := λ _ _ _ _, CbReturns true in
  let d := snd (HPS_IRQ_initialise FNull (power_on false)) in
  let d' := snd (HPS_IRQ_registerHandler 72 (FUser 1) 7
                   (ReallocOk (λ _, mkIsrHandler 0 FNull 0 false)) d) in
  isr_effects user 72 d'
  = [CpuIfLoad ICCIAR 72; Call (FUser 1) 72 7 true; CpuIfStore ICCEOIR 72].
Proof.
  intros user d d'.
  apply (registerHandler_then_irq user 72 72 (FUser 1) 7 _ d).
  - split; vm_compute; reflexivity.
  - reflexivity.
  - vm_compute. reflexivity.
  - reflexivity.
  - reflexivity.
  - reflexivity.
Defined.

(** ** The table across arbitrary call sequences *)

Lemma run_call_extends d c :
  table_ok d → __isInitialised d = true → sized_batch c →
  (__isr_handler_count d + Z.of_nat (call_demand c)) * sizeof_IsrHandler_t
    < UINT_MODULUS →
  __isInitialised (run_call d c) = true
  ∧ ∃ new : list HPSIRQSource,
      interruptID <$> __isr_handlers (run_call d c)
      = (interruptID <$> __isr_handlers d) ++ new
      ∧ __isr_handler_count (run_call d c)
        = __isr_handler_count d + Z.of_nat (length new)
      ∧ (length new ≤ call_demand c)%nat.
Proof.
  intros Hok Hinit Hsized Hfit.
  assert (∀ d', __isInitialised d' = true →
                __isr_handler_count d' = __isr_handler_count d →
                interruptID <$> __isr_handlers d' = interruptID <$> __isr_handlers d →
                __isInitialised d' = true
                ∧ ∃ new : list HPSIRQSource,
                    interruptID <$> __isr_handlers d'
                    = (interruptID <$> __isr_handlers d) ++ new
                    ∧ __isr_handler_count d'
                      = __isr_handler_count d + Z.of_nat (length new)
                    ∧ (length new ≤ call_demand c)%nat) as Hsame.
  { intros d' Hi Hc Hids. split; [done|]. exists [].
    rewrite app_nil_r. simpl. repeat split; [done|lia|lia]. }
  destruct c as [id f p heap|ids fns ps count heap|id|ids count]; simpl in *.
  - destruct (registerHandler_table id f p heap d Hok Hinit Hfit)
      as (Hi' & [(Hc' & Hids')|(Habs & Hc' & Hids')]).
    + by apply Hsame.
    + split; [done|]. exists [id]. simpl. repeat split; [done|lia|lia].
  - destruct ids as [ids|];
      [|unfold HPS_IRQ_registerHandlers, HPS_IRQ_isInitialised;
        rewrite Hinit; simpl; by apply Hsame].
    destruct fns as [fns|];
      [|unfold HPS_IRQ_registerHandlers, HPS_IRQ_isInitialised;
        rewrite Hinit; simpl; by apply Hsame].
    subst count.
    pose proof (absent_count_le d ids) as Hle.
    assert (__isr_handler_count d + Z.of_nat (length ids) < UINT_MODULUS) as Hfit'
      by (destruct Hok; unfold sizeof_IsrHandler_t in Hfit; lia).
    assert (∀ fresh,
              let d' := snd (HPS_IRQ_registerHandlers (Some ids) (Some fns) ps
                               (length ids) (ReallocOk fresh) d) in
              __isInitialised d' = true
              ∧ ∃ new : list HPSIRQSource,
                  interruptID <$> __isr_handlers d'
                  = (interruptID <$> __isr_handlers d) ++ new
                  ∧ __isr_handler_count d'
                    = __isr_handler_count d + Z.of_nat (length new)
                  ∧ (length new ≤ length ids)%nat) as Hgood.
    { intros fresh.
      destruct (registerHandlers_table d ids fns ps fresh Hok Hinit Hfit)
        as (_ & Hc' & Hids' & Hi' & _).
      split; [done|]. by exists (filter (absent d) ids). }
    destruct heap as [|fresh]; [|apply Hgood].
    destruct (decide (length (filter (absent d) ids) = 0%nat)) as [Hnone|Hsome].
    + rewrite (registerHandlers_no_growth d ids fns ps ReallocFail
                 (ReallocOk (λ _, mkIsrHandler 0 FNull 0 false)))
        by done.
      apply Hgood.
    + rewrite registerHandlers_allocfail by done. by apply Hsame.
  - unfold HPS_IRQ_unregisterHandler, HPS_IRQ_isInitialised. rewrite Hinit. simpl.
    destruct (negb _); simpl; [|by apply Hsame].
    apply Hsame;
      [by rewrite doUnregister_initialised|apply doUnregister_count
      |apply doUnregister_ids].
  - unfold HPS_IRQ_unregisterHandlers, HPS_IRQ_isInitialised. rewrite Hinit. simpl.
    destruct ids as [ids|]; simpl; [|by apply Hsame].
    destruct (unregister_steps_same ids (seq 0 count) ERR_SUCCESS d) as (Hc & Hids & Hi).
    apply Hsame; [by rewrite Hi|done..].
Qed.

Lemma table_ok_extended d d' (new : list HPSIRQSource) :
  table_ok d →
  interruptID <$> __isr_handlers d' = (interruptID <$> __isr_handlers d) ++ new →
  __isr_handler_count d' = __isr_handler_count d + Z.of_nat (length new) →
  (__isr_handler_count d + Z.of_nat (length new)) * sizeof_IsrHandler_t
    < UINT_MODULUS →
  table_ok d'.
Proof.
  intros [Hlen Hb] Hids Hc Hfit. split; [|by rewrite Hc].
  rewrite Hc, Hlen, <- Nat2Z.inj_add. f_equal.
  rewrite <- (length_fmap interruptID (__isr_handlers d')), Hids.
  by rewrite length_app, length_fmap.
Qed.

(** X12: starting from any consistent initialised driver state, after any
    sequence of register and unregister calls (single and batch, repeated IDs
    and failing allocations included) whose total demand for slots stays
    representable, the table is still consistent, the count has not
    decreased and has grown by no more than the slots asked for, and every
    slot that carried an interrupt ID before still carries the same ID: the
    table never shrinks and no slot is given to another interrupt. *)
Theorem run_calls_table_only_grows cs d :
  table_ok d → __isInitialised d = true → Forall sized_batch cs →
  (__isr_handler_count d + Z.of_nat (calls_demand cs)) * sizeof_IsrHandler_t
    < UINT_MODULUS →
  let d' := run_calls cs d in
  table_ok d' ∧ __isInitialised d' = true
  ∧ __isr_handler_count d ≤ __isr_handler_count d'
    ≤ __isr_handler_count d + Z.of_nat (calls_demand cs)
  ∧ (interruptID <$> __isr_handlers d) `prefix_of` (interruptID <$> __isr_handlers d').
Proof.
  revert d. induction cs as [|c cs IH]; intros d Hok Hinit Hall Hfit.
  { simpl. split; [done|]. split; [done|]. split; [|reflexivity].
    unfold calls_demand. simpl. lia. }
  inversion Hall as [|c' cs' Hc Hcs]; subst c' cs'.
  rewrite calls_demand_cons in Hfit |- *.
  unfold sizeof_IsrHandler_t in *.
  destruct (run_call_extends d c Hok Hinit Hc) as (Hinit1 & new & Hids & Hcount & Hlen).
  { unfold sizeof_IsrHandler_t. lia. }
  assert (table_ok (run_call d c)) as Hok1.
  { eapply table_ok_extended; [exact Hok|exact Hids|exact Hcount|].
    unfold sizeof_IsrHandler_t. lia. }
  destruct (IH (run_call d c) Hok1 Hinit1 Hcs) as (Hok' & Hinit' & Hbound & Hpre).
  { lia. }
  cbv zeta. simpl. repeat split; [apply Hok'..|done|lia|lia|].
  etrans; [|exact Hpre]. rewrite Hids. by apply prefix_app_r.
Qed.

Lemma run_calls_table_only_grows_witness :
  let fresh : nat → IsrHandler_t := λ _, mkIsrHandler 0 FNull 0 false in
  let cs := [RegisterHandlers (Some [3; 3; 9]) (Some [FUser 1; FUser 2; FUser 3])
                              None 3 (ReallocOk fresh);
             UnregisterHandler 3;
             RegisterHandler 4 (FUser 4) 0 ReallocFail;
             RegisterHandler 3 (FUser 5) 0 ReallocFail] in
  let d := snd (HPS_IRQ_initialise FNull (power_on false)) in
  table_ok (run_calls cs d)
  ∧ __isr_handler_count d ≤ __isr_handler_count (run_calls cs d).
Proof.
  intros fresh cs d.
  destruct (run_calls_table_only_grows cs d) as (Hok & _ & [Hle _] & _).
  - split; vm_compute; reflexivity.
  - reflexivity.
  - repeat apply List.Forall_cons; try apply List.Forall_nil; simpl; done.
  - vm_compute. reflexivity.
  - split; [exact Hok|exact Hle].
Defined.

(** ** Batch unregistration *)

Lemma foldl_seq_array {A B} (f : B → A → B) (zero : A) (pre l : list A) (b : B) :
  foldl (λ b idx, f b (array_get zero (pre ++ l) idx)) b (seq (length pre) (length l))
  = foldl f b l.
Proof.
  revert pre b. induction l as [|x l IH]; intros pre b; [done|].
  simpl. rewrite (array_get_lookup zero (pre ++ x :: l) (length pre) x)
    by (by rewrite lookup_app_r, Nat.sub_diag).
  specialize (IH (pre ++ [x]) (f b x)).
  rewrite <- app_assoc, length_app in IH. simpl in IH.
  by rewrite Nat.add_1_r in IH.
Qed.

Lemma unregisterHandlers_as_fold (ids : list HPSIRQSource) d :
  __isInitialised d = true →
  HPS_IRQ_unregisterHandlers (Some ids) (length ids) d
  = foldl unregister_one (ERR_SUCCESS, d) ids.
Proof.
  intros Hinit. unfold HPS_IRQ_unregisterHandlers, HPS_IRQ_isInitialised.
  rewrite Hinit. simpl.
  rewrite <- (foldl_seq_array unregister_one 0 [] ids (ERR_SUCCESS, d)).
  simpl. generalize (ERR_SUCCESS, d). generalize (seq 0 (length ids)).
  intros idxs. induction idxs as [|idx idxs IH]; intros acc; [done|].
  simpl. rewrite IH. by destruct acc.
Qed.

Lemma clear_record_idemp r : clear_record (clear_record r) = clear_record r.
Proof. reflexivity. Qed.

Lemma findHandler_ids id d d' :
  __isr_handler_count d' = __isr_handler_count d →
  interruptID <$> __isr_handlers d' = interruptID <$> __isr_handlers d →
  _HPS_IRQ_findHandler id d' = _HPS_IRQ_findHandler id d.
Proof.
  intros Hc Hids. unfold _HPS_IRQ_findHandler. rewrite Hc. f_equal.
  by apply scan_ids.
Qed.

(** The state after the loop has gone through [ids], slot by slot. *)
Lemma unregister_fold (ids : list HPSIRQSource) d :
  table_ok d →
  let res := foldl unregister_one (ERR_SUCCESS, d) ids in
  (fst res = if decide (Forall (λ id, has_record id d) ids)
             then ERR_SUCCESS else ERR_NOTFOUND)
  ∧ __isr_handler_count (snd res) = __isr_handler_count d
  ∧ interruptID <$> __isr_handlers (snd res) = interruptID <$> __isr_handlers d
  ∧ __isInitialised (snd res) = __isInitialised d
  ∧ __isr_unhandledIRQCallback (snd res) = __isr_unhandledIRQCallback d
  ∧ irq_masked (snd res) = irq_masked d
  ∧ ∀ i, __isr_handlers (snd res) !! i
         = if decide (slot_of_listed d ids i)
           then clear_record <$> __isr_handlers d !! i
           else __isr_handlers d !! i.
Proof.
  intros Hok. induction ids as [|id ids IH] using rev_ind.
  { simpl. repeat split; done. }
  cbv zeta in *. rewrite foldl_app. simpl.
  destruct (foldl unregister_one (ERR_SUCCESS, d) ids) as [st dk] eqn:Hfold.
  simpl in IH. destruct IH as (Hst & Hc & Hids & Hi & Hf & Hm & Ht).
  pose proof (findHandler_ids id d dk Hc Hids) as Hfind.
  unfold unregister_one. rewrite Hfind, Hc.
  assert (∀ i, slot_of_listed d (ids ++ [id]) i
               ↔ slot_of_listed d ids i
                 ∨ (has_record id d ∧ i = Z.to_nat (_HPS_IRQ_findHandler id d)))
    as Hslot.
  { intros i. unfold slot_of_listed. rewrite Exists_app, Exists_cons, Exists_nil.
    tauto. }
  destruct (_HPS_IRQ_findHandler id d =? __isr_handler_count d) eqn:E; simpl.
  - apply Z.eqb_eq in E. apply (findHandler_absent id d Hok) in E as Habs.
    split.
    { rewrite decide_False; [done|]. rewrite Forall_app, Forall_singleton. tauto. }
    repeat split; try done.
    intros i. rewrite Ht. apply decide_ext. rewrite Hslot. tauto.
  - apply Z.eqb_neq in E.
    assert (has_record id d) as Hhas.
    { destruct (decide (has_record id d)) as [|Habs]; [done|].
      by apply (findHandler_absent id d Hok) in Habs. }
    split.
    { rewrite Hst. apply decide_ext.
      rewrite Forall_app, Forall_singleton. tauto. }
    rewrite doUnregister_count, doUnregister_ids, doUnregister_initialised,
      doUnregister_irq_masked, doUnregister_handlers.
    repeat split; try done.
    { unfold _HPS_IRQ_doUnregister. simpl. by destruct (irq_masked dk). }
    intros i.
    destruct (decide (i = Z.to_nat (_HPS_IRQ_findHandler id d))) as [->|Hne].
    + rewrite list_lookup_alter_eq, Ht.
      rewrite (decide_True (P := slot_of_listed d (ids ++ [id]) _))
        by (apply Hslot; tauto).
      destruct (decide (slot_of_listed d ids _)); [|done].
      by destruct (__isr_handlers d !! _).
    + rewrite list_lookup_alter_ne, Ht by done.
      apply decide_ext. rewrite Hslot. tauto.
Qed.

(** X13: a batch unregistration on an initialised driver with a consistent
    table answers success when every listed ID has a record and "not found"
    when some listed ID has none, and in both cases goes through the whole
    list: the record in the slot found for each listed ID that has one ends
    with a null callback and disabled, its ID and parameter kept; every other
    slot, the count, the interrupt mask and the unhandled-interrupt callback
    are as before the call. *)
Theorem unregisterHandlers_effect (ids : list HPSIRQSource) d :
  table_ok d → __isInitialised d = true →
  let res := HPS_IRQ_unregisterHandlers (Some ids) (length ids) d in
  (Forall (λ id, has_record id d) ids → fst res = ERR_SUCCESS)
  ∧ (¬ Forall (λ id, has_record id d) ids → fst res = ERR_NOTFOUND)
  ∧ (∀ id r, id ∈ ids →
       __isr_handlers d !! Z.to_nat (_HPS_IRQ_findHandler id d) = Some r →
       __isr_handlers (snd res) !! Z.to_nat (_HPS_IRQ_findHandler id d)
       = Some (mkIsrHandler (interruptID r) FNull (param r) false))
  ∧ (∀ i, ¬ slot_of_listed d ids i →
          __isr_handlers (snd res) !! i = __isr_handlers d !! i)
  ∧ __isr_handler_count (snd res) = __isr_handler_count d
  ∧ irq_masked (snd res) = irq_masked d
  ∧ __isr_unhandledIRQCallback (snd res) = __isr_unhandledIRQCallback d.
Proof.
  intros Hok Hinit. cbv zeta. rewrite unregisterHandlers_as_fold by done.
  destruct (unregister_fold ids d Hok) as (Hst & Hc & _ & _ & Hf & Hm & Ht).
  split; [intros Hall; by rewrite Hst, decide_True|].
  split; [intros Hnot; by rewrite Hst, decide_False|].
  split; [|split; [|done]].
  - intros id r Hin Hr. rewrite Ht, Hr.
    rewrite decide_True; [done|].
    apply Exists_exists. exists id. split; [by apply list_elem_of_In|].
    split; [|done].
    destruct (decide (has_record id d)) as [|Habs]; [done|].
    apply (findHandler_absent id d Hok) in Habs.
    apply lookup_lt_Some in Hr. destruct Hok as [Hlen _]. lia.
  - intros i Hno. by rewrite Ht, decide_False.
Qed.

Lemma unregisterHandlers_effect_witness :
  let d := snd (HPS_IRQ_registerHandlers (Some [3; 9; 4])
                  (Some [FUser 1; FUser 2; FUser 3]) None 3
                  (ReallocOk (λ _, mkIsrHandler 0 FNull 0 false))
                  (snd (HPS_IRQ_initialise FNull (power_on false)))) in
  let res := HPS_IRQ_unregisterHandlers (Some [9; 7; 3]) 3 d in
  fst res = ERR_NOTFOUND
  ∧ __isr_handlers (snd res) !! 1%nat = Some (mkIsrHandler 9 FNull 0 false).
Proof.
  intros d res.
  destruct (unregisterHandlers_effect [9; 7; 3] d) as (_ & Hnf & Hcl & _).
  - split; vm_compute; reflexivity.
  - reflexivity.
  - split.
    + apply Hnf. intros Hall. inversion Hall as [|x1 l1 _ Hall']; subst x1 l1.
      inversion Hall' as [|x2 l2 H7 _]; subst x2 l2. unfold has_record in H7.
      vm_compute in H7. apply list_elem_of_In in H7. simpl in H7.
      destruct H7 as [H|[H|[H|[]]]]; discriminate H.
    + apply (Hcl 9 (mkIsrHandler 9 (FUser 2) 0 true)); [|reflexivity].
      apply list_elem_of_here.
Defined.

(** ** Batch registration when the allocator refuses *)

(** X14: a batch registration that needs at least one new slot, on an
    initialised driver with a consistent table, when the allocator refuses to
    grow the table, registers nothing at all: it answers "allocation
    failure", and the count, every record (also those of listed IDs that
    already had a slot) and the log of distributor stores are as before the
    call; only the interrupt mask is left set.  When every listed ID already
    has a record the same call succeeds, since the allocator is not asked. *)
Theorem registerHandlers_allocfail_registers_nothing
    (ids : list HPSIRQSource) fns ps d :
  table_ok d → __isInitialised d = true →
  __isr_handler_count d + Z.of_nat (length ids) < UINT_MODULUS →
  let res := HPS_IRQ_registerHandlers (Some ids) (Some fns) ps (length ids)
                                      ReallocFail d in
  (Exists (λ id, ¬ has_record id d) ids → res = (ERR_ALLOCFAIL, set_masked true d))
  ∧ (Forall (λ id, has_record id d) ids → fst res = ERR_SUCCESS).
Proof.
  intros Hok Hinit Hfit. split.
  - intros Hex. apply registerHandlers_allocfail; [done..|].
    rewrite filter_absent_has_record by done.
    apply Exists_exists in Hex as (id & Hin & Habs).
    intros Hlen. apply nil_length_inv in Hlen.
    assert (id ∈ filter (λ id, ¬ has_record id d) ids) as Hmem.
    { apply list_elem_of_filter. split; [done|]. by apply list_elem_of_In. }
    rewrite Hlen in Hmem. by apply not_elem_of_nil in Hmem.
  - intros Hall.
    assert (length (filter (absent d) ids) = 0%nat) as Hnone.
    { rewrite filter_absent_has_record by done.
      destruct (filter _ ids) as [|id rest] eqn:E; [done|].
      assert (id ∈ filter (λ id, ¬ has_record id d) ids)
        as [Habs Hin]%list_elem_of_filter by (rewrite E; left).
      rewrite Forall_forall in Hall. destruct Habs. apply Hall.
      by apply list_elem_of_In. }
    cbv zeta.
    rewrite (registerHandlers_no_growth d ids fns ps ReallocFail
               (ReallocOk (λ _, mkIsrHandler 0 FNull 0 false))) by done.
    assert ((__isr_handler_count d + Z.of_nat (length (filter (absent d) ids)))
            * sizeof_IsrHandler_t < UINT_MODULUS) as Hfit'.
    { rewrite Hnone. destruct Hok as [_ Hb]. simpl. by rewrite Z.add_0_r. }
    unfold HPS_IRQ_registerHandlers, HPS_IRQ_isInitialised. rewrite Hinit.
    simpl negb. cbv iota.
    destruct (slot_steps d ids (length ids) Hok ltac:(lia) Hfit)
      as (hs & Hfold & _).
    rewrite firstn_all, Hnone in Hfold. rewrite Hfold. reflexivity.
Qed.

Lemma registerHandlers_allocfail_registers_nothing_witness :
  let d := snd (HPS_IRQ_registerHandler 5 (FUser 1) 7
                  (ReallocOk (λ _, mkIsrHandler 0 FNull 0 false))
                  (snd (HPS_IRQ_initialise FNull (power_on false)))) in
  HPS_IRQ_registerHandlers (Some [5; 6]) (Some [FUser 2; FUser 3]) None 2 ReallocFail d
  = (ERR_ALLOCFAIL, set_masked true d).
Proof.
  intros d.
  apply (proj1 (registerHandlers_allocfail_registers_nothing
                  [5; 6] [FUser 2; FUser 3] None d
                  ltac:(split; vm_compute; reflexivity) eq_refl
                  ltac:(vm_compute; reflexivity))).
  apply Exists_cons_tl, Exists_cons_hd. unfold has_record. vm_compute.
  intros H. apply list_elem_of_In in H. simpl in H. destruct H as [H|[]].
  discriminate H.
Defined.

(** ** Batch registration: what each entry leaves in the table *)

Lemma foldl_insert_lookup {A} (slot : nat → nat) (val : nat → A) (T : list A) k :
  (∀ i j, (i < k)%nat → (j < k)%nat → slot i = slot j → i = j) →
  (∀ i, (i < k)%nat → (slot i < length T)%nat) →
  let T' := foldl (λ T idx, <[slot idx := val idx]> T) T (seq 0 k) in
  length T' = length T
  ∧ (∀ idx, (idx < k)%nat → T' !! slot idx = Some (val idx))
  ∧ (∀ i, (∀ idx, (idx < k)%nat → slot idx ≠ i) → T' !! i = T !! i).
Proof.
  induction k as [|k IH]; intros Hinj Hrange.
  { simpl. split; [done|]. split; [intros; lia|done]. }
  destruct IH as (Hlen & Hwritten & Hother).
  { intros i j Hi Hj. apply Hinj; lia. }
  { intros i Hi. apply Hrange. lia. }
  cbv zeta in *. rewrite seq_S, foldl_app. simpl.
  split; [by rewrite length_insert|]. split.
  - intros idx Hidx. destruct (decide (idx = k)) as [->|Hne].
    + apply list_lookup_insert_eq. rewrite Hlen. apply Hrange. lia.
    + rewrite list_lookup_insert_ne.
      * apply Hwritten. lia.
      * intros Heq. apply Hinj in Heq; lia.
  - intros i Hi. rewrite list_lookup_insert_ne by (apply Hi; lia).
    apply Hother. intros idx Hidx. apply Hi. lia.
Qed.

Lemma absent_count_mono d (ids : list HPSIRQSource) i j id :
  (i < j)%nat → ids !! i = Some id → absent d id →
  (length (filter (absent d) (take i ids))
   < length (filter (absent d) (take j ids)))%nat.
Proof.
  intros Hij Hid Habs.
  pose proof (absent_split d (take j ids) i id) as H.
  rewrite take_take, Nat.min_l in H by lia.
  apply H; [|done]. by rewrite lookup_take_lt.
Qed.

Lemma isr_lookup_nodup id d slot r :
  table_ok d → NoDup (interruptID <$> __isr_handlers d) →
  __isr_handlers d !! slot = Some r → interruptID r = id →
  isr_lookup id d = Some r.
Proof.
  intros Hok Hnd Hr Hid. apply (isr_lookup_first_intro id d slot r); [done..|].
  intros j r' Hj Hr' Hid'.
  assert (j = slot); [|lia].
  apply (NoDup_lookup (interruptID <$> __isr_handlers d) j slot id Hnd).
  - by rewrite list_lookup_fmap, Hr', <- Hid'.
  - by rewrite list_lookup_fmap, Hr, <- Hid.
Qed.

(** X15: after a successful batch registration of pairwise distinct IDs on
    a consistent table in which no ID has two records, the dispatch lookup
    for each listed ID stops at a record holding that entry's ID, callback
    and parameter (null when no parameter array is given), marked enabled;
    the dispatch lookup for every ID that is not listed answers what it
    answered before the call. *)
Theorem registerHandlers_lookup (ids : list HPSIRQSource) fns ps fresh d :
  registry_inv d → NoDup ids →
  (__isr_handler_count d + Z.of_nat (length ids)) * sizeof_IsrHandler_t
    < UINT_MODULUS →
  let d' := snd (HPS_IRQ_registerHandlers (Some ids) (Some fns) ps (length ids)
                                          (ReallocOk fresh) d) in
  (∀ idx id, ids !! idx = Some id →
     isr_lookup id d' = Some (batch_record ids fns ps idx))
  ∧ (∀ id', id' ∉ ids → isr_lookup id' d' = isr_lookup id' d).
Proof.
  intros Hinv Hnodup Hfit d'. pose proof Hinv as (Hok & Hinit & Hnd).
  destruct (run_call_inv d (RegisterHandlers (Some ids) (Some fns) ps (length ids)
                              (ReallocOk fresh)) Hinv)
    as [(Hok' & _ & Hnd') _]; [done|done|]. simpl in Hok', Hnd'. fold d' in Hok', Hnd'.
  destruct (registerHandlers_run d ids fns ps fresh Hok Hinit Hfit)
    as (hs & Hslots & _ & _ & Ht & _). fold d' in Ht.
  destruct (registerHandlers_table d ids fns ps fresh Hok Hinit Hfit)
    as (_ & _ & Hids' & _). fold d' in Hids'.
  set (T1 := __isr_handlers d
             ++ map fresh (seq (length (__isr_handlers d))
                               (length (filter (absent d) ids)))) in *.
  set (slot := λ idx, Z.to_nat (array_get 0 hs idx)).
  assert (length T1 = (length (__isr_handlers d)
                       + length (filter (absent d) ids))%nat) as HlenT1.
  { unfold T1. by rewrite length_app, length_map, length_seq. }
  pose proof Hok as [Hcount Hb].
  assert (∀ idx id, ids !! idx = Some id →
            (absent d id
             ∧ slot idx = (length (__isr_handlers d)
                           + length (filter (absent d) (take idx ids)))%nat)
            ∨ (¬ absent d id
               ∧ slot idx = Z.to_nat (_HPS_IRQ_findHandler id d)
               ∧ (slot idx < length (__isr_handlers d))%nat
               ∧ ∃ r, __isr_handlers d !! slot idx = Some r ∧ interruptID r = id))
    as Hslot.
  { intros idx id Hid. pose proof (lookup_lt_Some _ _ _ Hid) as Hlt.
    unfold slot. rewrite (array_get_lookup 0 hs idx _ (Hslots idx id Hlt Hid)).
    destruct (decide (absent d id)) as [Habs|Hpres].
    - left. split; [done|]. lia.
    - right. split; [done|]. split; [done|].
      destruct (findHandler_found id d Hok Hpres) as (r & Hr & Hrid).
      split; [by eapply lookup_lt_Some|]. by exists r. }
  destruct (foldl_insert_lookup slot (batch_record ids fns ps) T1 (length ids))
    as (_ & Hwritten & Hother).
  { intros i j Hi Hj Heq.
    destruct (lookup_lt_is_Some_2 ids i Hi) as [idi Hidi].
    destruct (lookup_lt_is_Some_2 ids j Hj) as [idj Hidj].
    destruct (Hslot i idi Hidi) as [(Hai & Hsi)|(Hpi & Hsi & Hli & ri & Hri & Hrid)],
             (Hslot j idj Hidj) as [(Haj & Hsj)|(Hpj & Hsj & Hlj & rj & Hrj & Hrjd)].
    - destruct (Nat.lt_trichotomy i j) as [Hlt|[->|Hlt]]; [|done|].
      + pose proof (absent_count_mono d ids i j idi Hlt Hidi Hai). lia.
      + pose proof (absent_count_mono d ids j i idj Hlt Hidj Haj). lia.
    - lia.
    - lia.
    - rewrite Heq, Hrj in Hri. injection Hri as <-.
      apply (NoDup_lookup ids i j idi Hnodup); [done|]. rewrite Hidj. congruence. }
  { intros i Hi. destruct (lookup_lt_is_Some_2 ids i Hi) as [id Hid].
    destruct (Hslot i id Hid) as [(Ha & Hs)|(_ & _ & Hl & _)]; [|lia].
    pose proof (absent_split d ids i id Hid Ha). lia. }
  assert (__isr_handlers d'
          = foldl (λ T idx, <[slot idx := batch_record ids fns ps idx]> T) T1
                  (seq 0 (length ids))) as Ht' by exact Ht.
  cbv zeta in Hwritten, Hother. rewrite <- Ht' in Hwritten, Hother.
  split.
  - intros idx id Hid. pose proof (lookup_lt_Some _ _ _ Hid) as Hlt.
    apply (isr_lookup_nodup id d' (slot idx)); [done|done|by apply Hwritten|].
    unfold batch_record. simpl. by apply array_get_lookup.
  - intros id' Hnotin.
    destruct (isr_lookup id' d) as [r'|] eqn:Hl.
    + destruct (isr_lookup_first id' d r' Hl) as (Hid' & s & Hr' & _).
      apply (isr_lookup_nodup id' d' s); [done|done| |done].
      rewrite Hother; [unfold T1; by apply lookup_app_l_Some|].
      intros idx Hidx Heq.
      destruct (lookup_lt_is_Some_2 ids idx Hidx) as [id Hid].
      pose proof (lookup_lt_Some _ _ _ Hr') as Hs.
      destruct (Hslot idx id Hid) as [(_ & Hsl)|(_ & _ & _ & r & Hr & Hrid)]; [lia|].
      rewrite Heq, Hr' in Hr. injection Hr as <-.
      apply Hnotin. rewrite <- Hid', Hrid. by eapply list_elem_of_lookup_2.
    + apply (isr_lookup_None id' d' Hok'). apply (isr_lookup_None id' d Hok) in Hl.
      unfold has_record. rewrite Hids'. intros [Hin|Hin]%elem_of_app; [done|].
      by apply list_elem_of_filter in Hin as [_ Hin].
Qed.

Lemma registerHandlers_lookup_witness :
  let fresh : nat → IsrHandler_t := λ _, mkIsrHandler 0 FNull 0 false in
  let d := snd (HPS_IRQ_registerHandler 5 (FUser 1) 7 (ReallocOk fresh)
                  (snd (HPS_IRQ_initialise FNull (power_on false)))) in
  let d' := snd (HPS_IRQ_registerHandlers (Some [9; 5]) (Some [FUser 2; FUser 3])
                   (Some [11; 12]) 2 (ReallocOk fresh) d) in
  isr_lookup 5 d' = Some (mkIsrHandler 5 (FUser 3) 12 true)
  ∧ isr_lookup 9 d' = Some (mkIsrHandler 9 (FUser 2) 11 true).
Proof.
  intros fresh d d'.
  destruct (registerHandlers_lookup [9; 5] [FUser 2; FUser 3] (Some [11; 12]) fresh d)
    as [Hlisted _].
  - split; [split; vm_compute; reflexivity|]. split; [reflexivity|].
    apply (bool_decide_unpack _). vm_compute. reflexivity.
  - apply (bool_decide_unpack _). vm_compute. reflexivity.
  - vm_compute. reflexivity.
  - split; [apply (Hlisted 1%nat 5 eq_refl)|apply (Hlisted 0%nat 9 eq_refl)].
Defined.

(** ** The software-interrupt routine: ID range, parameter block, return *)

Section svc_frame.
Import SVC.

Lemma decode_r0 tbit c :
  0 ≤ tbit →
  r0 (decode (Z.shiftl 1 tbit) c)
  = if Z.testbit (spsr c) tbit
    then Z.land (load16 (mem (STMFD_sp_r0_r3_r12_lr c)) (lr c - 2)) (Z.ones 8)
    else Z.land (load32 (mem (STMFD_sp_r0_r3_r12_lr c)) (lr c - 4)) (Z.ones 24).
Proof.
  intros Hbit. unfold decode.
  unfold MOV_r1_sp, TST_r12, MRS_r12_spsr, when, cond_NE, cond_EQ.
  cbn [r0 r12 spsr flag_Z set_r1 set_flag_Z set_r12].
  assert (spsr (STMFD_sp_r0_r3_r12_lr c) = spsr c) as -> by reflexivity.
  rewrite tst_mask_zero by done.
  destruct (Z.testbit (spsr c) tbit); cbn -[STMFD_sp_r0_r3_r12_lr load16 load32].
  - change 65280 with (Z.shiftl (Z.ones 8) 8).
    by rewrite ldiff_high_field; [|lia|lia|apply load16_range].
  - change 4278190080 with (Z.shiftl (Z.ones 8) 24).
    by rewrite ldiff_high_field; [|lia|lia|apply load32_range].
Qed.

Lemma decode_frame TMask c :
  sp (decode TMask c) = u32 (sp c - 24)
  ∧ r1 (decode TMask c) = u32 (sp c - 24)
  ∧ r12 (decode TMask c) = spsr c
  ∧ mem (decode TMask c) = mem (STMFD_sp_r0_r3_r12_lr c).
Proof.
  unfold decode, MOV_r1_sp, TST_r12, MRS_r12_spsr, when, cond_NE, cond_EQ.
  cbn [flag_Z set_flag_Z set_r12].
  destruct (Z.land _ TMask =? 0); cbn; done.
Qed.

(** X16: whatever the memory, the stack and the handler, the ID that
    [__svc_isr] hands to the handler is a 24-bit value, and an 8-bit value
    when the caller was in Thumb state. *)
Theorem svc_isr_id_range tbit handler c :
  0 ≤ tbit →
  0 ≤ svc_id (__svc_isr tbit handler c) < 2 ^ 24
  ∧ (Z.testbit (spsr c) tbit = true → svc_id (__svc_isr tbit handler c) < 2 ^ 8).
Proof.
  intros Hbit. unfold __svc_isr. cbn [svc_id]. rewrite decode_r0 by done.
  destruct (Z.testbit (spsr c) tbit).
  - rewrite Z.land_ones by lia.
    pose proof (Z.mod_pos_bound
                  (load16 (mem (STMFD_sp_r0_r3_r12_lr c)) (lr c - 2)) (2 ^ 8)).
    split; [lia|]. intros _. lia.
  - rewrite Z.land_ones by lia.
    pose proof (Z.mod_pos_bound
                  (load32 (mem (STMFD_sp_r0_r3_r12_lr c)) (lr c - 4)) (2 ^ 24)).
    split; [lia|]. intros Hthumb. discriminate Hthumb.
Qed.

Lemma svc_isr_id_range_witness :
  0 ≤ svc_id (__svc_isr 5 __svc_handler thumb_trap) < 2 ^ 24.
Proof. apply (proj1 (svc_isr_id_range 5 __svc_handler thumb_trap ltac:(lia))). Defined.

Lemma load8_store8_same m a v : load8 (store8 m a v) a = v mod 2 ^ 8.
Proof.
  unfold load8, store8. rewrite Z.eqb_refl. apply Z.mod_mod. lia.
Qed.

Ltac wrap_neq :=
  unfold u32, UINT_MODULUS; Z.div_mod_to_equations; lia.

Lemma load32_store32_same m a v :
  word v → load32 (store32 m a v) a = v.
Proof.
  intros Hv. unfold word, UINT_MODULUS in Hv. unfold load32, store32.
  rewrite (load8_store8_other _ (a + 3) _ a) by wrap_neq.
  rewrite (load8_store8_other _ (a + 2) _ a) by wrap_neq.
  rewrite (load8_store8_other _ (a + 1) _ a) by wrap_neq.
  rewrite load8_store8_same.
  rewrite (load8_store8_other _ (a + 3) _ (a + 1)) by wrap_neq.
  rewrite (load8_store8_other _ (a + 2) _ (a + 1)) by wrap_neq.
  rewrite load8_store8_same.
  rewrite (load8_store8_other _ (a + 3) _ (a + 2)) by wrap_neq.
  rewrite load8_store8_same.
  rewrite load8_store8_same.
  Z.div_mod_to_equations. lia.
Qed.

Lemma load32_store32_other m a v b :
  (∀ i j, 0 ≤ i < 4 → 0 ≤ j < 4 → u32 (b + i) ≠ u32 (a + j)) →
  load32 (store32 m a v) b = load32 m b.
Proof.
  intros Hne. unfold load32.
  rewrite !load8_store32_other; [done|..]; intros j Hj.
  - apply Hne; lia.
  - apply Hne; lia.
  - apply Hne; lia.
  - specialize (Hne 0 j). rewrite Z.add_0_r in Hne. apply Hne; lia.
Qed.

Lemma load32_ext m1 m2 a :
  (∀ j, 0 ≤ j < 4 → load8 m1 (a + j) = load8 m2 (a + j)) →
  load32 m1 a = load32 m2 a.
Proof.
  intros H. unfold load32.
  pose proof (H 0 ltac:(lia)) as H0. rewrite Z.add_0_r in H0.
  by rewrite H0, (H 1), (H 2), (H 3) by lia.
Qed.

(** The six words of the frame after the entry sequence has pushed them. *)
Lemma push_frame c :
  word (r0 c) → word (r1 c) → word (r2 c) → word (r3 c) → word (r12 c) →
  word (lr c) →
  let m := mem (STMFD_sp_r0_r3_r12_lr c) in
  let sp' := u32 (sp c - 24) in
  load32 m sp' = r0 c ∧ load32 m (sp' + 4) = r1 c ∧ load32 m (sp' + 8) = r2 c
  ∧ load32 m (sp' + 12) = r3 c ∧ load32 m (sp' + 16) = r12 c
  ∧ load32 m (sp' + 20) = lr c.
Proof.
  intros H0 H1 H2 H3 H12 Hlr. unfold STMFD_sp_r0_r3_r12_lr. cbn [mem].
  set (sp' := u32 (sp c - 24)).
  repeat split.
  - rewrite !load32_store32_other by (intros i j Hi Hj; wrap_neq).
    by apply load32_store32_same.
  - rewrite !load32_store32_other by (intros i j Hi Hj; wrap_neq).
    by apply load32_store32_same.
  - rewrite !load32_store32_other by (intros i j Hi Hj; wrap_neq).
    by apply load32_store32_same.
  - rewrite !load32_store32_other by (intros i j Hi Hj; wrap_neq).
    by apply load32_store32_same.
  - rewrite !load32_store32_other by (intros i j Hi Hj; wrap_neq).
    by apply load32_store32_same.
  - by apply load32_store32_same.
Qed.

(** X17: the second argument [__svc_isr] hands to the handler is the stack
    pointer after the push, 24 bytes below the stack pointer at the trap, and
    at the time of the call the four words it points to hold the caller's
    r0, r1, r2 and r3, in this order. *)
Theorem svc_isr_parameter_block tbit handler c :
  word (r0 c) → word (r1 c) → word (r2 c) → word (r3 c) → word (r12 c) →
  word (lr c) →
  let val := svc_val (__svc_isr tbit handler c) in
  let at_call := decode (Z.shiftl 1 tbit) c in
  val = u32 (sp c - 24)
  ∧ load32 (mem at_call) val = r0 c
  ∧ load32 (mem at_call) (val + 4) = r1 c
  ∧ load32 (mem at_call) (val + 8) = r2 c
  ∧ load32 (mem at_call) (val + 12) = r3 c.
Proof.
  intros H0 H1 H2 H3 H12 Hlr.
  destruct (decode_frame (Z.shiftl 1 tbit) c) as (_ & Hr1 & _ & Hmem).
  destruct (push_frame c H0 H1 H2 H3 H12 Hlr) as (P0 & P1 & P2 & P3 & _).
  unfold __svc_isr. cbn [svc_val]. cbv zeta. rewrite Hr1, Hmem. done.
Qed.

Lemma svc_isr_parameter_block_witness :
  svc_val (__svc_isr 5 __svc_handler arm_trap) = u32 (0x8000 - 24)
  ∧ load32 (mem (decode (Z.shiftl 1 5) arm_trap))
           (svc_val (__svc_isr 5 __svc_handler arm_trap) + 8) = 13.
Proof.
  destruct (svc_isr_parameter_block 5 __svc_handler arm_trap)
    as (Hval & _ & _ & Hr2 & _).
  1-6: split; vm_compute; (reflexivity || discriminate).
  split; [exact Hval|exact Hr2].
Defined.

(** X18: when the registers pushed on entry hold 32-bit values and the
    handler gives back the stack pointer and r12 it was given and leaves the
    six pushed words alone (as the default handler does), [__svc_isr] returns
    to the caller with r0-r3 and r12 as they were at the trap, the stack
    pointer back at its value at the trap, the program counter at the return
    address and the current status register equal to the status saved at the
    trap. *)
Theorem svc_isr_restores_caller tbit handler c :
  word (r0 c) → word (r1 c) → word (r2 c) → word (r3 c) → word (r12 c) →
  word (lr c) → word (sp c) →
  keeps_frame handler (decode (Z.shiftl 1 tbit) c) →
  let c' := svc_final (__svc_isr tbit handler c) in
  r0 c' = r0 c ∧ r1 c' = r1 c ∧ r2 c' = r2 c ∧ r3 c' = r3 c ∧ r12 c' = r12 c
  ∧ sp c' = sp c ∧ pc c' = lr c ∧ cpsr c' = spsr c.
Proof.
  intros H0 H1 H2 H3 H12 Hlr Hsp (Hksp & Hk12 & Hkmem).
  destruct (decode_frame (Z.shiftl 1 tbit) c) as (Hdsp & Hdr1 & Hdr12 & Hdmem).
  destruct (push_frame c H0 H1 H2 H3 H12 Hlr) as (P0 & P1 & P2 & P3 & P12 & Plr).
  unfold __svc_isr. cbn [svc_final]. cbv zeta.
  set (c1 := decode (Z.shiftl 1 tbit) c) in *.
  set (c2 := handler (r0 c1) (r1 c1) c1) in *.
  unfold LDMFD_sp_r0_r3_r12_pc, MSR_spsr_r12.
  cbn [r0 r1 r2 r3 r12 sp pc cpsr spsr mem set_spsr].
  rewrite Hksp, Hk12, Hdsp, Hdr12. rewrite Hdsp, Hdmem in Hkmem.
  assert (∀ off, 0 ≤ off ≤ 20 →
            load32 (mem c2) (u32 (sp c - 24) + off)
            = load32 (mem (STMFD_sp_r0_r3_r12_lr c)) (u32 (sp c - 24) + off)) as Hw.
  { intros off Hoff. apply load32_ext. intros j Hj.
    rewrite <- Z.add_assoc. apply Hkmem. lia. }
  pose proof (Hw 0 ltac:(lia)) as Hw0. rewrite Z.add_0_r in Hw0.
  rewrite Hw0, !Hw by lia.
  repeat split; try done.
  unfold word, UINT_MODULUS in Hsp. wrap_neq.
Qed.

Lemma svc_isr_restores_caller_witness :
  let c' := svc_final (__svc_isr 5 __svc_handler arm_trap) in
  r0 c' = 11 ∧ sp c' = 0x8000 ∧ pc c' = 0x1004 ∧ cpsr c' = 0x13.
Proof.
  intros c'.
  destruct (svc_isr_restores_caller 5 __svc_handler arm_trap)
    as (Hr0 & _ & _ & _ & _ & Hsp & Hpc & Hcpsr).
  1-7: split; vm_compute; (reflexivity || discriminate).
  - split; [reflexivity|]. split; [reflexivity|]. intros k Hk. reflexivity.
  - split; [exact Hr0|]. split; [exact Hsp|]. split; [exact Hpc|exact Hcpsr].
Defined.

End svc_frame.

(** ** The interrupt mask and initialisation *)

Lemma unregister_steps_irq_masked (ids : list HPSIRQSource) idxs status d :
  irq_masked (snd (foldl (unregister_step ids) (status, d) idxs)) = irq_masked d.
Proof.
  revert status d. induction idxs as [|i idxs IH]; intros status d; simpl; [done|].
  destruct (negb _); [|apply IH].
  by rewrite IH, doUnregister_irq_masked.
Qed.

(** X19: whatever the state of the driver and the arguments, the two
    registration routines leave the interrupt mask as they found it on every
    return except the allocation-failure one, and the two unregistration
    routines leave it as they found it on every return: IRQs that were masked
    by an outer caller are not unmasked, and IRQs that were unmasked are
    unmasked again. *)
Theorem mask_kept_unless_allocfail d :
  (∀ id f p heap,
     fst (HPS_IRQ_registerHandler id f p heap d) ≠ ERR_ALLOCFAIL →
     irq_masked (snd (HPS_IRQ_registerHandler id f p heap d)) = irq_masked d)
  ∧ (∀ ids fns ps count heap,
       fst (HPS_IRQ_registerHandlers ids fns ps count heap d) ≠ ERR_ALLOCFAIL →
       irq_masked (snd (HPS_IRQ_registerHandlers ids fns ps count heap d))
       = irq_masked d)
  ∧ (∀ id, irq_masked (snd (HPS_IRQ_unregisterHandler id d)) = irq_masked d)
  ∧ (∀ ids count,
       irq_masked (snd (HPS_IRQ_unregisterHandlers ids count d)) = irq_masked d).
Proof.
  split; [intros; by apply registerHandler_restores_mask|].
  split; [intros; by apply registerHandlers_restores_mask|].
  split; [intros; apply unregisterHandler_restores_mask|].
  intros ids count. unfold HPS_IRQ_unregisterHandlers.
  destruct (negb (HPS_IRQ_isInitialised d)); [done|].
  destruct ids as [ids|]; [|done]. apply unregister_steps_irq_masked.
Qed.

Lemma mask_kept_unless_allocfail_witness :
  let d := set_masked true (snd (HPS_IRQ_initialise FNull (power_on false))) in
  irq_masked (snd (HPS_IRQ_registerHandlers (Some [3; 9]) (Some [FUser 1; FUser 2])
                     None 2 (ReallocOk (λ _, mkIsrHandler 0 FNull 0 false)) d))
  = true.
Proof.
  intros d.
  apply (proj1 (proj2 (mask_kept_unless_allocfail d))). vm_compute. discriminate.
Defined.

(** X20: from any prior state, with handlers registered or IRQs masked,
    [HPS_IRQ_initialise] succeeds and leaves an initialised driver with an
    empty registry (afterwards the dispatch lookup finds no record and an
    unregister answers "not found", for every ID), IRQs unmasked, the given
    callback as unhandled-interrupt callback or the built-in one when null
    is given, and exactly three stores added to the log: 0xFFFF to the
    priority mask, 1 to the CPU-interface control and 1 to the distributor
    control, in this order. *)
Theorem initialise_resets cb d :
  let res := HPS_IRQ_initialise cb d in
  fst res = ERR_SUCCESS
  ∧ registry_inv (snd res)
  ∧ __isr_handler_count (snd res) = 0
  ∧ irq_masked (snd res) = false
  ∧ __isr_unhandledIRQCallback (snd res)
    = (if decide (cb = FNull) then FDefaultUnhandled else cb)
  ∧ effects (snd res)
    = effects d ++ [CpuIfStore (0x04 / 4) 0xFFFF; CpuIfStore (0x00 / 4) 0x1;
                    DistStore (0x000 / 4) 0x1]
  ∧ ∀ id, isr_lookup id (snd res) = None
          ∧ HPS_IRQ_unregisterHandler id (snd res) = (ERR_NOTFOUND, snd res).
Proof.
  assert (∀ id, isr_lookup id (snd (HPS_IRQ_initialise cb d)) = None
                ∧ HPS_IRQ_unregisterHandler id (snd (HPS_IRQ_initialise cb d))
                  = (ERR_NOTFOUND, snd (HPS_IRQ_initialise cb d))) as Hempty.
  { intros id. by destruct cb. }
  destruct cb; cbv zeta; (split; [reflexivity|]);
    (split; [split; [split; [reflexivity|reflexivity]|];
             split; [reflexivity|apply NoDup_nil_2]|]);
    (split; [reflexivity|]); (split; [reflexivity|]); (split; [reflexivity|]);
    (split; [|exact Hempty]); simpl; by rewrite <- !app_assoc.
Qed.
